(** * Subtronics gateway: payload normalization, alert rules, device store

    A shallow embedding of the ingestion pipeline of [index.js]:
    [parseSubtronicsPayload], [generateSubtronicsAlerts], the MQTT message
    handler for the topic [SubTronics/data], and the REST handlers that read
    and acknowledge alerts, followed by the properties established for them.

    - [JS] models the part of the JavaScript runtime the pipeline relies on:
      Number values (IEEE-754 binary64), strings, [parseInt], [parseFloat],
      [JSON.parse], [Date] and [Map].
    - [Gateway] is the program: exceptions are [option], the store and the
      calls made to the socket layer and to the alarm log are threaded
      through a state, and the clock is an argument.
    - The vocabulary that follows names what the properties speak about,
      among it the rules of the specification in its own words.
    - The properties come last. *)

From Stdlib Require Import ZArith List String Ascii Bool Lia.
From Stdlib Require Import DecimalString.
From Stdlib Require Import Floats.SpecFloat.
Import ListNotations.

Local Open Scope string_scope.
Local Open Scope Z_scope.

(* ===================================================================== *)
(** * The JavaScript runtime *)
(* ===================================================================== *)

Module JS.

(** ** Number values

    A Number is an IEEE-754 binary64 value.  It is represented by
    [spec_float] at precision 53 and maximal exponent 1024; the numbers
    built by the functions below are in canonical form ([valid_binary]). *)

Definition number := spec_float.

Definition prec : Z := 53.
Definition emax : Z := 1024.

Definition NaN : number := S754_nan.
Definition Infinity : number := S754_infinity false.
Definition zero : number := S754_zero false.

Definition is_nan (x : number) : bool :=
  match x with S754_nan => true | _ => false end.

Definition is_zero (x : number) : bool :=
  match x with S754_zero _ => true | _ => false end.

(** [x >= y], [x === y] on Numbers: false as soon as one side is NaN. *)
Definition geb (x y : number) : bool := SFleb y x.
Definition num_eqb (x y : number) : bool := SFeqb x y.

(** ToBoolean on a Number: [0], [-0] and [NaN] are falsy. *)
Definition num_truthy (x : number) : bool := negb (is_zero x || is_nan x).

(** [x || d] on Numbers. *)
Definition num_or (x d : number) : number := if num_truthy x then x else d.

(** The Number nearest to the integer [z]. *)
Definition of_Z (z : Z) : number := binary_normalize prec emax z 0 false.

Definition decimal_of_N (n : N) : string := NilZero.string_of_uint (N.to_uint n).

Definition decimal_of_Z (z : Z) : string :=
  match z with
  | Zneg p => "-" ++ decimal_of_N (Npos p)
  | _ => decimal_of_N (Z.to_N z)
  end.

(** Number of decimal digits of a positive integer. *)
Definition ndigits (z : Z) : Z := Z.of_nat (String.length (decimal_of_N (Z.to_N z))).

(** The Number nearest to [s * 10^q] (round to nearest, ties to even), with
    the sign [neg].  Literals far outside the binary64 range are cut short
    before any power of ten is computed. *)
Definition of_decimal (neg : bool) (s : Z) (q : Z) : number :=
  match s with
  | Zpos p =>
      if 400 <? ndigits s + q then S754_infinity neg
      else if ndigits s + q <? -400 then S754_zero neg
      else if 0 <=? q then binary_round prec emax neg (p * Z.to_pos (10 ^ q)) 0
      else SFdiv prec emax (S754_finite neg p 0) (S754_finite false (Z.to_pos (10 ^ (- q))) 0)
  | _ => S754_zero neg
  end.

(** *** Number::toString (radix 10)

    The shortest decimal digit string that reads back as the same Number,
    laid out as ECMAScript prescribes. *)

(** The exact value [m * 2^e] as a fraction. *)
Definition frac_of (m : positive) (e : Z) : Z * Z :=
  if 0 <=? e then (Zpos m * 2 ^ e, 1) else (Zpos m, 2 ^ (- e)).

(** [n] with [10^(n-1) <= num/den < 10^n]. *)
Definition decimal_exponent (num den : Z) : Z :=
  if den <=? num then ndigits (num / den)
  else
    let d := ndigits (den / num) in
    1 - (if den <=? num * 10 ^ (d - 1) then d - 1 else d).

(** [floor (num/den / 10^q)]. *)
Definition scaled_floor (num den q : Z) : Z :=
  if 0 <=? q then num / (den * 10 ^ q) else (num * 10 ^ (- q)) / den.

(** Is [s * 10^q] at most as far from [num/den] as [(s+1) * 10^q]? *)
Definition lower_is_closer (num den s q : Z) : bool :=
  if 0 <=? q then 2 * num <=? (2 * s + 1) * 10 ^ q * den
  else 2 * num * 10 ^ (- q) <=? (2 * s + 1) * den.

(** Search, for 1, 2, ... digits, the first digit count [k] at which a
    [k]-digit decimal reads back as [x]; returns the digits and the decimal
    exponent [n] of ECMAScript's [(n, k, s)]. *)
Fixpoint shortest_digits (fuel : nat) (x : number) (num den n k : Z) : string * Z :=
  let q := n - k in
  let lo := scaled_floor num den q in
  let hi := lo + 1 in
  let ok_lo := SFeqb (of_decimal false lo q) x in
  let ok_hi := SFeqb (of_decimal false hi q) x in
  let pick (s : Z) :=
    if s =? 10 ^ k then ("1", n + 1) else (decimal_of_Z s, n) in
  match fuel with
  | O => pick lo
  | S fuel' =>
      if ok_lo && ok_hi then pick (if lower_is_closer num den lo q then lo else hi)
      else if ok_lo then pick lo
      else if ok_hi then pick hi
      else shortest_digits fuel' x num den n (k + 1)
  end.

Fixpoint zeros (n : nat) : string :=
  match n with O => "" | S n' => "0" ++ zeros n' end.

Definition string_take (n : nat) (s : string) : string := substring 0 n s.
Definition string_drop (n : nat) (s : string) : string := substring n (String.length s - n) s.

Definition layout_digits (digits : string) (n : Z) : string :=
  let k := Z.of_nat (String.length digits) in
  if (k <=? n) && (n <=? 21) then digits ++ zeros (Z.to_nat (n - k))
  else if (0 <? n) && (n <=? 21) then
    string_take (Z.to_nat n) digits ++ "." ++ string_drop (Z.to_nat n) digits
  else if (-6 <? n) && (n <=? 0) then "0." ++ zeros (Z.to_nat (- n)) ++ digits
  else
    let e := n - 1 in
    let exp := (if 0 <=? e then "+" else "-") ++ decimal_of_Z (Z.abs e) in
    if k =? 1 then digits ++ "e" ++ exp
    else string_take 1 digits ++ "." ++ string_drop 1 digits ++ "e" ++ exp.

Definition Number_toString (x : number) : string :=
  match x with
  | S754_nan => "NaN"
  | S754_zero _ => "0"
  | S754_infinity s => if s then "-Infinity" else "Infinity"
  | S754_finite s m e =>
      let '(num, den) := frac_of m e in
      let '(digits, n) :=
        shortest_digits 17 (S754_finite false m e) num den (decimal_exponent num den) 1 in
      (if s then "-" else "") ++ layout_digits digits n
  end.

(** ** Strings

    A string is the sequence of the bytes of its UTF-8 encoding. *)

Definition code (c : ascii) : Z := Z.of_N (N_of_ascii c).

Definition byte (n : Z) : ascii := ascii_of_N (Z.to_N n).

Definition starts_with (p s : string) : bool := String.prefix p s.

(** One WhiteSpace or LineTerminator character at the head of [s]: the rest
    of the string after it.  TAB, LF, VT, FF, CR, SP, then U+00A0, U+1680,
    U+2000..U+200A, U+2028, U+2029, U+202F, U+205F, U+3000 and U+FEFF in
    their UTF-8 encodings. *)
Definition ws_prefix (s : string) : option string :=
  match s with
  | String c r =>
      let n := code c in
      if ((9 <=? n) && (n <=? 13)) || (n =? 32) then Some r
      else match r with
      | String c1 r1 =>
          let n1 := code c1 in
          if (n =? 194) && (n1 =? 160) then Some r1
          else match r1 with
          | String c2 r2 =>
              let n2 := code c2 in
              if (n =? 225) && (n1 =? 154) && (n2 =? 128) then Some r2
              else if (n =? 226) && (n1 =? 128)
                      && (((128 <=? n2) && (n2 <=? 138)) || (n2 =? 168) || (n2 =? 169) || (n2 =? 175))
                   then Some r2
              else if (n =? 226) && (n1 =? 129) && (n2 =? 159) then Some r2
              else if (n =? 227) && (n1 =? 128) && (n2 =? 128) then Some r2
              else if (n =? 239) && (n1 =? 187) && (n2 =? 191) then Some r2
              else None
          | _ => None
          end
      | _ => None
      end
  | _ => None
  end.

Fixpoint trim_start_from (fuel : nat) (s : string) : string :=
  match fuel with
  | O => s
  | S fuel' => match ws_prefix s with Some r => trim_start_from fuel' r | None => s end
  end.

Definition trimStart (s : string) : string := trim_start_from (String.length s) s.

Definition all_whitespace (s : string) : bool :=
  match trimStart s with EmptyString => true | _ => false end.

Fixpoint trimEnd (s : string) : string :=
  match s with
  | EmptyString => EmptyString
  | String c r => if all_whitespace s then EmptyString else String c (trimEnd r)
  end.

(** [String.prototype.trim]. *)
Definition trim (s : string) : string := trimEnd (trimStart s).

(** ** Reading numbers from strings *)

Definition digit_of (c : ascii) : option Z :=
  let n := code c in
  if (48 <=? n) && (n <=? 57) then Some (n - 48) else None.

Definition hex_digit_of (c : ascii) : option Z :=
  let n := code c in
  if (48 <=? n) && (n <=? 57) then Some (n - 48)
  else if (97 <=? n) && (n <=? 102) then Some (n - 87)
  else if (65 <=? n) && (n <=? 70) then Some (n - 55)
  else None.

(** Reads the longest prefix of digits in the given radix: the integer read
    on top of [acc], the number of digits read, and the rest. *)
Fixpoint read_digits (digit : ascii -> option Z) (radix : Z) (s : string) (acc cnt : Z)
  : Z * Z * string :=
  match s with
  | String c r =>
      match digit c with
      | Some d => read_digits digit radix r (radix * acc + d) (cnt + 1)
      | None => (acc, cnt, s)
      end
  | EmptyString => (acc, cnt, s)
  end.

Definition read_sign (s : string) : bool * string :=
  match s with
  | String "-" r => (true, r)
  | String "+" r => (false, r)
  | _ => (false, s)
  end.

(** The value of the longest prefix of [s] that is a StrUnsignedDecimalLiteral
    other than [Infinity]; NaN when there is none. *)
Definition read_decimal (neg : bool) (s : string) : number :=
  let '(ip, ni, r1) := read_digits digit_of 10 s 0 0 in
  let '(m, nf, r2) :=
    match r1 with
    | String "." r => read_digits digit_of 10 r ip 0
    | _ => (ip, 0, r1)
    end in
  if (ni =? 0) && (nf =? 0) then NaN
  else
    let e :=
      match r2 with
      | String c r =>
          if (code c =? 101) || (code c =? 69) then
            let '(eneg, r') := read_sign r in
            let '(ev, ne, _) := read_digits digit_of 10 r' 0 0 in
            if ne =? 0 then 0 else if eneg then - ev else ev
          else 0
      | EmptyString => 0
      end in
    of_decimal neg m (e - nf).

(** [parseFloat] on a string. *)
Definition parseFloat_string (s : string) : number :=
  let '(neg, r) := read_sign (trimStart s) in
  if starts_with "Infinity" r then S754_infinity neg else read_decimal neg r.

(** [parseInt] on a string, no radix given: radix 16 after a [0x] or [0X]
    prefix, 10 otherwise. *)
Definition parseInt_string (s : string) : number :=
  let '(neg, r) := read_sign (trimStart s) in
  let '(v, n, _) :=
    match r with
    | String "0" (String c r') =>
        if (code c =? 120) || (code c =? 88) then read_digits hex_digit_of 16 r' 0 0
        else read_digits digit_of 10 r 0 0
    | _ => read_digits digit_of 10 r 0 0
    end in
  if n =? 0 then NaN else of_decimal neg v 0.

(** ** Values *)

#[warnings="-register-all"]
Inductive value : Type :=
| VUndef
| VNull
| VBool (b : bool)
| VNum (x : number)
| VStr (s : string)
| VArr (elems : list value)
| VObj (props : list (string * value)).

(** Own properties of an object, in creation order; [JSON_parse] below never
    binds a key twice.  JavaScript lists the integer-like keys of an object
    first, in ascending order; here they stay where the text has them.  The
    program reads properties by name and never enumerates them, so the
    order shows in no result of this file. *)
Fixpoint lookup (k : string) (props : list (string * value)) : option value :=
  match props with
  | [] => None
  | (k', v) :: rest => if String.eqb k k' then Some v else lookup k rest
  end.

(** [obj[k] = v] on the own properties. *)
Fixpoint define (k : string) (v : value) (props : list (string * value))
  : list (string * value) :=
  match props with
  | [] => [(k, v)]
  | (k', v') :: rest =>
      if String.eqb k k' then (k', v) :: rest else (k', v') :: define k v rest
  end.

(** ToBoolean. *)
Definition truthy (v : value) : bool :=
  match v with
  | VUndef | VNull => false
  | VBool b => b
  | VNum x => num_truthy x
  | VStr s => negb (String.eqb s "")
  | VArr _ | VObj _ => true
  end.

Definition is_undefined (v : value) : bool :=
  match v with VUndef => true | _ => false end.

(** [v[k]] for the property names this program reads.  [None] is the
    TypeError raised on [null] and [undefined].  None of the names read by
    the program is an index, [length], or a member of [Object.prototype],
    [Array.prototype], [String.prototype], [Number.prototype] or
    [Boolean.prototype], so a read on anything but an object with that own
    property is [undefined]. *)
Definition get (v : value) (k : string) : option value :=
  match v with
  | VUndef | VNull => None
  | VObj props => Some (match lookup k props with Some x => x | None => VUndef end)
  | _ => Some VUndef
  end.

(** ToString, as applied by a template literal.  [None] is a TypeError: an
    object parsed from JSON whose own [toString] property shadows the
    inherited method has no callable conversion.  An array is the
    comma-joined conversion of its elements, [null] and [undefined] elements
    giving the empty string. *)
Fixpoint ToString (v : value) : option string :=
  match v with
  | VUndef => Some "undefined"
  | VNull => Some "null"
  | VBool b => Some (if b then "true" else "false")
  | VNum x => Some (Number_toString x)
  | VStr s => Some s
  | VArr elems =>
      (fix join (l : list value) : option string :=
         match l with
         | [] => Some ""
         | x :: rest =>
             let first :=
               match x with
               | VUndef | VNull => Some ""
               | _ => ToString x
               end in
             match first, rest with
             | Some a, [] => Some a
             | Some a, _ :: _ =>
                 match join rest with
                 | Some b => Some (a ++ "," ++ b)
                 | None => None
                 end
             | None, _ => None
             end
         end) elems
  | VObj props =>
      match lookup "toString" props with
      | Some _ => None
      | None => Some "[object Object]"
      end
  end.

(** [v.toString()]: a TypeError on [null] and [undefined] as well. *)
Definition toString_method (v : value) : option string :=
  match v with
  | VUndef | VNull => None
  | _ => ToString v
  end.

(** [parseFloat(v)].  On a Number the argument is first printed and then read
    back; every Number other than [-0] reads back as itself (as ECMAScript
    guarantees of Number::toString), and [-0] prints as ["0"]. *)
Definition parseFloat (v : value) : option number :=
  match v with
  | VNum x => Some (if is_zero x then zero else x)
  | _ => option_map parseFloat_string (ToString v)
  end.

(** [parseInt(v)]. *)
Definition parseInt (v : value) : option number :=
  option_map parseInt_string (ToString v).

(** ** JSON.parse

    [None] is the SyntaxError thrown on text that is not JSON. *)

Fixpoint skip_ws (s : string) : string :=
  match s with
  | String c r =>
      let n := code c in
      if (n =? 32) || (n =? 9) || (n =? 10) || (n =? 13) then skip_ws r else s
  | EmptyString => s
  end.

(** UTF-8 encoding of the code point (or lone surrogate) [cp], put in front
    of [rest]. *)
Definition utf8 (cp : Z) (rest : string) : string :=
  if cp <? 128 then String (byte cp) rest
  else if cp <? 2048 then
    String (byte (192 + cp / 64)) (String (byte (128 + cp mod 64)) rest)
  else if cp <? 65536 then
    String (byte (224 + cp / 4096))
      (String (byte (128 + (cp / 64) mod 64)) (String (byte (128 + cp mod 64)) rest))
  else
    String (byte (240 + cp / 262144))
      (String (byte (128 + (cp / 4096) mod 64))
         (String (byte (128 + (cp / 64) mod 64)) (String (byte (128 + cp mod 64)) rest))).

Definition flush (pending : option Z) (rest : string) : string :=
  match pending with Some hi => utf8 hi rest | None => rest end.

Definition hex4 (a b c d : ascii) : option Z :=
  match hex_digit_of a, hex_digit_of b, hex_digit_of c, hex_digit_of d with
  | Some x, Some y, Some z, Some w => Some (((x * 16 + y) * 16 + z) * 16 + w)
  | _, _, _, _ => None
  end.

(** The characters of a string literal after its opening quote, up to the
    closing quote: the string denoted and the text after the literal.
    [pending] is a high surrogate read from a [\u] escape and not yet
    paired. *)
Fixpoint read_string (s : string) (pending : option Z) : option (string * string) :=
  match s with
  | EmptyString => None
  | String c r =>
      let n := code c in
      if n =? 34 then Some (flush pending EmptyString, r)
      else if n <? 32 then None
      else if n =? 92 then
        match r with
        | String "u" (String h1 (String h2 (String h3 (String h4 r')))) =>
            match hex4 h1 h2 h3 h4 with
            | Some u =>
                if (55296 <=? u) && (u <=? 56319) then
                  match read_string r' (Some u) with
                  | Some (t, rest) => Some (flush pending t, rest)
                  | None => None
                  end
                else
                  let here :=
                    match pending with
                    | Some hi =>
                        if (56320 <=? u) && (u <=? 57343)
                        then utf8 (65536 + (hi - 55296) * 1024 + (u - 56320))
                        else fun t => utf8 hi (utf8 u t)
                    | None => utf8 u
                    end in
                  match read_string r' None with
                  | Some (t, rest) => Some (here t, rest)
                  | None => None
                  end
            | None => None
            end
        | String e r' =>
            let m := code e in
            let plain :=
              if (m =? 34) || (m =? 92) || (m =? 47) then Some m
              else if m =? 98 then Some 8
              else if m =? 102 then Some 12
              else if m =? 110 then Some 10
              else if m =? 114 then Some 13
              else if m =? 116 then Some 9
              else None in
            match plain with
            | Some k =>
                match read_string r' None with
                | Some (t, rest) => Some (flush pending (String (byte k) t), rest)
                | None => None
                end
            | None => None
            end
        | EmptyString => None
        end
      else
        match read_string r None with
        | Some (t, rest) => Some (flush pending (String c t), rest)
        | None => None
        end
  end.

(** A JSON number: [-]? int frac? exp?, no leading zero, digits required
    after the point and after the exponent mark. *)
Definition read_number (s : string) : option (number * string) :=
  let '(neg, r0) := match s with String "-" r => (true, r) | _ => (false, s) end in
  let '(ip, ni, r1) := read_digits digit_of 10 r0 0 0 in
  if (ni =? 0) || (starts_with "0" r0 && (1 <? ni)) then None
  else
    let frac :=
      match r1 with
      | String "." r =>
          let '(m, nf, r2) := read_digits digit_of 10 r ip 0 in
          if nf =? 0 then None else Some (m, nf, r2)
      | _ => Some (ip, 0, r1)
      end in
    match frac with
    | None => None
    | Some (m, nf, r2) =>
        match r2 with
        | String c r =>
            if (code c =? 101) || (code c =? 69) then
              let '(eneg, r') := read_sign r in
              let '(ev, ne, r3) := read_digits digit_of 10 r' 0 0 in
              if ne =? 0 then None
              else Some (of_decimal neg m ((if eneg then - ev else ev) - nf), r3)
            else Some (of_decimal neg m (- nf), r2)
        | EmptyString => Some (of_decimal neg m (- nf), r2)
        end
    end.

Fixpoint read_value (fuel : nat) (s : string) {struct fuel} : option (value * string) :=
  match fuel with
  | O => None
  | S fuel' =>
      match skip_ws s with
      | String "{" r =>
          match skip_ws r with
          | String "}" r' => Some (VObj [], r')
          | r' => read_members fuel' r' []
          end
      | String "[" r =>
          match skip_ws r with
          | String "]" r' => Some (VArr [], r')
          | r' => read_elements fuel' r' []
          end
      | String c r as t =>
          if code c =? 34 then
            match read_string r None with
            | Some (str, rest) => Some (VStr str, rest)
            | None => None
            end
          else if starts_with "true" t then Some (VBool true, string_drop 4 t)
          else if starts_with "false" t then Some (VBool false, string_drop 5 t)
          else if starts_with "null" t then Some (VNull, string_drop 4 t)
          else
            match read_number t with
            | Some (x, rest) => Some (VNum x, rest)
            | None => None
            end
      | EmptyString => None
      end
  end
with read_elements (fuel : nat) (s : string) (acc : list value) {struct fuel}
  : option (value * string) :=
  match fuel with
  | O => None
  | S fuel' =>
      match read_value fuel' s with
      | Some (v, r) =>
          match skip_ws r with
          | String "," r' => read_elements fuel' r' (v :: acc)
          | String "]" r' => Some (VArr (rev (v :: acc)), r')
          | _ => None
          end
      | None => None
      end
  end
with read_members (fuel : nat) (s : string) (acc : list (string * value)) {struct fuel}
  : option (value * string) :=
  match fuel with
  | O => None
  | S fuel' =>
      match skip_ws s with
      | String c r =>
          if code c =? 34 then
            match read_string r None with
            | Some (k, r1) =>
                match skip_ws r1 with
                | String ":" r2 =>
                    match read_value fuel' r2 with
                    | Some (v, r3) =>
                        match skip_ws r3 with
                        | String "," r4 => read_members fuel' r4 (define k v acc)
                        | String "}" r4 => Some (VObj (define k v acc), r4)
                        | _ => None
                        end
                    | None => None
                    end
                | _ => None
                end
            | None => None
            end
          else None
      | EmptyString => None
      end
  end.

Definition JSON_parse (text : string) : option value :=
  match read_value (2 * String.length text + 2) text with
  | Some (v, rest) =>
      match skip_ws rest with
      | EmptyString => Some v
      | _ => None
      end
  | None => None
  end.

(** ** Date

    A time value is the number of milliseconds since the epoch, as
    [Date.now()] returns it; the clock's readings are within the range in
    which [toISOString] is defined and print without an exponent. *)

Definition pad (width : nat) (z : Z) : string :=
  let d := decimal_of_Z z in
  zeros (width - String.length d) ++ d.

(** [new Date(t).toISOString()]. *)
Definition toISOString (t : Z) : string :=
  let days := t / 86400000 in
  let ms := t mod 86400000 in
  let z := days + 719468 in
  let era := z / 146097 in
  let doe := z - era * 146097 in
  let yoe := (doe - doe / 1460 + doe / 36524 - doe / 146096) / 365 in
  let doy := doe - (365 * yoe + yoe / 4 - yoe / 100) in
  let mp := (5 * doy + 2) / 153 in
  let d := doy - (153 * mp + 2) / 5 + 1 in
  let m := if mp <? 10 then mp + 3 else mp - 9 in
  let y := yoe + era * 400 + (if m <=? 2 then 1 else 0) in
  let year :=
    if (0 <=? y) && (y <=? 9999) then pad 4 y
    else (if y <? 0 then "-" else "+") ++ pad 6 (Z.abs y) in
  year ++ "-" ++ pad 2 m ++ "-" ++ pad 2 d ++ "T"
    ++ pad 2 (ms / 3600000) ++ ":" ++ pad 2 ((ms / 60000) mod 60) ++ ":"
    ++ pad 2 ((ms / 1000) mod 60) ++ "." ++ pad 3 (ms mod 1000) ++ "Z".

(** ** Map

    Keys are compared by SameValueZero.  An object or array used as a key
    is compared by identity; every such key of this program is freshly
    built by [JSON_parse] for one message, so it is equal to no key already
    in the map and to no key of a later message.  Within one message the
    same serial number is passed to every call of [logAlarmEvent]: for a
    serial number that is an array or an object the second call finds the
    log of the first, which this comparison does not show.  The properties
    of the alarm log that look a key up again assume a key equal to
    itself, which leaves those serial numbers out. *)

Definition same_value_zero (a b : value) : bool :=
  match a, b with
  | VUndef, VUndef => true
  | VNull, VNull => true
  | VBool x, VBool y => Bool.eqb x y
  | VNum x, VNum y => (is_nan x && is_nan y) || num_eqb x y
  | VStr x, VStr y => String.eqb x y
  | _, _ => false
  end.

Section MapOf.
Variable V : Type.

(** Entries in insertion order. *)
Definition Map := list (value * V).

Fixpoint Map_get (k : value) (m : Map) : option V :=
  match m with
  | [] => None
  | (k', v) :: rest => if same_value_zero k k' then Some v else Map_get k rest
  end.

Fixpoint Map_set (k : value) (v : V) (m : Map) : Map :=
  match m with
  | [] => [(k, v)]
  | (k', v') :: rest =>
      if same_value_zero k k' then (k', v) :: rest else (k', v') :: Map_set k v rest
  end.

End MapOf.

Arguments Map_get {V} k m.
Arguments Map_set {V} k v m.

End JS.

(* ===================================================================== *)
(** * The gateway *)
(* ===================================================================== *)

Module Gateway.
Import JS.

(** ** Exceptions and effects *)

Class Monad (M : Type -> Type) : Type := {
  ret : forall {A : Type}, A -> M A;
  bind : forall {A B : Type}, M A -> (A -> M B) -> M B
}.

Notation "x <- m ;; k" := (bind m (fun x => k))
  (at level 61, m at next level, right associativity).
Notation "m ;; k" := (bind m (fun _ => k))
  (at level 61, right associativity).

(** Code that may throw: [None] is the exception. *)
#[global] Instance option_Monad : Monad option := {
  ret := fun A a => Some a;
  bind := fun A B m k => match m with Some a => k a | None => None end
}.

(** [a || b] with [b] evaluated only when [a] is falsy. *)
Definition orM (a b : option value) : option value :=
  x <- a ;; if truthy x then Some x else b.

Definition num_orM (a b : option number) : option number :=
  x <- a ;; if num_truthy x then Some x else b.

Infix "|||" := orM (at level 50, left associativity).

(** The system clock.  Each call site of [new Date()] or [Date.now()] reads
    it once per invocation; a [clock] gives the reading at each site. *)
Inductive clock_site : Type :=
| Timestamp        (* parseSubtronicsPayload, timestamp fall-back *)
| ProcessedAt      (* parseSubtronicsPayload, processed_at *)
| FaultId | FaultTimestamp
| A3Id | A3Timestamp
| A2Id | A2Timestamp
| A1Id | A1Timestamp
| Broadcast        (* the message handler's device:data event *)
| AcknowledgedAt.  (* the acknowledge handler *)

Definition clock := clock_site -> Z.

(** ** The normalized payload *)

Module Normalized.
Record t : Type := {
  device_name : value;
  serial_number : value;
  gas_type : value;
  timestamp : value;
  unit : string;
  message_type : value;
  sender : value;
  sensor_reading : number;
  offset : number;
  alarm_status : string;
  span_high : number;
  span_low : number;
  a1_level : number;
  a2_level : number;
  a3_level : number;
  decimal_point : number;
  a1_type : value;
  a1_hysteresis : number;
  a1_latching : number;
  a1_siren : number;
  a1_buzzer : number;
  alarm1_led : number;
  alarm2_led : number;
  alarm3_led : number;
  sensor_fault : number;
  latitude : value;
  longitude : value;
  raw_message : value;
  processed_at : string;
  data_quality : string
}.
End Normalized.

(** [parseInt(v) || d] and [parseFloat(v) || d]. *)
Definition parseInt_or (v : value) (d : number) : option number :=
  num_orM (parseInt v) (Some d).

Definition parseFloat_or (v : value) (d : number) : option number :=
  num_orM (parseFloat v) (Some d).

(** [parseInt(params[k]) || d]. *)
Definition parseInt_at (params : value) (k : string) (d : number) : option number :=
  v <- get params k ;; parseInt_or v d.

Definition one : number := of_Z 1.

(** The unit of measurement before [toString().trim()]. *)
Definition resolve_unit (data params : value) : option value :=
  pu1 <- get params "Unit of Measurement " ;;
  if negb (is_undefined pu1) then
    unitCode <- parseInt pu1 ;;
    Some (VStr (if num_eqb unitCode one then "ppm" else "ppm"))
  else
    pu2 <- get params "Unit of Measurement" ;;
    if negb (is_undefined pu2) then Some pu2
    else
      du1 <- get data "Unit of Measurement " ;;
      if negb (is_undefined du1) then Some du1
      else
        du2 <- get data "Unit of Measurement" ;;
        if negb (is_undefined du2) then Some du2
        else Some (VStr "ppm").

(** The gas concentration: Live Sensor Readings (with or without the
    trailing space), then Sensor Reading, then Offset. *)
Definition resolve_reading (data params : value) : option number :=
  l1 <- get params "Live Sensor Readings " ;;
  if negb (is_undefined l1) then parseFloat l1
  else
    l2 <- get params "Live Sensor Readings" ;;
    if negb (is_undefined l2) then parseFloat l2
    else
      sr <- get data "Sensor Reading" ;;
      if negb (is_undefined sr) then parseFloat sr
      else
        o <- get params "Offset" ;;
        if negb (is_undefined o) then parseFloat o
        else Some zero.

Definition parseSubtronicsPayload (clk : clock) (rawJson : value) : option Normalized.t :=
  data <- match rawJson with VStr text => JSON_parse text | _ => Some rawJson end ;;
  deviceName <- get data "Device Alias Name" ||| get data "Device Alise Name"
                ||| Some (VStr "Unknown Device") ;;
  serialNumber <- get data "OTSM-2 Serial Number" ||| Some (VStr "Unknown") ;;
  gasType <- get data "Gas" ||| Some (VStr "Unknown Gas") ;;
  timestamp <- get data "Date Time At Reading" ||| get data "timestamp"
               ||| Some (VStr (toISOString (clk Timestamp))) ;;
  messageType <- get data "Message Type" ||| Some (VStr "LOG DATA") ;;
  sender <- get data "Sender" ||| Some (VStr "Device") ;;
  params <- get data "Parameters" ||| Some (VObj []) ;;
  unit <- resolve_unit data params ;;
  gasConcentration <- resolve_reading data params ;;
  alarm1Led <- parseInt_at params "Alarm 1 LED Status" zero ;;
  alarm2Led <- parseInt_at params "Alarm 2 LED Status" zero ;;
  alarm3Led <- parseInt_at params "Alarm 3 LED Status" zero ;;
  sensorFault <- num_orM (num_orM (v <- get params "Sensor Fault" ;; parseInt v)
                                  (v <- get params "SensorFault" ;; parseInt v))
                         (Some zero) ;;
  let alarmStatus :=
    if num_eqb sensorFault one || num_eqb alarm3Led one
       || num_eqb alarm2Led one || num_eqb alarm1Led one
    then "ALARM" else "NORMAL" in
  latitude <- get data "lat" ||| get params "lat" ||| Some (VStr "0.00") ;;
  longitude <- get data "long" ||| get params "long" ||| Some (VStr "0.00") ;;
  unit_text <- toString_method unit ;;
  span_high <- parseInt_at params "Span High" (of_Z 2000) ;;
  span_low <- parseInt_at params "Span Low" zero ;;
  a1_level <- parseInt_at params "Alarm Level A1" (of_Z 250) ;;
  a2_level <- parseInt_at params "Alarm Level A2" (of_Z 500) ;;
  a3_level <- parseInt_at params "Alarm Level A3" (of_Z 1000) ;;
  decimal_point <- parseInt_at params "Decimal Point" zero ;;
  a1_type <- get params "A1Type" ||| Some (VStr "High") ;;
  a1_hysteresis <- parseInt_at params "A1Hysterysis" zero ;;
  a1_latching <- parseInt_at params "A1Latching" zero ;;
  a1_siren <- parseInt_at params "A1Siren" zero ;;
  a1_buzzer <- parseInt_at params "A1Buzzer" zero ;;
  Some {|
    Normalized.device_name := deviceName;
    Normalized.serial_number := serialNumber;
    Normalized.gas_type := gasType;
    Normalized.timestamp := timestamp;
    Normalized.unit := trim unit_text;
    Normalized.message_type := messageType;
    Normalized.sender := sender;
    Normalized.sensor_reading := gasConcentration;
    Normalized.offset := gasConcentration;
    Normalized.alarm_status := alarmStatus;
    Normalized.span_high := span_high;
    Normalized.span_low := span_low;
    Normalized.a1_level := a1_level;
    Normalized.a2_level := a2_level;
    Normalized.a3_level := a3_level;
    Normalized.decimal_point := decimal_point;
    Normalized.a1_type := a1_type;
    Normalized.a1_hysteresis := a1_hysteresis;
    Normalized.a1_latching := a1_latching;
    Normalized.a1_siren := a1_siren;
    Normalized.a1_buzzer := a1_buzzer;
    Normalized.alarm1_led := alarm1Led;
    Normalized.alarm2_led := alarm2Led;
    Normalized.alarm3_led := alarm3Led;
    Normalized.sensor_fault := sensorFault;
    Normalized.latitude := latitude;
    Normalized.longitude := longitude;
    Normalized.raw_message := data;
    Normalized.processed_at := toISOString (clk ProcessedAt);
    Normalized.data_quality := "good"
  |}.

(** ** Alerts *)

Module Alert.
Record t : Type := {
  id : string;
  type : string;
  severity : string;
  message : string;
  timestamp : string;
  device_name : value;
  serial_number : value;
  threshold : option number;          (* absent on a sensor_fault alert *)
  current_value : number;
  unit : string;
  gas_type : value;
  acknowledged_at : option string;    (* absent until acknowledged *)
  acknowledged_by : option value
}.

(** [alert.acknowledged_at = when; alert.acknowledged_by = who]. *)
Definition acknowledge (when : string) (who : value) (a : t) : t :=
  {| id := id a; type := type a; severity := severity a; message := message a;
     timestamp := timestamp a; device_name := device_name a;
     serial_number := serial_number a; threshold := threshold a;
     current_value := current_value a; unit := unit a; gas_type := gas_type a;
     acknowledged_at := Some when; acknowledged_by := Some who |}.
End Alert.

(** ** The store, the socket and the program state *)

(** What [subtronicsData] holds under a key: a normalized payload, stored
    under the device id, or a list of alerts, stored under the device id
    followed by [_alerts]. *)
Inductive entry : Type :=
| Record_ (data : Normalized.t)
| Alerts (alerts : list Alert.t).

Inductive payload : Type :=
| DeviceData (deviceId : value) (data : Normalized.t) (timestamp : string)
| DeviceAlerts (deviceId : value) (alerts : list Alert.t).

(** What the pipeline does to its collaborators, oldest first: an event
    sent to a socket room, and a call of [logAlarmEvent], whose body belongs
    to the alarm log. *)
Inductive effect : Type :=
| Emit (room event : string) (body : payload)
| LogAlarmEvent (deviceId : value) (alarmData : Alert.t).

Record State : Type := {
  subtronicsData : Map entry;
  effects : list effect
}.

(** Code that reads and writes the state and may throw; what was done
    before a throw stays done. *)
Definition Run (A : Type) : Type := State -> option A * State.

#[global] Instance Run_Monad : Monad Run := {
  ret := fun A a st => (Some a, st);
  bind := fun A B m k st =>
            match m st with
            | (Some a, st') => k a st'
            | (None, st') => (None, st')
            end
}.

(** A pure computation that may throw. *)
Definition lift {A : Type} (o : option A) : Run A := fun st => (o, st).

Definition perform (e : effect) : Run unit :=
  fun st => (Some tt, {| subtronicsData := subtronicsData st;
                         effects := (effects st ++ [e])%list |}).

Definition store_get (k : value) : Run (option entry) :=
  fun st => (Some (Map_get k (subtronicsData st)), st).

Definition store_set (k : value) (e : entry) : Run unit :=
  fun st => (Some tt, {| subtronicsData := Map_set k e (subtronicsData st);
                         effects := effects st |}).

(** [try { body } catch (err) { console.error(...) }]. *)
Definition try_catch (body : Run unit) : State -> State :=
  fun st => snd (body st).

Definition logAlarmEvent (deviceId : value) (alarmData : Alert.t) : Run unit :=
  perform (LogAlarmEvent deviceId alarmData).

(** ** generateSubtronicsAlerts *)

(** The alert object built in each of the three threshold branches. *)
Definition threshold_alert (clk : clock) (data : Normalized.t)
    (prefix type severity label : string) (id_site time_site : clock_site)
    (level sensorReading : number) : option Alert.t :=
  serial <- ToString (Normalized.serial_number data) ;;
  Some {|
    Alert.id := prefix ++ "_" ++ serial ++ "_" ++ decimal_of_Z (clk id_site);
    Alert.type := type;
    Alert.severity := severity;
    Alert.message := "Gas concentration above " ++ label ++ " threshold ("
                     ++ Number_toString level ++ " " ++ Normalized.unit data ++ ")";
    Alert.timestamp := toISOString (clk time_site);
    Alert.device_name := Normalized.device_name data;
    Alert.serial_number := Normalized.serial_number data;
    Alert.threshold := Some level;
    Alert.current_value := sensorReading;
    Alert.unit := Normalized.unit data;
    Alert.gas_type := Normalized.gas_type data;
    Alert.acknowledged_at := None;
    Alert.acknowledged_by := None
  |}.

Definition fault_alert (clk : clock) (data : Normalized.t) : option Alert.t :=
  serial <- ToString (Normalized.serial_number data) ;;
  Some {|
    Alert.id := "fault_" ++ serial ++ "_" ++ decimal_of_Z (clk FaultId);
    Alert.type := "sensor_fault";
    Alert.severity := "critical";
    Alert.message := "Sensor fault detected";
    Alert.timestamp := toISOString (clk FaultTimestamp);
    Alert.device_name := Normalized.device_name data;
    Alert.serial_number := Normalized.serial_number data;
    Alert.threshold := None;
    Alert.current_value := Normalized.sensor_reading data;
    Alert.unit := Normalized.unit data;
    Alert.gas_type := Normalized.gas_type data;
    Alert.acknowledged_at := None;
    Alert.acknowledged_by := None
  |}.

Definition generateSubtronicsAlerts (clk : clock) (data : Normalized.t)
  : Run (list Alert.t) :=
  alerts <- (if num_eqb (Normalized.sensor_fault data) one then
               alert <- lift (fault_alert clk data) ;;
               logAlarmEvent (Normalized.serial_number data) alert ;;
               ret [alert]
             else ret []) ;;
  sensorReading <- lift (parseFloat_or (VNum (Normalized.sensor_reading data)) zero) ;;
  a1Level <- lift (parseFloat_or (VNum (Normalized.a1_level data)) (of_Z 250)) ;;
  a2Level <- lift (parseFloat_or (VNum (Normalized.a2_level data)) (of_Z 500)) ;;
  a3Level <- lift (parseFloat_or (VNum (Normalized.a3_level data)) (of_Z 1000)) ;;
  if geb sensorReading a3Level then
    alert <- lift (threshold_alert clk data "alarm3" "alarm_level_3" "critical" "A3"
                     A3Id A3Timestamp a3Level sensorReading) ;;
    logAlarmEvent (Normalized.serial_number data) alert ;;
    ret (alerts ++ [alert])%list
  else if geb sensorReading a2Level then
    alert <- lift (threshold_alert clk data "alarm2" "alarm_level_2" "high" "A2"
                     A2Id A2Timestamp a2Level sensorReading) ;;
    logAlarmEvent (Normalized.serial_number data) alert ;;
    ret (alerts ++ [alert])%list
  else if geb sensorReading a1Level then
    alert <- lift (threshold_alert clk data "alarm1" "alarm_level_1" "warning" "A1"
                     A1Id A1Timestamp a1Level sensorReading) ;;
    logAlarmEvent (Normalized.serial_number data) alert ;;
    ret (alerts ++ [alert])%list
  else ret alerts.

(** ** The MQTT message handler *)

(** The key [`${deviceId}_alerts`]. *)
Definition alerts_key (deviceId : value) : option value :=
  s <- ToString deviceId ;; Some (VStr (s ++ "_alerts")).

Definition room_of (deviceId : value) : option string :=
  s <- ToString deviceId ;; Some ("device:" ++ s).

(** [[...existingAlerts, ...alerts]]: spreading a stored payload, which is
    not iterable, is a TypeError. *)
Definition spread (existing : option entry) : option (list Alert.t) :=
  match existing with
  | None => Some []
  | Some (Alerts l) => Some l
  | Some (Record_ _) => None
  end.

(** The handler's branch for the topic [SubTronics/data].  The branches for
    the other topics write [deviceData] and [pendingCommands] only, which
    are not part of [State]. *)
Definition on_message (clk : clock) (topic message : string) : State -> State :=
  try_catch (
    data <- lift (JSON_parse message) ;;
    if String.eqb topic "SubTronics/data" then
      match parseSubtronicsPayload clk data with
      | Some normalized =>
          let deviceId := Normalized.serial_number normalized in
          store_set deviceId (Record_ normalized) ;;
          room <- lift (room_of deviceId) ;;
          perform (Emit room "device:data"
                     (DeviceData deviceId normalized (toISOString (clk Broadcast)))) ;;
          alerts <- generateSubtronicsAlerts clk normalized ;;
          if (0 <? Z.of_nat (List.length alerts)) then
            key <- lift (alerts_key deviceId) ;;
            existing <- store_get key ;;
            existingAlerts <- lift (spread existing) ;;
            store_set key (Alerts (existingAlerts ++ alerts)%list) ;;
            room' <- lift (room_of deviceId) ;;
            perform (Emit room' "device:alerts" (DeviceAlerts deviceId alerts))
          else ret tt
      | None => ret tt
      end
    else ret tt).

(** ** REST handlers *)

Inductive response (A : Type) : Type :=
| Json (body : A)           (* res.json(body) *)
| Status404                 (* res.status(404).json({ error: 'Alert not found' }) *)
| Status500.                (* an exception reaching the framework *)
Arguments Json {A} body.
Arguments Status404 {A}.
Arguments Status500 {A}.

(** GET /devices/:deviceId/subtronics/alerts *)
Definition get_alerts (deviceId : string) (st : State) : response entry :=
  match Map_get (VStr (deviceId ++ "_alerts")) (subtronicsData st) with
  | Some e => Json e
  | None => Json (Alerts [])
  end.

(** [alerts.findIndex(alert => alert.id === alertId)], [None] for [-1]. *)
Fixpoint findIndex (alertId : string) (alerts : list Alert.t) : option nat :=
  match alerts with
  | [] => None
  | a :: rest =>
      if String.eqb (Alert.id a) alertId then Some O
      else option_map S (findIndex alertId rest)
  end.

(** The array after the assignments to [alerts[alertIndex]]. *)
Fixpoint update_at (i : nat) (f : Alert.t -> Alert.t) (alerts : list Alert.t)
  : list Alert.t :=
  match alerts, i with
  | [], _ => []
  | a :: rest, O => f a :: rest
  | a :: rest, S i' => a :: update_at i' f rest
  end.

(** POST /devices/:deviceId/subtronics/alerts/:alertId/acknowledge, with
    [acknowledged_by] read from the request body ([undefined] if absent).
    [true] in the body is [{ success: true }].  After the alert is updated
    and the list stored, the handler prints [acknowledged_by] in a template
    literal: for an identity without a string conversion that line throws,
    and the answer is 500 with the update made. *)
Definition acknowledge (clk : clock) (deviceId alertId : string) (acknowledged_by : value)
    (st : State) : response bool * State :=
  let key := VStr (deviceId ++ "_alerts") in
  match Map_get key (subtronicsData st) with
  | Some (Record_ _) => (Status500, st)       (* alerts.findIndex is not a function *)
  | other =>
      let alerts := match other with Some (Alerts l) => l | _ => [] end in
      match findIndex alertId alerts with
      | Some alertIndex =>
          let alerts' :=
            update_at alertIndex
              (Alert.acknowledge (toISOString (clk AcknowledgedAt)) acknowledged_by) alerts in
          let st' := {| subtronicsData := Map_set key (Alerts alerts') (subtronicsData st);
                        effects := effects st |} in
          match ToString acknowledged_by with
          | Some _ => (Json true, st')
          | None => (Status500, st')          (* the log line throws *)
          end
      | None => (Status404, st)
      end
  end.

End Gateway.

(* ===================================================================== *)
(** * The other handlers of the gateway *)
(* ===================================================================== *)

Module Endpoints.
Import JS Gateway.

(** [subtronicsData.has(k)] and [subtronicsData.size]. *)
Definition has (k : value) (st : State) : bool :=
  match Map_get k (subtronicsData st) with Some _ => true | None => false end.

Definition size (st : State) : nat := List.length (subtronicsData st).

(** ** GET /devices/:deviceId/subtronics/telemetry/latest *)

(** [s.replace('T', ' ')]: the first [T] becomes a space. *)
Fixpoint replace_T (s : string) : string :=
  match s with
  | EmptyString => EmptyString
  | String c r => if code c =? 84 then String (byte 32) r else String c (replace_T r)
  end.

Inductive mock_site : Type :=
| MockTimestamp
| MockProcessedAt.

(** The mock payload served for a device that has none.  It has no
    [raw_message] property; reading one gives [undefined], which is what the
    field holds here, and [res.json] leaves out either. *)
Definition mockData (now : mock_site -> Z) : Normalized.t :=
  {| Normalized.device_name := VStr "Gas Sensor Block1";
     Normalized.serial_number := VStr "OTSM-0114";
     Normalized.gas_type := VStr "Carbon Monoxide (CO)";
     Normalized.timestamp :=
       VStr (string_take 19 (replace_T (toISOString (now MockTimestamp))));
     Normalized.unit := "ppm";
     Normalized.message_type := VStr "LOG DATA";
     Normalized.sender := VStr "Device";
     Normalized.sensor_reading := of_Z 0;
     Normalized.offset := of_Z 0;
     Normalized.alarm_status := "NORMAL";
     Normalized.span_high := of_Z 2000;
     Normalized.span_low := of_Z 0;
     Normalized.a1_level := of_Z 250;
     Normalized.a2_level := of_Z 500;
     Normalized.a3_level := of_Z 1000;
     Normalized.decimal_point := of_Z 0;
     Normalized.a1_type := VStr "High";
     Normalized.a1_hysteresis := of_Z 0;
     Normalized.a1_latching := of_Z 0;
     Normalized.a1_siren := of_Z 0;
     Normalized.a1_buzzer := of_Z 0;
     Normalized.alarm1_led := of_Z 0;
     Normalized.alarm2_led := of_Z 0;
     Normalized.alarm3_led := of_Z 0;
     Normalized.sensor_fault := of_Z 0;
     Normalized.latitude := VStr "19.0760";
     Normalized.longitude := VStr "72.8777";
     Normalized.raw_message := VUndef;
     Normalized.processed_at := toISOString (now MockProcessedAt);
     Normalized.data_quality := "good" |}.

Definition get_telemetry (now : mock_site -> Z) (deviceId : string) (st : State)
  : response entry * State :=
  match Map_get (VStr deviceId) (subtronicsData st) with
  | Some data => (Json data, st)
  | None =>
      (Json (Record_ (mockData now)),
       {| subtronicsData := Map_set (VStr deviceId) (Record_ (mockData now)) (subtronicsData st);
          effects := effects st |})
  end.

(** ** The socket handlers *)

(** What a handler does with the client's socket. *)
Inductive socket_effect : Type :=
| Join (socket room : string)
| Leave (socket room : string)
| SocketEmit (socket event : string) (deviceId : value) (data : entry).

(** [socket.on('subscribe:device', ...)]; the device id is whatever the
    client sent.  [None]: the template literal of the first line throws. *)
Definition subscribe_device (socket : string) (deviceId : value) (st : State)
  : option (list socket_effect) :=
  s <- ToString deviceId ;;
  Some (Join socket ("device:" ++ s)
        :: (if has deviceId st then
              match Map_get deviceId (subtronicsData st) with
              | Some data => [ SocketEmit socket "device:data" deviceId data ]
              | None => []
              end
            else [])).

(** [socket.on('unsubscribe:device', ...)]. *)
Definition unsubscribe_device (socket : string) (deviceId : value)
  : option (list socket_effect) :=
  s <- ToString deviceId ;; Some [ Leave socket ("device:" ++ s) ].

(** ** POST /test/subtronics/:deviceId *)

(** The draws of [Math.random()] in the mock payload: the floored reading
    and the outcome of each comparison. *)
Record dice : Type := {
  reading : Z;
  led1 : bool;
  led2 : bool;
  led3 : bool;
  fault : bool
}.

Definition flag (b : bool) : value := VNum (of_Z (if b then 1 else 0)).

Definition mock_payload (deviceId : string) (now : Z) (d : dice) : value :=
  VObj
    [ ("Device Alise Name", VStr "Gas Sensor Block1");
      ("OTSM-2 Serial Number", VStr deviceId);
      ("Gas", VStr "Carbon Monoxide (CO)");
      ("timestamp", VStr (toISOString now));
      ("Sender", VStr "Device");
      ("Message Type", VStr "LOG DATA");
      ("Unit of Measurement ", VStr " ppm");
      ("Parameters",
       VObj
         [ ("Live Sensor Readings ", VNum (of_Z (reading d)));
           ("Span High", VNum (of_Z 2000));
           ("Span Low", VNum (of_Z 0));
           ("Alarm Level A1", VNum (of_Z 250));
           ("Alarm Level A2", VNum (of_Z 500));
           ("Alarm Level A3", VNum (of_Z 1000));
           ("Decimal Point", VNum (of_Z 0));
           ("A1Type", VStr "High");
           ("A1Hysterysis", VNum (of_Z 0));
           ("A1Latching", VNum (of_Z 0));
           ("A1Siren", VNum (of_Z 0));
           ("A1Buzzer", VNum (of_Z 0));
           ("Alarm 1 LED Status", flag (led1 d));
           ("Alarm 2 LED Status", flag (led2 d));
           ("Alarm 3 LED Status", flag (led3 d));
           ("SensorFault", flag (fault d));
           ("lat", VStr "19.0760");
           ("long", VStr "72.8777") ]) ].

Inductive test_response : Type :=
| Processed (deviceId : value) (data : Normalized.t) (alerts : list Alert.t)
| BadRequest        (* res.status(400).json({ error: 'Failed to parse payload' }) *)
| ServerError.      (* res.status(500), from the catch block *)

(** The body of the [try] block. *)
Definition process_directly (clk : clock) (mockPayload : value) : Run test_response :=
  match parseSubtronicsPayload clk mockPayload with
  | Some normalized =>
      let processedDeviceId := Normalized.serial_number normalized in
      store_set processedDeviceId (Record_ normalized) ;;
      room <- lift (room_of processedDeviceId) ;;
      perform (Emit room "device:data"
                 (DeviceData processedDeviceId normalized (toISOString (clk Broadcast)))) ;;
      alerts <- generateSubtronicsAlerts clk normalized ;;
      (if (0 <? Z.of_nat (List.length alerts)) then
         key <- lift (alerts_key processedDeviceId) ;;
         existing <- store_get key ;;
         existingAlerts <- lift (spread existing) ;;
         store_set key (Alerts (existingAlerts ++ alerts)%list) ;;
         room' <- lift (room_of processedDeviceId) ;;
         perform (Emit room' "device:alerts" (DeviceAlerts processedDeviceId alerts))
       else ret tt) ;;
      ret (Processed processedDeviceId normalized alerts)
  | None => ret BadRequest
  end.

(** The handler: the answer, the state, and the payload it publishes to
    [SubTronics/data] (as [JSON.stringify] prints it) when the MQTT client
    is connected.  The clock site [Broadcast] is the handler's own
    [new Date()] of its device:data event. *)
Definition test_subtronics (clk : clock) (mock_now : Z) (d : dice) (mqttConnected : bool)
    (deviceId : string) (body : value) (st : State)
  : test_response * State * option (string * value) :=
  let mockPayload := if truthy body then body else mock_payload deviceId mock_now d in
  let published := if mqttConnected then Some ("SubTronics/data", mockPayload) else None in
  match process_directly clk mockPayload st with
  | (Some answer, st') => (answer, st', published)
  | (None, st') => (ServerError, st', published)
  end.

(** ** logAlarmEvent *)

Module LogEntry.
Record t : Type := {
  id : option string;                (* set on the in-memory paths only *)
  device_id : value;
  device_name : value;
  serial_number : value;
  alarm_type : string;
  severity : string;
  message : string;
  threshold : option number;
  current_value : number;
  unit : string;
  gas_type : value;
  timestamp : string;                (* the argument of [new Date(...)] *)
  acknowledged : bool;
  acknowledged_at : value;
  acknowledged_by : value
}.

Definition with_id (i : string) (e : t) : t :=
  {| id := Some i; device_id := device_id e; device_name := device_name e;
     serial_number := serial_number e; alarm_type := alarm_type e;
     severity := severity e; message := message e; threshold := threshold e;
     current_value := current_value e; unit := unit e; gas_type := gas_type e;
     timestamp := timestamp e; acknowledged := acknowledged e;
     acknowledged_at := acknowledged_at e; acknowledged_by := acknowledged_by e |}.
End LogEntry.

Definition logEntry (deviceId : value) (alarmData : Alert.t) : LogEntry.t :=
  {| LogEntry.id := None;
     LogEntry.device_id := deviceId;
     LogEntry.device_name := Alert.device_name alarmData;
     LogEntry.serial_number := Alert.serial_number alarmData;
     LogEntry.alarm_type := Alert.type alarmData;
     LogEntry.severity := Alert.severity alarmData;
     LogEntry.message := Alert.message alarmData;
     LogEntry.threshold := Alert.threshold alarmData;
     LogEntry.current_value := Alert.current_value alarmData;
     LogEntry.unit := Alert.unit alarmData;
     LogEntry.gas_type := Alert.gas_type alarmData;
     LogEntry.timestamp := Alert.timestamp alarmData;
     LogEntry.acknowledged := false;
     LogEntry.acknowledged_at := VNull;
     LogEntry.acknowledged_by := VNull |}.

(** The database at the time of a call: not connected, or connected with
    [AlarmLog.create] resolving, or connected with it rejecting. *)
Inductive mongo : Type :=
| Disconnected
| Saves
| Rejects.

(** What one call needs from the environment: [Date.now()] and the text of
    [Math.random().toString(36).substr(2, 9)]. *)
Record draw : Type := {
  now : Z;
  random : string
}.

Definition log_id (deviceId : value) (env : draw) : option string :=
  s <- ToString deviceId ;;
  Some ("log_" ++ s ++ "_" ++ decimal_of_Z (now env) ++ "_" ++ random env).

(** [deviceLogs.shift()] when the array has more than 1000 entries. *)
Definition capped (deviceLogs : list LogEntry.t) : list LogEntry.t :=
  if (1000 <? Z.of_nat (List.length deviceLogs)) then List.tl deviceLogs else deviceLogs.

(** The body of [logAlarmEvent(deviceId, alarmData)] on the map
    [alarmLogs]: the map it leaves and the entry handed to
    [AlarmLog.create], if any.  When the id template throws, the promise is
    rejected and the map is as before. *)
Definition logAlarmEvent_body (db : mongo) (env : draw) (deviceId : value)
    (alarmData : Alert.t) (alarmLogs : Map (list LogEntry.t))
  : Map (list LogEntry.t) * option LogEntry.t :=
  let entry := logEntry deviceId alarmData in
  let deviceLogs := match Map_get deviceId alarmLogs with Some l => l | None => [] end in
  match db with
  | Saves => (alarmLogs, Some entry)
  | Disconnected =>
      match log_id deviceId env with
      | Some i =>
          (Map_set deviceId (capped (deviceLogs ++ [LogEntry.with_id i entry])%list) alarmLogs,
           None)
      | None => (alarmLogs, None)
      end
  | Rejects =>
      match log_id deviceId env with
      | Some i =>
          (Map_set deviceId (deviceLogs ++ [LogEntry.with_id i entry])%list alarmLogs,
           Some entry)
      | None => (alarmLogs, Some entry)
      end
  end.

(** The calls of [logAlarmEvent] recorded among the effects of the
    pipeline, carried out on [alarmLogs] with the database not connected,
    where each call runs to its end before the next; [envs] gives the draw
    of the [i]-th call. *)
Fixpoint carry_out (envs : nat -> draw) (i : nat) (l : list effect)
    (alarmLogs : Map (list LogEntry.t)) : Map (list LogEntry.t) :=
  match l with
  | [] => alarmLogs
  | LogAlarmEvent deviceId alarmData :: rest =>
      carry_out envs (S i) rest
        (fst (logAlarmEvent_body Disconnected (envs i) deviceId alarmData alarmLogs))
  | Emit _ _ _ :: rest => carry_out envs i rest alarmLogs
  end.

End Endpoints.

(* ===================================================================== *)
(** * Vocabulary of the properties *)
(* ===================================================================== *)

Import JS Gateway.

(** ** For the rule engine *)

Definition kinds (alerts : list Alert.t) : list (string * string) :=
  List.map (fun a => (Alert.type a, Alert.severity a)) alerts.

(** The rules in the words of the specification: the fault rule, then the
    high-to-low cascade on [reading >= level]. *)
Definition rule_kinds (fault : bool) (reading a1 a2 a3 : number) : list (string * string) :=
  ((if fault then [("sensor_fault", "critical")] else [])
   ++ (if geb reading a3 then [("alarm_level_3", "critical")]
       else if geb reading a2 then [("alarm_level_2", "high")]
       else if geb reading a1 then [("alarm_level_1", "warning")]
       else []))%list.

(** The numbers the engine compares, after [parseFloat(x) || default]. *)
Definition effective_reading (data : Normalized.t) : number :=
  num_or (Normalized.sensor_reading data) zero.
Definition effective_a1 (data : Normalized.t) : number :=
  num_or (Normalized.a1_level data) (of_Z 250).
Definition effective_a2 (data : Normalized.t) : number :=
  num_or (Normalized.a2_level data) (of_Z 500).
Definition effective_a3 (data : Normalized.t) : number :=
  num_or (Normalized.a3_level data) (of_Z 1000).

(** The alerts of one evaluation, given the serial number as printed. *)
Definition fault_part (clk : clock) (data : Normalized.t) : list (option Alert.t) :=
  if num_eqb (Normalized.sensor_fault data) one then [fault_alert clk data] else [].

Definition threshold_part (clk : clock) (data : Normalized.t) : list (option Alert.t) :=
  let r := effective_reading data in
  if geb r (effective_a3 data) then
    [threshold_alert clk data "alarm3" "alarm_level_3" "critical" "A3"
       A3Id A3Timestamp (effective_a3 data) r]
  else if geb r (effective_a2 data) then
    [threshold_alert clk data "alarm2" "alarm_level_2" "high" "A2"
       A2Id A2Timestamp (effective_a2 data) r]
  else if geb r (effective_a1 data) then
    [threshold_alert clk data "alarm1" "alarm_level_1" "warning" "A1"
       A1Id A1Timestamp (effective_a1 data) r]
  else [].

(** All of [l], if none of its alerts failed to build. *)
Fixpoint all_built (l : list (option Alert.t)) : option (list Alert.t) :=
  match l with
  | [] => Some []
  | Some a :: rest => option_map (cons a) (all_built rest)
  | None :: _ => None
  end.

Definition log_all (deviceId : value) (alerts : list Alert.t) (st : State) : State :=
  {| subtronicsData := subtronicsData st;
     effects := (effects st ++ List.map (LogAlarmEvent deviceId) alerts)%list |}.

(** Turns [H : parseSubtronicsPayload clk raw = Some r] into one equation
    per intermediate result of the function and the record built from
    them. *)
Ltac invert_parse H :=
  unfold parseSubtronicsPayload in H; cbn [bind option_Monad] in H;
  repeat lazymatch type of H with
  | match ?x with Some _ => _ | None => _ end = Some _ =>
      let E := fresh "E" in destruct x eqn:E; [ | discriminate H ]
  | (let _ := _ in _) = Some _ => cbv zeta in H
  end;
  injection H as H.

(** ** For the normalizer *)

(** The payload the normalizer works on, and its [Parameters]. *)
Definition payload_of (raw : value) : option value :=
  match raw with VStr text => JSON_parse text | _ => Some raw end.

Definition parameters_of (data : value) : option value :=
  get data "Parameters" ||| Some (VObj []).

(** A property that is present: read without error and not [undefined]. *)
Definition present (read : option value) : option value :=
  match read with
  | Some VUndef | None => None
  | Some v => Some v
  end.

Fixpoint first_present (candidates : list (option value)) : option value :=
  match candidates with
  | [] => None
  | c :: rest =>
      match present c with
      | Some v => Some v
      | None => first_present rest
      end
  end.

(** The primary reading in the words of the specification: the first
    present of the four candidates, parsed as floating point; 0 if none. *)
Definition reading_by_priority (data params : value) : option number :=
  match first_present [ get params "Live Sensor Readings ";
                        get params "Live Sensor Readings";
                        get data "Sensor Reading";
                        get params "Offset" ] with
  | Some v => parseFloat v
  | None => Some zero
  end.

(** The derived status in the words of the specification. *)
Definition status_of_flags (sensor_fault alarm1_led alarm2_led alarm3_led : number) : string :=
  if num_eqb sensor_fault one
     || (num_eqb alarm1_led one || num_eqb alarm2_led one || num_eqb alarm3_led one)
  then "ALARM" else "NORMAL".

(** The property names from which the LED and fault flags are read. *)
Definition flag_keys : list string :=
  [ "Alarm 1 LED Status"; "Alarm 2 LED Status"; "Alarm 3 LED Status";
    "Sensor Fault"; "SensorFault" ].

(** JSON text written with apostrophes in place of the double quotes. *)
Fixpoint json (s : string) : string :=
  match s with
  | EmptyString => EmptyString
  | String c r => String (if code c =? 39 then byte 34 else c) (json r)
  end.

Definition epoch : clock := fun _ => 0.

(** Sample payloads. *)
Definition offset_only : string :=
  json "{'OTSM-2 Serial Number':'OTSM-0114','Parameters':{'Offset':'12.5'}}".

Definition zero_levels : string :=
  json "{'OTSM-2 Serial Number':'OTSM-0114','Parameters':{'Alarm Level A1':0,'Alarm Level A2':'0','Alarm Level A3':0.4}}".

Definition led_only : list (string * value) :=
  [ ("OTSM-2 Serial Number", VStr "OTSM-0114");
    ("Parameters", VObj [ ("Alarm 2 LED Status", VNum one) ]) ].

(** The time the device reports, if any, and the [timestamp] made of it. *)
Definition reported_time (data : value) : option value :=
  get data "Date Time At Reading" ||| get data "timestamp".

Definition timestamp_of (clk : clock) (t : value) : value :=
  if truthy t then t else VStr (toISOString (clk Timestamp)).

(** [r] with its [timestamp] and [processed_at] replaced. *)
Definition with_times (timestamp : value) (processed_at : string) (r : Normalized.t)
  : Normalized.t :=
  {| Normalized.device_name := Normalized.device_name r;
     Normalized.serial_number := Normalized.serial_number r;
     Normalized.gas_type := Normalized.gas_type r;
     Normalized.timestamp := timestamp;
     Normalized.unit := Normalized.unit r;
     Normalized.message_type := Normalized.message_type r;
     Normalized.sender := Normalized.sender r;
     Normalized.sensor_reading := Normalized.sensor_reading r;
     Normalized.offset := Normalized.offset r;
     Normalized.alarm_status := Normalized.alarm_status r;
     Normalized.span_high := Normalized.span_high r;
     Normalized.span_low := Normalized.span_low r;
     Normalized.a1_level := Normalized.a1_level r;
     Normalized.a2_level := Normalized.a2_level r;
     Normalized.a3_level := Normalized.a3_level r;
     Normalized.decimal_point := Normalized.decimal_point r;
     Normalized.a1_type := Normalized.a1_type r;
     Normalized.a1_hysteresis := Normalized.a1_hysteresis r;
     Normalized.a1_latching := Normalized.a1_latching r;
     Normalized.a1_siren := Normalized.a1_siren r;
     Normalized.a1_buzzer := Normalized.a1_buzzer r;
     Normalized.alarm1_led := Normalized.alarm1_led r;
     Normalized.alarm2_led := Normalized.alarm2_led r;
     Normalized.alarm3_led := Normalized.alarm3_led r;
     Normalized.sensor_fault := Normalized.sensor_fault r;
     Normalized.latitude := Normalized.latitude r;
     Normalized.longitude := Normalized.longitude r;
     Normalized.raw_message := Normalized.raw_message r;
     Normalized.processed_at := processed_at;
     Normalized.data_quality := Normalized.data_quality r |}.

(** Two clocks that differ by a millisecond where the time stamp is read. *)
Definition later : clock :=
  fun site => match site with Timestamp => 1 | _ => 0 end.

(** ** For the message handler *)

(** The handler's normalization of a message. *)
Definition normalized (clk : clock) (message : string) : option Normalized.t :=
  data <- JSON_parse message ;; parseSubtronicsPayload clk data.

(** What the handler does with a normalized payload: the state it leaves. *)
Definition handled (clk : clock) (n : Normalized.t) (st : State) : State :=
  let deviceId := Normalized.serial_number n in
  let stored := Map_set deviceId (Record_ n) (subtronicsData st) in
  match ToString deviceId with
  | None => {| subtronicsData := stored; effects := effects st |}
  | Some s =>
      let room := "device:" ++ s in
      let key := VStr (s ++ "_alerts") in
      let data_event :=
        Emit room "device:data" (DeviceData deviceId n (toISOString (clk Broadcast))) in
      match all_built (fault_part clk n ++ threshold_part clk n) with
      | None | Some [] =>
          {| subtronicsData := stored; effects := (effects st ++ [data_event])%list |}
      | Some alerts =>
          let logs := List.map (LogAlarmEvent deviceId) alerts in
          match spread (Map_get key stored) with
          | None =>
              {| subtronicsData := stored;
                 effects := (effects st ++ data_event :: logs)%list |}
          | Some existing =>
              {| subtronicsData := Map_set key (Alerts (existing ++ alerts)%list) stored;
                 effects := (effects st ++ data_event :: logs
                             ++ [Emit room "device:alerts" (DeviceAlerts deviceId alerts)])%list |}
          end
      end
  end.

Definition empty : State := {| subtronicsData := []; effects := [] |}.

Definition malformed : string := "{not json".

(** A payload whose reading is not a number and whose A3 level is negative. *)
Definition unreadable : string :=
  json "{'OTSM-2 Serial Number':'OTSM-0114','Parameters':{'Live Sensor Readings ':'abc','Alarm Level A3':-5}}".

(** A payload whose serial number is an object with an own [toString]
    property, and whose fault flag is set. *)
Definition unprintable : string :=
  json "{'OTSM-2 Serial Number':{'toString':1},'Parameters':{'Sensor Fault':1}}".

(** The end-to-end scenario of the specification. *)
Definition scenario : string :=
  json "{'OTSM-2 Serial Number':'OTSM-0114','Parameters':{'Live Sensor Readings ':1200,'Alarm Level A1':250,'Alarm Level A2':500,'Alarm Level A3':1000,'Alarm 1 LED Status':1}}".



(** The alerts kept for a device, as the handlers read them: none when the
    key is unused; unreadable when the key holds a normalized payload. *)
Definition alert_list (deviceId : string) (st : State) : option (list Alert.t) :=
  spread (Map_get (VStr (deviceId ++ "_alerts")) (subtronicsData st)).

Definition is_alerts_event (e : effect) : bool :=
  match e with
  | Emit _ event _ => String.eqb event "device:alerts"
  | LogAlarmEvent _ _ => false
  end.

(** Messages of two devices, the serial number of the second being that of
    the first followed by [_alerts]. *)
Definition from_pump : string :=
  json "{'OTSM-2 Serial Number':'PUMP','Parameters':{'Live Sensor Readings ':1200}}".

Definition from_pump_alerts : string :=
  json "{'OTSM-2 Serial Number':'PUMP_alerts','Parameters':{'Live Sensor Readings ':10}}".

(** A message of device OTSM-0114 with the given reading and fault flag,
    both as JSON text, and the default levels. *)
Definition reading_message (reading fault : string) : string :=
  json ("{'OTSM-2 Serial Number':'OTSM-0114','Parameters':{'Live Sensor Readings ':"
        ++ reading ++ ",'Sensor Fault':" ++ fault ++ "}}").

(** The kinds of the alerts the handler stores for one such message. *)
Definition alerts_for (reading fault : string) : option (list (string * string)) :=
  option_map kinds
    (alert_list "OTSM-0114"
       (on_message (fun _ => 0) "SubTronics/data" (reading_message reading fault)
          {| subtronicsData := []; effects := [] |})).

(** A clock that stands still at 2026-01-28T11:37:12.123Z. *)
Definition noon : clock := fun _ => 1769600232123.

(** The device:data event of a normalized payload. *)
Definition data_event (clk : clock) (n : Normalized.t) (room : string) : effect :=
  Emit room "device:data"
    (DeviceData (Normalized.serial_number n) n (toISOString (clk Broadcast))).

(** Among the effects [new] of one message, a device:alerts event is last
    and follows, at whatever distance, the device:data event for the same
    room that heads them. *)
Definition alerts_follow_data (clk : clock) (message : string) (new : list effect) : Prop :=
  forall pre room body post,
    new = (pre ++ Emit room "device:alerts" body :: post)%list ->
    exists n alerts pre',
      normalized clk message = Some n /\
      body = DeviceAlerts (Normalized.serial_number n) alerts /\
      pre = data_event clk n room :: pre' /\
      post = [].

(** The effects [new] of a message that normalizes and whose serial number
    prints start with its device:data event. *)
Definition data_comes_first (clk : clock) (topic message : string) (new : list effect)
  : Prop :=
  forall n s,
    topic = "SubTronics/data" ->
    normalized clk message = Some n ->
    ToString (Normalized.serial_number n) = Some s ->
    exists rest, new = data_event clk n ("device:" ++ s) :: rest.

(** The names of the socket events among [l], in order. *)
Definition emitted (l : list effect) : list string :=
  flat_map (fun e => match e with Emit _ event _ => [event] | LogAlarmEvent _ _ => [] end) l.

(** ** For the alert endpoints *)

(** The own properties of an alert object, in the order in which the object
    literal and the later assignments create them. *)
Definition alert_properties (a : Alert.t) : list (string * value) :=
  ([ ("id", VStr (Alert.id a));
     ("type", VStr (Alert.type a));
     ("severity", VStr (Alert.severity a));
     ("message", VStr (Alert.message a));
     ("timestamp", VStr (Alert.timestamp a));
     ("device_name", Alert.device_name a);
     ("serial_number", Alert.serial_number a) ]
   ++ match Alert.threshold a with Some x => [ ("threshold", VNum x) ] | None => [] end
   ++ [ ("current_value", VNum (Alert.current_value a));
        ("unit", VStr (Alert.unit a));
        ("gas_type", Alert.gas_type a) ]
   ++ match Alert.acknowledged_at a with Some t => [ ("acknowledged_at", VStr t) ] | None => [] end
   ++ match Alert.acknowledged_by a with Some w => [ ("acknowledged_by", w) ] | None => [] end)%list.

(** The state after the scenario's message, and after the same message
    handled twice within one millisecond. *)
Definition once : State := on_message noon "SubTronics/data" scenario empty.
Definition twice : State := on_message noon "SubTronics/data" scenario once.

Definition scenario_alert_id : string := "alarm3_OTSM-0114_1769600232123".

(** An identity without a string conversion: the JSON object
    [{"toString":1}] (written here with its one property). *)
Definition nameless : value := VObj [ ("toString", VNum (of_Z 1)) ].

(** ** For the other properties of the normalizer *)

(** What a property read from a flat payload may be: absent, or a string, a
    number or a boolean. *)
Definition readable (v : value) : bool :=
  match v with
  | VUndef | VBool _ | VNum _ | VStr _ => true
  | VNull | VArr _ | VObj _ => false
  end.

(** The fields [parseInt(...) || default] fills. *)
Definition integer_fields (r : Normalized.t) : list number :=
  [ Normalized.span_high r; Normalized.span_low r;
    Normalized.a1_level r; Normalized.a2_level r; Normalized.a3_level r;
    Normalized.decimal_point r;
    Normalized.a1_hysteresis r; Normalized.a1_latching r;
    Normalized.a1_siren r; Normalized.a1_buzzer r;
    Normalized.alarm1_led r; Normalized.alarm2_led r; Normalized.alarm3_led r;
    Normalized.sensor_fault r ].

(** The fields [... || "default"] fills. *)
Definition defaulted_fields (r : Normalized.t) : list value :=
  [ Normalized.device_name r; Normalized.serial_number r; Normalized.gas_type r;
    Normalized.timestamp r; Normalized.message_type r; Normalized.sender r;
    Normalized.a1_type r; Normalized.latitude r; Normalized.longitude r ].


(** A string, a number or a boolean. *)
Definition scalar (v : value) : bool :=
  match v with
  | VBool _ | VNum _ | VStr _ => true
  | _ => false
  end.

(** A payload without nesting other than [Parameters]: anything but [null]
    and [undefined], and when it is an object, scalar properties beside a
    [Parameters] that is no object or an object of scalar properties. *)
Definition flat_parameters (v : value) : bool :=
  match v with
  | VObj props => forallb (fun kv => scalar (snd kv)) props
  | _ => true
  end.

Definition flat_payload (data : value) : bool :=
  match data with
  | VUndef | VNull => false
  | VObj props =>
      forallb (fun kv => if String.eqb (fst kv) "Parameters"
                         then flat_parameters (snd kv) else scalar (snd kv)) props
  | _ => true
  end.

(** Every property read of [v] gives [undefined] or a scalar. *)
Definition flat_at (v : value) : Prop :=
  forall k, exists x, get v k = Some x /\ readable x = true.

Definition flat_beside_parameters (data : value) : Prop :=
  forall k, k <> "Parameters" -> exists x, get data k = Some x /\ readable x = true.

(** A draw of the test endpoint's random numbers. *)
Definition quiet : Endpoints.dice :=
  {| Endpoints.reading := 42; Endpoints.led1 := false; Endpoints.led2 := false;
     Endpoints.led3 := false; Endpoints.fault := false |}.


(** ** For the other properties of the rule engine *)

(** What every alert built from [data] carries. *)
Definition describes (data : Normalized.t) (a : Alert.t) : Prop :=
  Alert.device_name a = Normalized.device_name data /\
  Alert.serial_number a = Normalized.serial_number data /\
  Alert.gas_type a = Normalized.gas_type data /\
  Alert.unit a = Normalized.unit data /\
  Alert.acknowledged_at a = None /\
  Alert.acknowledged_by a = None.

(** A threshold alert reports a level that is neither 0 nor NaN and a
    reading, not NaN, at or above it; a fault alert reports no level and
    the reading as stored. *)
Definition reports (data : Normalized.t) (a : Alert.t) : Prop :=
  match Alert.threshold a with
  | Some level =>
      num_truthy level = true /\
      is_nan (Alert.current_value a) = false /\
      geb (Alert.current_value a) level = true
  | None =>
      Alert.type a = "sensor_fault" /\
      Alert.current_value a = Normalized.sensor_reading data
  end.

(** A record with the fault flag set, a reading that is not a number, and
    the default levels. *)
Definition faulty_record : Normalized.t :=
  {| Normalized.device_name := VStr "Gas Sensor Block1";
     Normalized.serial_number := VStr "OTSM-0114";
     Normalized.gas_type := VStr "Carbon Monoxide (CO)";
     Normalized.timestamp := VStr "2026-01-28 11:37:12";
     Normalized.unit := "ppm";
     Normalized.message_type := VStr "LOG DATA";
     Normalized.sender := VStr "Device";
     Normalized.sensor_reading := of_Z 1200;
     Normalized.offset := of_Z 1200;
     Normalized.alarm_status := "ALARM";
     Normalized.span_high := of_Z 2000;
     Normalized.span_low := zero;
     Normalized.a1_level := of_Z 250;
     Normalized.a2_level := of_Z 500;
     Normalized.a3_level := of_Z 1000;
     Normalized.decimal_point := zero;
     Normalized.a1_type := VStr "High";
     Normalized.a1_hysteresis := zero;
     Normalized.a1_latching := zero;
     Normalized.a1_siren := zero;
     Normalized.a1_buzzer := zero;
     Normalized.alarm1_led := zero;
     Normalized.alarm2_led := zero;
     Normalized.alarm3_led := zero;
     Normalized.sensor_fault := one;
     Normalized.latitude := VStr "0.00";
     Normalized.longitude := VStr "0.00";
     Normalized.raw_message := VObj [];
     Normalized.processed_at := "2026-01-28T11:37:12.123Z";
     Normalized.data_quality := "good" |}.


(** ** For the other properties of the handlers *)

(** The record and the alert of the scenario. *)
Definition scenario_record : Normalized.t :=
  Eval vm_compute in
    match normalized noon scenario with Some n => n | None => faulty_record end.

Definition scenario_alerts : list Alert.t :=
  Eval vm_compute in
    match alert_list "OTSM-0114" once with Some l => l | None => [] end.

(** What the test endpoint answers for a normalized payload. *)
Definition answered (clk : clock) (n : Normalized.t) (st : State)
  : Endpoints.test_response :=
  let deviceId := Normalized.serial_number n in
  let stored := Map_set deviceId (Record_ n) (subtronicsData st) in
  match ToString deviceId with
  | None => Endpoints.ServerError
  | Some s =>
      match all_built (fault_part clk n ++ threshold_part clk n) with
      | None => Endpoints.ServerError
      | Some [] => Endpoints.Processed deviceId n []
      | Some alerts =>
          match spread (Map_get (VStr (s ++ "_alerts")) stored) with
          | None => Endpoints.ServerError
          | Some _ => Endpoints.Processed deviceId n alerts
          end
      end
  end.

(** The answer of the test endpoint and the state it leaves. *)
Definition test_answer (r : Endpoints.test_response * State * option (string * value))
  : Endpoints.test_response := fst (fst r).
Definition test_state (r : Endpoints.test_response * State * option (string * value))
  : State := snd (fst r).


(** ** For the alarm log *)

(** No device's in-memory log exceeds 1000 entries. *)
Definition bounded (alarmLogs : Map (list Endpoints.LogEntry.t)) : Prop :=
  forall k l, Map_get k alarmLogs = Some l -> (List.length l <= 1000)%nat.

(** The entries [logAlarmEvent] pushes for [alerts], the [i]-th call being
    the first. *)
Fixpoint entries_of (envs : nat -> Endpoints.draw) (i : nat) (s : string)
    (deviceId : value) (alerts : list Alert.t) : list Endpoints.LogEntry.t :=
  match alerts with
  | [] => []
  | a :: rest =>
      Endpoints.LogEntry.with_id
        ("log_" ++ s ++ "_" ++ decimal_of_Z (Endpoints.now (envs i)) ++ "_"
         ++ Endpoints.random (envs i))
        (Endpoints.logEntry deviceId a)
      :: entries_of envs (S i) s deviceId rest
  end.

(** The log calls among a trace of effects. *)
Definition log_calls (l : list effect) : list effect :=
  List.filter (fun e => match e with LogAlarmEvent _ _ => true | Emit _ _ _ => false end) l.

Definition sample_draws : nat -> Endpoints.draw :=
  fun i => {| Endpoints.now := 1769600232123 + Z.of_nat i; Endpoints.random := "k3x9q2m1a" |}.

(* ===================================================================== *)
(** * Properties *)
(* ===================================================================== *)

Arguments of_Z : simpl never.
Arguments of_decimal : simpl never.
Arguments Number_toString : simpl never.
Arguments toISOString : simpl never.
Arguments decimal_of_Z : simpl never.
Arguments JSON_parse : simpl never.
Arguments trim : simpl never.

(** ** The runtime on known values *)

Example Number_toString_known :
  List.map Number_toString
    [ of_Z 250; of_decimal false 1 (-1); of_decimal false 1 21; of_decimal false 1 23;
      of_decimal true 12345 (-2); of_decimal false 5 (-324); of_decimal false 5 (-7);
      of_Z 9007199254740992; of_Z 1234567890123456789; NaN; Infinity; S754_zero true ]
  = [ "250"; "0.1"; "1e+21"; "1e+23"; "-123.45"; "5e-324"; "5e-7";
      "9007199254740992"; "1234567890123456800"; "NaN"; "Infinity"; "0" ].
Proof. vm_compute. reflexivity. Qed.

Example parseFloat_known :
  List.map (fun s => Number_toString (parseFloat_string s))
    [ "12.5abc"; "  -0"; ".5"; "."; "1e"; "1.e3"; "-Infinityx"; "abc"; "0x10"; "1e400"; "" ]
  = [ "12.5"; "0"; "0.5"; "NaN"; "1"; "1000"; "-Infinity"; "NaN"; "0"; "Infinity"; "NaN" ].
Proof. vm_compute. reflexivity. Qed.

Example parseInt_known :
  List.map (fun s => Number_toString (parseInt_string s))
    [ "12.5abc"; "0.4"; ".5"; "0x1F"; "0X"; "1e3"; "-42px"; "abc"; "  +7" ]
  = [ "12"; "0"; "NaN"; "31"; "NaN"; "1"; "-42"; "NaN"; "7" ].
Proof. vm_compute. reflexivity. Qed.

(** [parseFloat] of a Number goes through its printed form; on these values
    the printed form reads back as the Number, as the definition of
    [parseFloat] takes for granted. *)
Example parseFloat_reads_back :
  forallb (fun x => match parseFloat (VNum x) with
                    | Some y => SFeqb y (parseFloat_string (Number_toString x))
                    | None => false
                    end)
    [ of_Z 1200; of_decimal false 99999 (-2); of_decimal false 1 (-1); of_decimal false 1 21;
      of_decimal false 5 (-324); of_decimal true 5 0; of_decimal false 17976931348623157 292;
      S754_zero true; Infinity ]
  = true.
Proof. vm_compute. reflexivity. Qed.

Example JSON_parse_known :
  JSON_parse (json "{'a':[1,2.5e-1,true,null,'x\n'],'a':{}} ")
  = Some (VObj [ ("a", VObj []) ]) /\
  List.map JSON_parse [ "01"; "1."; "-"; "[1,]"; "nul"; "1 2"; "{,}"; "" ]
  = [ None; None; None; None; None; None; None; None ].
Proof. vm_compute. split; reflexivity. Qed.

Example toISOString_known :
  List.map toISOString [ 0; 1700000000000; 951782400000; 1769600232123 ]
  = [ "1970-01-01T00:00:00.000Z"; "2023-11-14T22:13:20.000Z";
      "2000-02-29T00:00:00.000Z"; "2026-01-28T11:37:12.123Z" ].
Proof. vm_compute. reflexivity. Qed.

(** The end-to-end scenario of the specification. *)
Example scenario_end_to_end :
  option_map (fun r => (Normalized.serial_number r,
                        Number_toString (Normalized.sensor_reading r),
                        Number_toString (Normalized.offset r),
                        Normalized.alarm_status r)) (normalized noon scenario)
  = Some (VStr "OTSM-0114", "1200", "1200", "ALARM") /\
  option_map kinds (alert_list "OTSM-0114" once) = Some [ ("alarm_level_3", "critical") ] /\
  emitted (effects once) = [ "device:data"; "device:alerts" ].
Proof. vm_compute. repeat split. Qed.

(** The cascade at its boundaries, and the fault rule on its own. *)
Example cascade_known :
  alerts_for "1000" "0" = Some [ ("alarm_level_3", "critical") ] /\
  alerts_for "999.99" "0" = Some [ ("alarm_level_2", "high") ] /\
  alerts_for "500" "0" = Some [ ("alarm_level_2", "high") ] /\
  alerts_for "250" "0" = Some [ ("alarm_level_1", "warning") ] /\
  alerts_for "249.99" "0" = Some [] /\
  alerts_for "0" "1" = Some [ ("sensor_fault", "critical") ] /\
  alerts_for "1200" "1" = Some [ ("sensor_fault", "critical"); ("alarm_level_3", "critical") ].
Proof. vm_compute. repeat split. Qed.

(** ** Numbers *)

Lemma num_or_not_zero (x d : number) : is_zero d = false -> is_zero (num_or x d) = false.
Proof.
  unfold num_or, num_truthy. intros Hd.
  destruct (is_zero x) eqn:E; [ exact Hd | ].
  now destruct (is_nan x).
Qed.

Lemma num_or_truthy (x d : number) : num_truthy x = true -> num_or x d = x.
Proof. unfold num_or. now intros ->. Qed.

Lemma num_or_zero (x d : number) : is_zero x = true -> num_or x d = d.
Proof. unfold num_or, num_truthy. now intros ->. Qed.

(** Reading a Number field back with [parseFloat(x) || d]. *)
Lemma parseFloat_or_num (x d : number) : parseFloat_or (VNum x) d = Some (num_or x d).
Proof.
  unfold parseFloat_or, num_orM, parseFloat, num_or, num_truthy. simpl.
  destruct x; reflexivity.
Qed.

(** Comparing the reading as re-read by the rule engine is comparing the
    reading itself, unless it is NaN. *)
Lemma geb_effective_reading (r a : number) :
  is_nan r = false -> geb (num_or r zero) a = geb r a.
Proof.
  intros Hr. unfold num_or, num_truthy. rewrite Hr, orb_false_r.
  destruct r; simpl; reflexivity.
Qed.

(** ** The rule engine *)

Lemma log_all_nil deviceId st : log_all deviceId [] st = st.
Proof. destruct st. unfold log_all. simpl. now rewrite app_nil_r. Qed.

(** The engine as a function of the record: when the serial number prints,
    it returns the fault alert (if any) followed by the threshold alert (if
    any) and has logged each of them, in that order. *)
Lemma generate_run clk data st serial :
  ToString (Normalized.serial_number data) = Some serial ->
  exists alerts,
    all_built (fault_part clk data ++ threshold_part clk data) = Some alerts /\
    generateSubtronicsAlerts clk data st
    = (Some alerts, log_all (Normalized.serial_number data) alerts st).
Proof.
  intros Hs.
  unfold generateSubtronicsAlerts, fault_part, threshold_part,
    effective_reading, effective_a1, effective_a2, effective_a3.
  unfold bind, ret, Run_Monad, lift, logAlarmEvent, perform.
  rewrite !parseFloat_or_num.
  unfold fault_alert, threshold_alert, bind, option_Monad. rewrite Hs.
  destruct st as [store eff]. unfold log_all. simpl.
  destruct (num_eqb (Normalized.sensor_fault data) one); simpl;
    destruct (geb _ (num_or (Normalized.a3_level data) _)); simpl;
    try (eexists; split; [ reflexivity | rewrite <- ?app_assoc; reflexivity ]);
    destruct (geb _ (num_or (Normalized.a2_level data) _)); simpl;
    try (eexists; split; [ reflexivity | rewrite <- ?app_assoc; simpl; reflexivity ]);
    destruct (geb _ (num_or (Normalized.a1_level data) _)); simpl;
    eexists; (split; [ reflexivity | rewrite <- ?app_assoc, ?app_nil_r; reflexivity ]).
Qed.

Lemma generate_kinds clk data alerts :
  all_built (fault_part clk data ++ threshold_part clk data) = Some alerts ->
  kinds alerts
  = rule_kinds (num_eqb (Normalized.sensor_fault data) one)
      (effective_reading data) (effective_a1 data) (effective_a2 data) (effective_a3 data).
Proof.
  unfold fault_part, threshold_part, rule_kinds, fault_alert, threshold_alert.
  unfold bind, option_Monad.
  destruct (ToString (Normalized.serial_number data)) as [serial | ].
  - destruct (num_eqb (Normalized.sensor_fault data) one);
      destruct (geb (effective_reading data) (effective_a3 data));
      [ | destruct (geb (effective_reading data) (effective_a2 data));
          [ | destruct (geb (effective_reading data) (effective_a1 data)) ]
        | | destruct (geb (effective_reading data) (effective_a2 data));
          [ | destruct (geb (effective_reading data) (effective_a1 data)) ] ];
      simpl; intros [= <-]; reflexivity.
  - destruct (num_eqb (Normalized.sensor_fault data) one);
      destruct (geb (effective_reading data) (effective_a3 data));
      [ | destruct (geb (effective_reading data) (effective_a2 data));
          [ | destruct (geb (effective_reading data) (effective_a1 data)) ]
        | | destruct (geb (effective_reading data) (effective_a2 data));
          [ | destruct (geb (effective_reading data) (effective_a1 data)) ] ];
      simpl; try discriminate; intros [= <-]; reflexivity.
Qed.

(** When the serial number does not print, the engine throws as soon as a
    rule fires, and has logged nothing. *)
Lemma generate_throw clk data st :
  ToString (Normalized.serial_number data) = None ->
  generateSubtronicsAlerts clk data st
  = (all_built (fault_part clk data ++ threshold_part clk data), st).
Proof.
  intros Hs.
  unfold generateSubtronicsAlerts, fault_part, threshold_part,
    effective_reading, effective_a1, effective_a2, effective_a3.
  unfold bind, ret, Run_Monad, lift, logAlarmEvent, perform.
  rewrite !parseFloat_or_num.
  unfold fault_alert, threshold_alert, bind, option_Monad. rewrite Hs.
  destruct (num_eqb (Normalized.sensor_fault data) one); simpl; [ reflexivity | ].
  destruct (geb _ (num_or (Normalized.a3_level data) _)); simpl; [ reflexivity | ].
  destruct (geb _ (num_or (Normalized.a2_level data) _)); simpl; [ reflexivity | ].
  destruct (geb _ (num_or (Normalized.a1_level data) _)); simpl; reflexivity.
Qed.

(** ** The normalizer *)

Lemma parse_reading clk raw r :
  parseSubtronicsPayload clk raw = Some r ->
  exists data params,
    match raw with VStr text => JSON_parse text | _ => Some raw end = Some data /\
    (get data "Parameters" ||| Some (VObj [])) = Some params /\
    resolve_reading data params = Some (Normalized.sensor_reading r) /\
    Normalized.offset r = Normalized.sensor_reading r.
Proof.
  intros H. invert_parse H. subst r. simpl. eauto 10.
Qed.

Lemma resolve_reading_by_priority data params x :
  resolve_reading data params = Some x -> reading_by_priority data params = Some x.
Proof.
  unfold resolve_reading, reading_by_priority, first_present, present.
  cbn [bind option_Monad].
  destruct (get params "Live Sensor Readings ") as [[] | ]; simpl; try discriminate; auto.
  destruct (get params "Live Sensor Readings") as [[] | ]; simpl; try discriminate; auto.
  destruct (get data "Sensor Reading") as [[] | ]; simpl; try discriminate; auto.
  destruct (get params "Offset") as [[] | ]; simpl; try discriminate; auto.
Qed.

Lemma parse_flags clk raw r :
  parseSubtronicsPayload clk raw = Some r ->
  exists data params,
    payload_of raw = Some data /\
    parameters_of data = Some params /\
    parseInt_at params "Alarm 1 LED Status" zero = Some (Normalized.alarm1_led r) /\
    parseInt_at params "Alarm 2 LED Status" zero = Some (Normalized.alarm2_led r) /\
    parseInt_at params "Alarm 3 LED Status" zero = Some (Normalized.alarm3_led r) /\
    num_orM (num_orM (v <- get params "Sensor Fault" ;; parseInt v)
                     (v <- get params "SensorFault" ;; parseInt v)) (Some zero)
    = Some (Normalized.sensor_fault r) /\
    Normalized.alarm_status r
    = status_of_flags (Normalized.sensor_fault r) (Normalized.alarm1_led r)
        (Normalized.alarm2_led r) (Normalized.alarm3_led r).
Proof.
  intros H. invert_parse H. subst r. unfold payload_of, parameters_of, status_of_flags.
  cbn [bind option_Monad Normalized.alarm1_led Normalized.alarm2_led Normalized.alarm3_led
       Normalized.sensor_fault Normalized.alarm_status].
  do 2 eexists. repeat (split; [ eassumption | ]).
  destruct (num_eqb _ one), (num_eqb _ one), (num_eqb _ one), (num_eqb _ one); reflexivity.
Qed.

Lemma parse_levels clk raw r :
  parseSubtronicsPayload clk raw = Some r ->
  exists data params,
    payload_of raw = Some data /\
    parameters_of data = Some params /\
    parseInt_at params "Alarm Level A1" (of_Z 250) = Some (Normalized.a1_level r) /\
    parseInt_at params "Alarm Level A2" (of_Z 500) = Some (Normalized.a2_level r) /\
    parseInt_at params "Alarm Level A3" (of_Z 1000) = Some (Normalized.a3_level r).
Proof.
  intros H. invert_parse H. subst r. unfold payload_of, parameters_of.
  cbn [Normalized.a1_level Normalized.a2_level Normalized.a3_level].
  do 2 eexists. repeat (split; [ eassumption | ]). assumption.
Qed.

(** ** Objects *)

Lemma lookup_define_same k v props : lookup k (define k v props) = Some v.
Proof.
  induction props as [ | [k' v'] rest IH]; simpl.
  - now rewrite String.eqb_refl.
  - destruct (String.eqb k k') eqn:E; simpl; rewrite E; auto.
Qed.

Lemma lookup_define_other k k' v props :
  k <> k' -> lookup k' (define k v props) = lookup k' props.
Proof.
  intros Hne. induction props as [ | [k0 v0] rest IH]; simpl.
  - destruct (String.eqb k' k) eqn:E; [ | reflexivity ].
    apply String.eqb_eq in E. congruence.
  - destruct (String.eqb k k0) eqn:E; simpl.
    + apply String.eqb_eq in E. subst k0.
      destruct (String.eqb k' k) eqn:E'; [ | reflexivity ].
      apply String.eqb_eq in E'. congruence.
    + now rewrite IH.
Qed.

Lemma get_define_other k k' v props :
  k <> k' -> get (VObj (define k v props)) k' = get (VObj props) k'.
Proof. intros Hne. simpl. now rewrite lookup_define_other. Qed.

(** ** C2, C5, C10: fields of the normalized payload *)

(** C2.  For every payload that normalizes, the primary reading is the
    first present of [Parameters["Live Sensor Readings "]],
    [Parameters["Live Sensor Readings"]], the top-level ["Sensor Reading"] and
    [Parameters["Offset"]], parsed with [parseFloat]; it is 0 when none is
    present; and [sensor_reading] and [offset] hold that same value. *)
Theorem C2_primary_reading clk raw r :
  parseSubtronicsPayload clk raw = Some r ->
  exists data params,
    payload_of raw = Some data /\
    parameters_of data = Some params /\
    reading_by_priority data params = Some (Normalized.sensor_reading r) /\
    Normalized.sensor_reading r = Normalized.offset r.
Proof.
  intros H. destruct (parse_reading _ _ _ H) as (data & params & Hd & Hp & Hr & Ho).
  exists data, params. repeat split; auto using resolve_reading_by_priority.
Qed.

Lemma C2_primary_reading_witness :
  exists r,
    parseSubtronicsPayload epoch (VStr offset_only) = Some r /\
    Normalized.sensor_reading r = of_decimal false 125 (-1) /\
    exists data params,
      payload_of (VStr offset_only) = Some data /\
      parameters_of data = Some params /\
      reading_by_priority data params = Some (Normalized.sensor_reading r) /\
      Normalized.sensor_reading r = Normalized.offset r.
Proof.
  eexists. split; [ vm_compute; reflexivity | ].
  split; [ vm_compute; reflexivity | ].
  apply (C2_primary_reading epoch). vm_compute. reflexivity.
Defined.

(** C5.  For every payload that normalizes, [alarm_status] is ALARM when
    [sensor_fault] is 1 or one of the three LED flags is 1, and NORMAL
    otherwise.  No other property of the payload takes part: adding or
    changing any top-level property other than [Parameters], or any
    property of [Parameters] other than the five flag names, leaves the
    status as it was. *)
Theorem C5_alarm_status clk raw r :
  parseSubtronicsPayload clk raw = Some r ->
  Normalized.alarm_status r
  = status_of_flags (Normalized.sensor_fault r) (Normalized.alarm1_led r)
      (Normalized.alarm2_led r) (Normalized.alarm3_led r)
  /\ (forall props k v r',
        raw = VObj props -> k <> "Parameters" ->
        parseSubtronicsPayload clk (VObj (define k v props)) = Some r' ->
        Normalized.alarm_status r' = Normalized.alarm_status r)
  /\ (forall props pprops k v r',
        raw = VObj props -> lookup "Parameters" props = Some (VObj pprops) ->
        ~ In k flag_keys ->
        parseSubtronicsPayload clk
          (VObj (define "Parameters" (VObj (define k v pprops)) props)) = Some r' ->
        Normalized.alarm_status r' = Normalized.alarm_status r).
Proof.
  intros H.
  destruct (parse_flags _ _ _ H) as (data & params & Hd & Hp & H1 & H2 & H3 & Hf & Hs).
  split; [ exact Hs | split ].
  - intros props k v r' -> Hk H'.
    destruct (parse_flags _ _ _ H') as (data' & params' & Hd' & Hp' & H1' & H2' & H3' & Hf' & Hs').
    simpl in Hd, Hd'. injection Hd as <-. injection Hd' as <-.
    unfold parameters_of in Hp, Hp'. rewrite get_define_other in Hp' by exact Hk.
    rewrite Hp in Hp'. injection Hp' as <-.
    rewrite Hs, Hs'. congruence.
  - intros props pprops k v r' -> Hpar Hk H'.
    destruct (parse_flags _ _ _ H') as (data' & params' & Hd' & Hp' & H1' & H2' & H3' & Hf' & Hs').
    simpl in Hd, Hd'. injection Hd as <-. injection Hd' as <-.
    unfold parameters_of, orM in Hp, Hp'. simpl in Hp, Hp'.
    rewrite lookup_define_same in Hp'. rewrite Hpar in Hp. simpl in Hp, Hp'.
    injection Hp as <-. injection Hp' as <-.
    assert (Hget : forall key, In key flag_keys ->
              get (VObj (define k v pprops)) key = get (VObj pprops) key).
    { intros key Hin. apply get_define_other. intros ->. contradiction. }
    unfold parseInt_at in *. cbn [bind option_Monad] in *.
    rewrite !Hget in * by (simpl; tauto).
    rewrite Hs, Hs'. congruence.
Qed.

Lemma C5_alarm_status_witness :
  exists r r',
    parseSubtronicsPayload epoch (VObj led_only) = Some r /\
    parseSubtronicsPayload epoch
      (VObj (define "Alarm Status" (VStr "NORMAL") led_only)) = Some r' /\
    Normalized.alarm_status r = "ALARM" /\
    Normalized.alarm_status r
    = status_of_flags (Normalized.sensor_fault r) (Normalized.alarm1_led r)
        (Normalized.alarm2_led r) (Normalized.alarm3_led r) /\
    Normalized.alarm_status r' = Normalized.alarm_status r.
Proof.
  do 2 eexists.
  split; [ vm_compute; reflexivity | ].
  split; [ vm_compute; reflexivity | ].
  split; [ vm_compute; reflexivity | ].
  match goal with
  | |- Normalized.alarm_status ?r = _ /\ Normalized.alarm_status ?r' = _ =>
      assert (H : parseSubtronicsPayload epoch (VObj led_only) = Some r)
        by (vm_compute; reflexivity);
      destruct (C5_alarm_status epoch (VObj led_only) r H) as (H1 & H2 & _);
      split; [ exact H1 | ];
      apply (H2 led_only "Alarm Status" (VStr "NORMAL") r' eq_refl);
        [ discriminate | vm_compute; reflexivity ]
  end.
Defined.

(** C10.  A threshold of zero is replaced by the default, as an absent one
    is: when [Parameters["Alarm Level A1"]] parses (with [parseInt]) to 0 or
    is absent, the normalized [a1_level] is 250, and likewise 500 for A2 and
    1000 for A3.  The rule engine replaces a zero level of any record by the
    same defaults before comparing, so the levels it compares, and the
    kinds of alert it returns from them, never rest on a threshold of 0. *)
Theorem C10_zero_threshold clk raw r data params (d : Normalized.t) st serial :
  parseSubtronicsPayload clk raw = Some r ->
  payload_of raw = Some data ->
  parameters_of data = Some params ->
  ToString (Normalized.serial_number d) = Some serial ->
  (forall v x, get params "Alarm Level A1" = Some v -> parseInt v = Some x ->
               is_zero x = true -> Normalized.a1_level r = of_Z 250) /\
  (forall v x, get params "Alarm Level A2" = Some v -> parseInt v = Some x ->
               is_zero x = true -> Normalized.a2_level r = of_Z 500) /\
  (forall v x, get params "Alarm Level A3" = Some v -> parseInt v = Some x ->
               is_zero x = true -> Normalized.a3_level r = of_Z 1000) /\
  (get params "Alarm Level A1" = Some VUndef -> Normalized.a1_level r = of_Z 250) /\
  (get params "Alarm Level A2" = Some VUndef -> Normalized.a2_level r = of_Z 500) /\
  (get params "Alarm Level A3" = Some VUndef -> Normalized.a3_level r = of_Z 1000) /\
  is_zero (Normalized.a1_level r) = false /\
  is_zero (Normalized.a2_level r) = false /\
  is_zero (Normalized.a3_level r) = false /\
  (is_zero (Normalized.a1_level d) = true -> effective_a1 d = of_Z 250) /\
  (is_zero (Normalized.a2_level d) = true -> effective_a2 d = of_Z 500) /\
  (is_zero (Normalized.a3_level d) = true -> effective_a3 d = of_Z 1000) /\
  is_zero (effective_a1 d) = false /\
  is_zero (effective_a2 d) = false /\
  is_zero (effective_a3 d) = false /\
  exists alerts,
    fst (generateSubtronicsAlerts clk d st) = Some alerts /\
    kinds alerts
    = rule_kinds (num_eqb (Normalized.sensor_fault d) one)
        (effective_reading d) (effective_a1 d) (effective_a2 d) (effective_a3 d).
Proof.
  intros H Hd Hp Hs.
  destruct (parse_levels _ _ _ H) as (data' & params' & Hd' & Hp' & H1 & H2 & H3).
  rewrite Hd in Hd'. injection Hd' as <-. rewrite Hp in Hp'. injection Hp' as <-.
  unfold parseInt_at, parseInt_or, num_orM in H1, H2, H3.
  cbn [bind option_Monad] in H1, H2, H3.
  assert (Hzero : forall k dflt lvl v x,
            match get params k with
            | Some v => match parseInt v with
                        | Some a => if num_truthy a then Some a else Some dflt
                        | None => None
                        end
            | None => None
            end = Some lvl ->
            get params k = Some v -> parseInt v = Some x -> is_zero x = true ->
            lvl = dflt).
  { intros k dflt lvl v x E Hg Hi Hz. rewrite Hg, Hi in E.
    unfold num_truthy in E. rewrite Hz in E. simpl in E. congruence. }
  assert (Habsent : forall k dflt lvl,
            match get params k with
            | Some v => match parseInt v with
                        | Some a => if num_truthy a then Some a else Some dflt
                        | None => None
                        end
            | None => None
            end = Some lvl ->
            get params k = Some VUndef -> lvl = dflt).
  { intros k dflt lvl E Hg. rewrite Hg in E. vm_compute in E. congruence. }
  assert (Hnz : forall k dflt lvl,
            match get params k with
            | Some v => match parseInt v with
                        | Some a => if num_truthy a then Some a else Some dflt
                        | None => None
                        end
            | None => None
            end = Some lvl ->
            is_zero dflt = false -> is_zero lvl = false).
  { intros k dflt lvl E Hdz. destruct (get params k) as [v | ]; [ | discriminate ].
    destruct (parseInt v) as [a | ]; [ | discriminate ].
    destruct (num_truthy a) eqn:Ht; injection E as <-; [ | exact Hdz ].
    unfold num_truthy in Ht. now destruct (is_zero a). }
  repeat match goal with |- _ /\ _ => split end;
    try (intros v x; eapply Hzero; eassumption);
    try (eapply Habsent; eassumption);
    try (eapply Hnz; [ eassumption | reflexivity ]);
    try (apply num_or_zero);
    try (apply num_or_not_zero; reflexivity).
  destruct (generate_run clk d st serial Hs) as (alerts & Hb & Hrun).
  exists alerts. rewrite Hrun. split; [ reflexivity | ].
  now apply (generate_kinds clk).
Qed.

Lemma C10_zero_threshold_witness :
  exists r,
    parseSubtronicsPayload epoch (VStr zero_levels) = Some r /\
    Normalized.a1_level r = of_Z 250 /\
    Normalized.a2_level r = of_Z 500 /\
    Normalized.a3_level r = of_Z 1000.
Proof.
  eexists. split; [ vm_compute; reflexivity | ].
  match goal with
  | |- Normalized.a1_level ?r = _ /\ _ =>
      destruct (C10_zero_threshold epoch (VStr zero_levels) r
                  (VObj [ ("OTSM-2 Serial Number", VStr "OTSM-0114");
                          ("Parameters",
                           VObj [ ("Alarm Level A1", VNum zero);
                                  ("Alarm Level A2", VStr "0");
                                  ("Alarm Level A3", VNum (of_decimal false 4 (-1))) ]) ])
                  (VObj [ ("Alarm Level A1", VNum zero);
                          ("Alarm Level A2", VStr "0");
                          ("Alarm Level A3", VNum (of_decimal false 4 (-1))) ])
                  r {| subtronicsData := []; effects := [] |} "OTSM-0114")
        as (H1 & H2 & H3 & _);
        [ vm_compute; reflexivity | vm_compute; reflexivity
        | vm_compute; reflexivity | vm_compute; reflexivity | ];
      split; [ | split ];
        [ apply (H1 (VNum zero) zero)
        | apply (H2 (VStr "0") zero)
        | apply (H3 (VNum (of_decimal false 4 (-1))) zero) ];
        vm_compute; reflexivity
  end.
Defined.

(** ** C7: the clock in the normalized payload *)

Lemma orM_default_inv (a : option value) (c v : value) :
  (a ||| Some c) = Some v -> exists t, a = Some t /\ v = if truthy t then t else c.
Proof.
  unfold orM. cbn [bind option_Monad]. destruct a as [t | ]; [ | discriminate ].
  exists t. split; [ reflexivity | ]. destruct (truthy t); congruence.
Qed.

Lemma orM_default (a : option value) (c t : value) :
  a = Some t -> (a ||| Some c) = Some (if truthy t then t else c).
Proof.
  intros ->. unfold orM. cbn [bind option_Monad]. now destruct (truthy t).
Qed.

(** Normalizing the same payload under another clock succeeds as well, and
    changes [processed_at] and a [timestamp] read from the clock only. *)
Lemma parse_clock clk1 clk2 raw r1 :
  parseSubtronicsPayload clk1 raw = Some r1 ->
  exists data t,
    payload_of raw = Some data /\
    reported_time data = Some t /\
    Normalized.timestamp r1 = timestamp_of clk1 t /\
    Normalized.processed_at r1 = toISOString (clk1 ProcessedAt) /\
    parseSubtronicsPayload clk2 raw
    = Some (with_times (timestamp_of clk2 t) (toISOString (clk2 ProcessedAt)) r1).
Proof.
  intros H. invert_parse H.
  match goal with
  | E : _ ||| Some (VStr (toISOString _)) = Some _ |- _ =>
      apply orM_default_inv in E; destruct E as (t & Et & ->)
  end.
  match goal with
  | E : match raw with VStr _ => _ | _ => _ end = Some ?d |- _ => exists d, t
  end.
  subst r1. unfold payload_of, reported_time, timestamp_of, with_times.
  cbn [Normalized.timestamp Normalized.processed_at].
  repeat (split; [ solve [ eassumption | reflexivity ] | ]).
  unfold parseSubtronicsPayload. cbn [bind option_Monad].
  repeat first
    [ rewrite (orM_default _ (VStr (toISOString (clk2 Timestamp))) t Et)
    | match goal with
      | E : ?x = Some _ |- context [ ?x ] => rewrite E
      end ].
  reflexivity.
Qed.

(** C7 (amended).  Normalizing the same raw payload twice either fails both
    times or yields two records that agree in every field except
    [processed_at] and, when the payload carries neither a truthy
    ["Date Time At Reading"] nor a truthy ["timestamp"], [timestamp], which
    is then read from the clock as well; when the payload does carry one,
    [timestamp] is that value both times. *)
Theorem C7_idempotent_up_to_clock clk1 clk2 raw :
  match parseSubtronicsPayload clk1 raw, parseSubtronicsPayload clk2 raw with
  | Some r1, Some r2 =>
      r2 = with_times (Normalized.timestamp r2) (Normalized.processed_at r2) r1 /\
      exists data t,
        payload_of raw = Some data /\ reported_time data = Some t /\
        Normalized.timestamp r1 = (if truthy t then t else VStr (toISOString (clk1 Timestamp))) /\
        Normalized.timestamp r2 = (if truthy t then t else VStr (toISOString (clk2 Timestamp)))
  | None, None => True
  | _, _ => False
  end.
Proof.
  destruct (parseSubtronicsPayload clk1 raw) as [r1 | ] eqn:E1.
  - destruct (parse_clock clk1 clk2 raw r1 E1) as (data & t & Hd & Ht & Hts & Hpa & ->).
    split; [ reflexivity | ]. exists data, t. auto.
  - destruct (parseSubtronicsPayload clk2 raw) as [r2 | ] eqn:E2; [ | exact I ].
    destruct (parse_clock clk2 clk1 raw r2 E2) as (data & t & _ & _ & _ & _ & H).
    congruence.
Qed.

Lemma C7_idempotent_up_to_clock_witness :
  match parseSubtronicsPayload epoch (VStr offset_only),
        parseSubtronicsPayload later (VStr offset_only) with
  | Some r1, Some r2 =>
      r2 = with_times (Normalized.timestamp r2) (Normalized.processed_at r2) r1
  | _, _ => False
  end.
Proof.
  pose proof (C7_idempotent_up_to_clock epoch later (VStr offset_only)) as H.
  destruct (parseSubtronicsPayload epoch (VStr offset_only)) as [r1 | ] eqn:E1;
    destruct (parseSubtronicsPayload later (VStr offset_only)) as [r2 | ] eqn:E2;
    try exact H.
  - exact (proj1 H).
  - vm_compute in E1. discriminate E1.
Defined.

(** C7 as stated fails: the empty payload carries no time of its own, and
    its two normalizations under clocks one millisecond apart differ in
    [timestamp]. *)
Lemma C7_counterexample :
  option_map Normalized.timestamp (parseSubtronicsPayload epoch (VObj []))
    = Some (VStr "1970-01-01T00:00:00.000Z") /\
  option_map Normalized.timestamp (parseSubtronicsPayload later (VObj []))
    = Some (VStr "1970-01-01T00:00:00.001Z") /\
  option_map Normalized.timestamp (parseSubtronicsPayload epoch (VObj []))
    <> option_map Normalized.timestamp (parseSubtronicsPayload later (VObj [])).
Proof.
  split; [ vm_compute; reflexivity | ].
  split; [ vm_compute; reflexivity | ].
  vm_compute. discriminate.
Qed.

(** ** The message handler *)

Lemma on_message_unparsed clk topic message st :
  JSON_parse message = None -> on_message clk topic message st = st.
Proof.
  intros H. unfold on_message, try_catch. cbn [bind Run_Monad]. unfold lift.
  now rewrite H.
Qed.

Lemma on_message_other_topic clk topic message st :
  String.eqb topic "SubTronics/data" = false -> on_message clk topic message st = st.
Proof.
  intros H. unfold on_message, try_catch. cbn [bind Run_Monad]. unfold lift.
  destruct (JSON_parse message); [ | reflexivity ]. now rewrite H.
Qed.

Lemma on_message_handled clk message st n :
  normalized clk message = Some n ->
  on_message clk "SubTronics/data" message st = handled clk n st.
Proof.
  unfold normalized. cbn [bind option_Monad].
  destruct (JSON_parse message) as [data | ] eqn:Ed; [ | discriminate ]. intros Hn.
  unfold on_message, try_catch, handled. cbn [bind Run_Monad]. unfold lift at 1.
  rewrite Ed, String.eqb_refl, Hn.
  unfold store_set, room_of, alerts_key, lift at 1. cbn [bind Run_Monad option_Monad].
  destruct (ToString (Normalized.serial_number n)) as [s | ] eqn:Es; [ | reflexivity ].
  unfold perform at 1.
  match goal with
  | |- context [ generateSubtronicsAlerts clk n ?st1 ] =>
      destruct (generate_run clk n st1 s Es) as (alerts & Hb & Hrun); rewrite Hrun
  end.
  rewrite Hb. destruct alerts as [ | a rest ]; [ now rewrite log_all_nil | ].
  cbn [List.length Z.of_nat Z.ltb Z.compare]. unfold lift, store_get, perform, ret.
  cbn [log_all subtronicsData effects snd fst].
  destruct (spread _) as [existing | ]; cbn [snd]; unfold log_all;
    cbn [subtronicsData effects]; rewrite <- !app_assoc; reflexivity.
Qed.

(** ** C1: the alert rules *)

Lemma tie_is_breach (x y : number) : num_eqb x y = true -> geb x y = true.
Proof.
  unfold num_eqb, geb, SFeqb, SFleb.
  destruct x as [s | s | | s m e], y as [s' | s' | | s' m' e']; simpl;
    try discriminate; try reflexivity;
    destruct s, s'; simpl; try discriminate; try reflexivity.
  all: destruct (Z.compare e e') eqn:Ec; try discriminate;
    apply Z.compare_eq in Ec; subst e'; rewrite Z.compare_refl;
    destruct (Pos.compare_cont Eq m m') eqn:Em; try discriminate;
    apply Pos.compare_eq in Em; subst m'; now rewrite Pos.compare_cont_refl.
Qed.

(** C1 (amended).  For every record whose serial number prints, the engine
    returns exactly, in this order: one sensor_fault/critical alert iff
    [sensor_fault === 1]; then at most one threshold alert chosen by the
    high-to-low cascade alarm_level_3/critical, else alarm_level_2/high, else
    alarm_level_1/warning, else none.  The cascade compares
    [parseFloat(sensor_reading) || 0] with [parseFloat(aN_level) || default]:
    a NaN reading counts as 0, a zero or NaN level as its default.  When the
    reading is not NaN and no level is 0 or NaN, this is the comparison of
    [sensor_reading] with the levels themselves.  A reading equal to a level
    breaches it. *)
Theorem C1_alert_rules clk data st serial :
  ToString (Normalized.serial_number data) = Some serial ->
  exists alerts,
    fst (generateSubtronicsAlerts clk data st) = Some alerts /\
    kinds alerts
    = rule_kinds (num_eqb (Normalized.sensor_fault data) one)
        (effective_reading data) (effective_a1 data) (effective_a2 data) (effective_a3 data) /\
    (is_nan (Normalized.sensor_reading data) = false ->
     num_truthy (Normalized.a1_level data) = true ->
     num_truthy (Normalized.a2_level data) = true ->
     num_truthy (Normalized.a3_level data) = true ->
     kinds alerts
     = rule_kinds (num_eqb (Normalized.sensor_fault data) one)
         (Normalized.sensor_reading data) (Normalized.a1_level data)
         (Normalized.a2_level data) (Normalized.a3_level data)) /\
    (forall level, num_eqb (effective_reading data) level = true ->
                   geb (effective_reading data) level = true).
Proof.
  intros Hs. destruct (generate_run clk data st serial Hs) as (alerts & Hb & Hrun).
  exists alerts. rewrite Hrun. split; [ reflexivity | ].
  pose proof (generate_kinds clk data alerts Hb) as Hk.
  split; [ exact Hk | split ].
  - intros Hr H1 H2 H3. rewrite Hk.
    unfold effective_reading, effective_a1, effective_a2, effective_a3, rule_kinds.
    rewrite (num_or_truthy _ _ H1), (num_or_truthy _ _ H2), (num_or_truthy _ _ H3).
    now rewrite !geb_effective_reading.
  - intros level. apply tie_is_breach.
Qed.

Lemma C1_alert_rules_witness :
  exists r alerts,
    parseSubtronicsPayload epoch (VStr scenario) = Some r /\
    fst (generateSubtronicsAlerts epoch r empty) = Some alerts /\
    kinds alerts = [ ("alarm_level_3", "critical") ].
Proof.
  eexists.
  match goal with
  | |- exists alerts, parseSubtronicsPayload _ _ = Some ?r /\ _ =>
      assert (Hr : parseSubtronicsPayload epoch (VStr scenario) = Some r)
        by (vm_compute; reflexivity);
      destruct (C1_alert_rules epoch r empty "OTSM-0114") as (alerts & Hrun & Hk & _);
        [ vm_compute; reflexivity | ];
      exists alerts; split; [ exact Hr | split; [ exact Hrun | ] ];
      rewrite Hk; vm_compute; reflexivity
  end.
Defined.

(** C1 as stated fails.  A reading that is not a number is normalized to
    NaN, which is [>=] no level; the engine compares 0 instead and, the A3
    level being -5, returns an alarm_level_3 alert.  And on a record whose
    serial number has no conversion to a string the engine, a rule firing,
    throws instead of returning. *)
Lemma C1_counterexample :
  match parseSubtronicsPayload epoch (VStr unreadable) with
  | Some data =>
      is_nan (Normalized.sensor_reading data) = true /\
      Normalized.a3_level data = of_Z (-5) /\
      option_map kinds (fst (generateSubtronicsAlerts epoch data empty))
      = Some [ ("alarm_level_3", "critical") ] /\
      rule_kinds (num_eqb (Normalized.sensor_fault data) one)
        (Normalized.sensor_reading data) (Normalized.a1_level data)
        (Normalized.a2_level data) (Normalized.a3_level data) = []
  | None => False
  end /\
  match parseSubtronicsPayload epoch (VStr unprintable) with
  | Some data =>
      num_eqb (Normalized.sensor_fault data) one = true /\
      fst (generateSubtronicsAlerts epoch data empty) = None
  | None => False
  end.
Proof. vm_compute. repeat split. Qed.

(** ** C4: messages that do not normalize *)

Lemma unnormalized_is_silent clk topic message st :
  (JSON_parse message = None ->
   parseSubtronicsPayload clk (VStr message) = None /\ normalized clk message = None) /\
  (normalized clk message = None -> on_message clk topic message st = st).
Proof.
  split.
  - intros H. unfold normalized, parseSubtronicsPayload. cbn [bind option_Monad].
    now rewrite H.
  - unfold normalized. cbn [bind option_Monad]. intros H.
    destruct (JSON_parse message) as [data | ] eqn:Ed;
      [ | now apply on_message_unparsed ].
    unfold on_message, try_catch. cbn [bind Run_Monad]. unfold lift. rewrite Ed, H.
    now destruct (String.eqb topic "SubTronics/data").
Qed.

(** C4.  A message that is not JSON does not normalize, and text that is
    not JSON handed to the normalizer yields no record.  Whenever a message
    does not normalize, for that reason or any other, the handler leaves the
    state as it was: the store is unchanged and nothing is emitted. *)
Theorem C4_failure_is_silent clk topic message st :
  (JSON_parse message = None ->
   parseSubtronicsPayload clk (VStr message) = None /\ normalized clk message = None) /\
  (normalized clk message = None -> on_message clk topic message st = st).
Proof. exact (unnormalized_is_silent clk topic message st). Qed.

Lemma C4_failure_is_silent_witness :
  JSON_parse malformed = None /\
  parseSubtronicsPayload epoch (VStr malformed) = None /\
  on_message epoch "SubTronics/data" malformed empty = empty /\
  on_message epoch "SubTronics/data" "null" empty = empty.
Proof.
  assert (H : JSON_parse malformed = None) by (vm_compute; reflexivity).
  split; [ exact H | ].
  split; [ exact (proj1 (proj1 (C4_failure_is_silent epoch "SubTronics/data" malformed empty) H)) | ].
  split.
  - apply (proj2 (C4_failure_is_silent epoch "SubTronics/data" malformed empty)).
    vm_compute. reflexivity.
  - apply (proj2 (C4_failure_is_silent epoch "SubTronics/data" "null" empty)).
    vm_compute. reflexivity.
Defined.

(** ** The store *)

Lemma SFeqb_eq (x y : number) :
  SFeqb x y = true -> (is_zero x = true /\ is_zero y = true) \/ x = y.
Proof.
  unfold SFeqb.
  destruct x as [s | s | | s m e], y as [s' | s' | | s' m' e']; simpl;
    try discriminate; auto;
    destruct s, s'; simpl; try discriminate; auto.
  all: destruct (Z.compare e e') eqn:Ec; try discriminate;
    apply Z.compare_eq in Ec; subst e';
    destruct (Pos.compare_cont Eq m m') eqn:Em; try discriminate;
    apply Pos.compare_eq in Em; subst m'; auto.
Qed.

(** On the keys that can be found again, SameValueZero is an equivalence:
    two keys equal to a third are equal to each other. *)
Lemma same_value_zero_join (a b c : value) :
  same_value_zero a c = true -> same_value_zero b c = true -> same_value_zero a b = true.
Proof.
  destruct a as [ | | x | x | x | x | x ], c as [ | | z | z | z | z | z ]; simpl;
    try discriminate;
    destruct b as [ | | y | y | y | y | y ]; simpl; try discriminate; auto.
  - destruct x, y, z; simpl; auto; discriminate.
  - unfold num_eqb.
    destruct (is_nan x) eqn:Nx, (is_nan z) eqn:Nz, (is_nan y) eqn:Ny; simpl; auto;
      try (destruct x; discriminate); try (destruct y; discriminate);
      try (destruct x, z; discriminate); try (destruct y, z; discriminate).
    intros Hxz Hyz.
    destruct (SFeqb_eq _ _ Hxz) as [[Zx Zz] | ->].
    + destruct (SFeqb_eq _ _ Hyz) as [[Zy _] | ->].
      * destruct x, y; try discriminate. reflexivity.
      * apply Hxz.
    + destruct (SFeqb_eq _ _ Hyz) as [[Zy Zz] | ->].
      * destruct y, z; try discriminate. reflexivity.
      * exact Hxz.
  - intros Hxz Hyz. apply String.eqb_eq in Hxz, Hyz. subst. apply String.eqb_refl.
Qed.

Lemma Map_get_set_other {V : Type} (k k' : value) (v : V) (m : Map V) :
  same_value_zero k k' = false -> Map_get k (Map_set k' v m) = Map_get k m.
Proof.
  intros Hne. induction m as [ | [k0 v0] rest IH]; simpl.
  - now rewrite Hne.
  - destruct (same_value_zero k' k0) eqn:E1; simpl.
    + destruct (same_value_zero k k0) eqn:E2; [ | reflexivity ].
      rewrite (same_value_zero_join _ _ _ E2 E1) in Hne. discriminate.
    + now rewrite IH.
Qed.

Lemma Map_get_set_same {V : Type} (k : value) (v : V) (m : Map V) :
  same_value_zero k k = true -> Map_get k (Map_set k v m) = Some v.
Proof.
  intros Hk. induction m as [ | [k0 v0] rest IH]; simpl.
  - now rewrite Hk.
  - destruct (same_value_zero k k0) eqn:E; simpl; now rewrite E.
Qed.

Lemma string_key_self (s : string) : same_value_zero (VStr s) (VStr s) = true.
Proof. apply String.eqb_refl. Qed.

Lemma length_append (a b : string) :
  String.length (a ++ b) = (String.length a + String.length b)%nat.
Proof. induction a; simpl; auto. Qed.

Lemma suffixed_key_differs (s : string) :
  same_value_zero (VStr s) (VStr (s ++ "_alerts")) = false.
Proof.
  simpl. apply String.eqb_neq. intros H.
  apply (f_equal String.length) in H. rewrite length_append in H. simpl in H. lia.
Qed.

(** ** C9: records and alert lists under one key space *)

Lemma serial_is_not_alerts_key (serial : value) (s : string) :
  ToString serial = Some s -> same_value_zero serial (VStr (s ++ "_alerts")) = false.
Proof.
  destruct serial; try reflexivity.
  simpl. intros [= ->]. apply (suffixed_key_differs s).
Qed.

Lemma handled_frame clk n st s k :
  ToString (Normalized.serial_number n) = Some s ->
  same_value_zero k (Normalized.serial_number n) = false ->
  same_value_zero k (VStr (s ++ "_alerts")) = false ->
  Map_get k (subtronicsData (handled clk n st)) = Map_get k (subtronicsData st).
Proof.
  intros Hs H1 H2. unfold handled. rewrite Hs.
  destruct (all_built _) as [[ | a rest] | ]; cbn [subtronicsData];
    try (now apply Map_get_set_other).
  destruct (spread _); cbn [subtronicsData];
    repeat rewrite Map_get_set_other by assumption; reflexivity.
Qed.

Lemma handled_record clk n st s :
  ToString (Normalized.serial_number n) = Some s ->
  same_value_zero (Normalized.serial_number n) (Normalized.serial_number n) = true ->
  Map_get (Normalized.serial_number n) (subtronicsData (handled clk n st))
  = Some (Record_ n).
Proof.
  intros Hs Hself. pose proof (serial_is_not_alerts_key _ _ Hs) as Hne.
  unfold handled. rewrite Hs.
  destruct (all_built _) as [[ | a rest] | ]; cbn [subtronicsData];
    try (now apply Map_get_set_same).
  destruct (spread _); cbn [subtronicsData];
    repeat rewrite Map_get_set_other by assumption; now apply Map_get_set_same.
Qed.

(** C9.  The normalized payload of a device is stored in [subtronicsData]
    under its serial number, and its alerts in the same map under the serial
    number followed by [_alerts]; handling a message writes no other key.
    So when a message arrives from a device whose serial number is [d]
    followed by [_alerts], what is kept as the alerts of device [d] is from
    then on that device's normalized payload, whatever alert list was there
    before. *)
Theorem C9_shared_key_space clk message st n s :
  normalized clk message = Some n ->
  ToString (Normalized.serial_number n) = Some s ->
  let st' := on_message clk "SubTronics/data" message st in
  (same_value_zero (Normalized.serial_number n) (Normalized.serial_number n) = true ->
   Map_get (Normalized.serial_number n) (subtronicsData st') = Some (Record_ n)) /\
  (forall alerts existing,
     all_built (fault_part clk n ++ threshold_part clk n) = Some alerts ->
     alerts <> [] ->
     alert_list s {| subtronicsData :=
                       Map_set (Normalized.serial_number n) (Record_ n) (subtronicsData st);
                     effects := effects st |} = Some existing ->
     alert_list s st' = Some (existing ++ alerts)%list) /\
  (forall k,
     same_value_zero k (Normalized.serial_number n) = false ->
     same_value_zero k (VStr (s ++ "_alerts")) = false ->
     Map_get k (subtronicsData st') = Map_get k (subtronicsData st)) /\
  (forall d,
     Normalized.serial_number n = VStr (d ++ "_alerts") ->
     get_alerts d st' = Json (Record_ n) /\ alert_list d st' = None).
Proof.
  intros Hn Hs st'. subst st'. rewrite (on_message_handled _ _ _ _ Hn).
  split; [ | split; [ | split ] ].
  - now apply handled_record with (s := s).
  - intros alerts existing Hb Hne Hex. unfold alert_list in *. cbn [subtronicsData] in Hex.
    unfold handled. rewrite Hs, Hb.
    destruct alerts as [ | a rest ]; [ congruence | ].
    destruct (spread (Map_get _ _)) as [l | ] eqn:E; [ | discriminate ].
    injection Hex as <-. cbn [subtronicsData].
    now rewrite (Map_get_set_same _ _ _ (string_key_self _)).
  - intros k H1 H2. now apply handled_frame with (s := s).
  - intros d Hd.
    assert (Hget : Map_get (VStr (d ++ "_alerts")) (subtronicsData (handled clk n st))
                   = Some (Record_ n)).
    { rewrite <- Hd. apply handled_record with (s := s); [ exact Hs | ].
      rewrite Hd. apply string_key_self. }
    unfold get_alerts, alert_list. now rewrite Hget.
Qed.

Lemma C9_shared_key_space_witness :
  let before := on_message noon "SubTronics/data" from_pump empty in
  let after := on_message noon "SubTronics/data" from_pump_alerts before in
  option_map (List.map Alert.type) (alert_list "PUMP" before) = Some [ "alarm_level_3" ] /\
  exists n,
    normalized noon from_pump_alerts = Some n /\
    get_alerts "PUMP" after = Json (Record_ n) /\
    alert_list "PUMP" after = None.
Proof.
  intros before after. split; [ vm_compute; reflexivity | ].
  eexists.
  match goal with
  | |- normalized _ _ = Some ?n /\ _ =>
      assert (Hn : normalized noon from_pump_alerts = Some n) by (vm_compute; reflexivity);
      split; [ exact Hn | ];
      apply (C9_shared_key_space noon from_pump_alerts before n "PUMP_alerts" Hn);
        vm_compute; reflexivity
  end.
Defined.

(** ** C8: the order of the two events *)

Lemma logs_are_not_events deviceId alerts :
  forallb (fun e => negb (is_alerts_event e)) (List.map (LogAlarmEvent deviceId) alerts) = true.
Proof. induction alerts; simpl; auto. Qed.

Lemma split_at_alerts_event (logs pre post : list effect) (A A0 : effect) :
  forallb (fun e => negb (is_alerts_event e)) logs = true ->
  is_alerts_event A = true ->
  (pre ++ A :: post = logs ++ [A0])%list ->
  pre = logs /\ A = A0 /\ post = [].
Proof.
  intros Hlogs HA. revert pre. induction logs as [ | l ls IH]; intros pre H.
  - destruct pre as [ | x pre']; simpl in H.
    + injection H as -> ->. auto.
    + injection H as _ H. destruct pre'; discriminate.
  - simpl in Hlogs. apply andb_prop in Hlogs. destruct Hlogs as [Hl Hls].
    destruct pre as [ | x pre']; simpl in H.
    + injection H as -> _. rewrite HA in Hl. discriminate.
    + injection H as -> H. destruct (IH Hls pre' H) as (-> & -> & ->). auto.
Qed.

Lemma no_alerts_event_among (logs pre post : list effect) (A : effect) :
  forallb (fun e => negb (is_alerts_event e)) logs = true ->
  is_alerts_event A = true ->
  (pre ++ A :: post)%list <> logs.
Proof.
  intros Hlogs HA H. rewrite forallb_forall in Hlogs.
  assert (Hin : In A logs) by (rewrite <- H; apply in_elt).
  apply Hlogs in Hin. rewrite HA in Hin. discriminate.
Qed.

Lemma nothing_is_ordered clk topic message :
  normalized clk message = None \/ topic <> "SubTronics/data" ->
  alerts_follow_data clk message [] /\ data_comes_first clk topic message [].
Proof.
  intros Hwhy. split.
  - intros pre room body post H. destruct pre; discriminate.
  - intros n s Ht Hn Hs. destruct Hwhy as [Hw | Hw]; congruence.
Qed.

(** C8.  Whatever the handler emits for one message, a device:alerts event
    among it is the last thing done and comes after the device:data event
    that carries the normalized payload, sent to the same room; and for a
    message that normalizes and whose serial number prints, the device:data
    event is emitted first of all. *)
Theorem C8_data_before_alerts clk topic message st :
  exists new,
    effects (on_message clk topic message st) = (effects st ++ new)%list /\
    alerts_follow_data clk message new /\
    data_comes_first clk topic message new.
Proof.
  destruct (String.eqb topic "SubTronics/data") eqn:Et.
  2:{ exists []. rewrite on_message_other_topic, app_nil_r by exact Et.
      split; [ reflexivity | ]. apply nothing_is_ordered.
      right. now apply String.eqb_neq. }
  apply String.eqb_eq in Et. subst topic.
  destruct (normalized clk message) as [n | ] eqn:Hn.
  2:{ exists [].
      rewrite (proj2 (unnormalized_is_silent clk "SubTronics/data" message st) Hn).
      rewrite app_nil_r. split; [ reflexivity | ]. apply nothing_is_ordered. now left. }
  assert (Hfirst : forall rest,
            data_comes_first clk "SubTronics/data" message
              (data_event clk n
                 ("device:" ++ match ToString (Normalized.serial_number n) with
                               | Some s => s
                               | None => ""
                               end) :: rest)).
  { intros rest n' s' _ Hn' Hs'. assert (n' = n) by congruence. subst n'.
    rewrite Hs'. now exists rest. }
  rewrite (on_message_handled _ _ _ _ Hn). unfold handled.
  destruct (ToString (Normalized.serial_number n)) as [s | ] eqn:Hs; cbn [effects].
  2:{ exists []. rewrite app_nil_r. split; [ reflexivity | split ].
      - intros pre room body post H. destruct pre; discriminate.
      - intros n' s' _ Hn' Hs'. assert (n' = n) by congruence. subst n'. congruence. }
  fold (data_event clk n ("device:" ++ s)).
  destruct (all_built _) as [[ | a rest] | ]; cbn [effects].
  1,3: exists [data_event clk n ("device:" ++ s)];
    (split; [ reflexivity | split; [ | apply Hfirst ] ]);
    intros pre room body post H; destruct pre as [ | x [ | y pre']]; discriminate H.
  set (alerts := a :: rest).
  set (logs := List.map (LogAlarmEvent (Normalized.serial_number n)) alerts).
  pose proof (logs_are_not_events (Normalized.serial_number n) alerts) as Hlogs.
  fold logs in Hlogs.
  destruct (spread _) as [existing | ]; cbn [effects];
    (eexists; split; [ reflexivity | split; [ | apply Hfirst ] ]);
    intros pre room body post H;
    (destruct pre as [ | x pre']; [ discriminate H | ]);
    rewrite <- app_comm_cons in H; injection H as Hx H.
  - destruct (split_at_alerts_event logs pre' post
                (Emit room "device:alerts" body) _ Hlogs eq_refl (eq_sym H))
      as (Hpre & HA & Hpost).
    injection HA as Hroom Hbody.
    exists n, alerts, logs. subst. auto.
  - exfalso.
    apply (no_alerts_event_among logs pre' post
             (Emit room "device:alerts" body) Hlogs eq_refl).
    now symmetry.
Qed.

Lemma C8_data_before_alerts_witness :
  emitted (effects (on_message noon "SubTronics/data" scenario empty))
  = [ "device:data"; "device:alerts" ] /\
  exists new,
    effects (on_message noon "SubTronics/data" scenario empty) = (effects empty ++ new)%list.
Proof.
  split; [ vm_compute; reflexivity | ].
  destruct (C8_data_before_alerts noon "SubTronics/data" scenario empty)
    as (new & Hnew & _).
  exists new. exact Hnew.
Defined.

(** ** C3: acknowledging an alert *)

Lemma findIndex_Some alertId alerts i :
  findIndex alertId alerts = Some i ->
  exists a,
    nth_error alerts i = Some a /\ Alert.id a = alertId /\
    forall j b, (j < i)%nat -> nth_error alerts j = Some b -> Alert.id b <> alertId.
Proof.
  revert i. induction alerts as [ | a rest IH]; intros i; simpl; [ discriminate | ].
  destruct (String.eqb (Alert.id a) alertId) eqn:E.
  - intros [= <-]. exists a. split; [ reflexivity | ].
    split; [ now apply String.eqb_eq | ]. intros j b Hj. lia.
  - destruct (findIndex alertId rest) as [i' | ]; [ | discriminate ].
    intros [= <-]. destruct (IH i' eq_refl) as (a' & Hn & Hid & Hbefore).
    exists a'. split; [ exact Hn | split; [ exact Hid | ] ].
    intros [ | j] b Hj; simpl.
    + intros [= <-]. now apply String.eqb_neq.
    + apply Hbefore. lia.
Qed.

Lemma nth_error_update_at_same i f alerts :
  nth_error (update_at i f alerts) i = option_map f (nth_error alerts i).
Proof.
  revert i. induction alerts as [ | a rest IH]; intros [ | i]; simpl; auto.
Qed.

Lemma nth_error_update_at_other i j f alerts :
  j <> i -> nth_error (update_at i f alerts) j = nth_error alerts j.
Proof.
  revert i j. induction alerts as [ | a rest IH]; intros [ | i] [ | j] H; simpl; auto.
  congruence.
Qed.

(** The answer of an acknowledgement and the state it leaves. *)
Lemma acknowledge_run clk deviceId alertId who st :
  acknowledge clk deviceId alertId who st
  = match alert_list deviceId st with
    | None => (Status500, st)
    | Some alerts =>
        match findIndex alertId alerts with
        | Some i =>
            (match ToString who with Some _ => Json true | None => Status500 end,
             {| subtronicsData :=
                  Map_set (VStr (deviceId ++ "_alerts"))
                    (Alerts (update_at i
                               (Alert.acknowledge (toISOString (clk AcknowledgedAt)) who)
                               alerts))
                    (subtronicsData st);
                effects := effects st |})
        | None => (Status404, st)
        end
    end.
Proof.
  unfold acknowledge, alert_list.
  destruct (Map_get _ (subtronicsData st)) as [[r | l] | ]; cbn [spread]; cbv zeta;
    try reflexivity.
  destruct (findIndex alertId l); [ | reflexivity ]. now destruct (ToString who).
Qed.

(** C3 (amended).  Acknowledging looks for the alert id in the list kept
    under that device's key only.  If no alert of the list has the id (in
    particular if the key is unused), the answer is 404 and the state is
    unchanged.  Otherwise the first alert with that id gets
    [acknowledged_at], the current time, and [acknowledged_by], the
    identity given by the caller; no other alert of the list, no other key
    of the store and no other field of the alert changes, and no
    [acknowledged] flag is written.  The answer is then success if the
    identity has a string conversion, and 500 if it has none: the handler
    prints the identity after the update.  If the device's key holds a
    normalized payload instead of a list, the answer is 500 and the state
    is unchanged. *)
Theorem C3_acknowledge clk deviceId alertId who st :
  let key := VStr (deviceId ++ "_alerts") in
  let now := toISOString (clk AcknowledgedAt) in
  match alert_list deviceId st with
  | None => acknowledge clk deviceId alertId who st = (Status500, st)
  | Some alerts =>
      match findIndex alertId alerts with
      | None => acknowledge clk deviceId alertId who st = (Status404, st)
      | Some i =>
          exists a,
            nth_error alerts i = Some a /\ Alert.id a = alertId /\
            (forall j b, (j < i)%nat -> nth_error alerts j = Some b ->
                         Alert.id b <> alertId) /\
            let alerts' := update_at i (Alert.acknowledge now who) alerts in
            let st' := snd (acknowledge clk deviceId alertId who st) in
            fst (acknowledge clk deviceId alertId who st)
            = match ToString who with Some _ => Json true | None => Status500 end /\
            effects st' = effects st /\
            alert_list deviceId st' = Some alerts' /\
            nth_error alerts' i = Some (Alert.acknowledge now who a) /\
            (forall j, j <> i -> nth_error alerts' j = nth_error alerts j) /\
            Alert.acknowledged_at (Alert.acknowledge now who a) = Some now /\
            Alert.acknowledged_by (Alert.acknowledge now who a) = Some who /\
            lookup "acknowledged" (alert_properties (Alert.acknowledge now who a)) = None /\
            (forall k, same_value_zero k key = false ->
                       Map_get k (subtronicsData st') = Map_get k (subtronicsData st))
      end
  end.
Proof.
  intros key now. rewrite acknowledge_run.
  destruct (alert_list deviceId st) as [alerts | ]; [ | reflexivity ].
  destruct (findIndex alertId alerts) as [i | ] eqn:Ei; [ | reflexivity ].
  destruct (findIndex_Some _ _ _ Ei) as (a & Hn & Hid & Hbefore).
  exists a. cbn [fst snd subtronicsData effects]. subst key now.
  split; [ exact Hn | ]. split; [ exact Hid | ]. split; [ exact Hbefore | ].
  split; [ reflexivity | ]. split; [ reflexivity | ].
  split.
  { unfold alert_list. cbn [subtronicsData].
    now rewrite (Map_get_set_same _ _ _ (string_key_self _)). }
  split; [ now rewrite nth_error_update_at_same, Hn | ].
  split; [ intros j Hj; now apply nth_error_update_at_other | ].
  split; [ reflexivity | ]. split; [ reflexivity | ].
  split.
  { unfold alert_properties. cbn [Alert.acknowledge Alert.threshold Alert.acknowledged_at
      Alert.acknowledged_by]. destruct (Alert.threshold a); reflexivity. }
  intros k Hk. now apply Map_get_set_other.
Qed.

Lemma C3_acknowledge_witness :
  fst (acknowledge noon "OTSM-0114" scenario_alert_id (VStr "operator") once) = Json true /\
  acknowledge noon "OTSM-0114" "no-such-id" (VStr "operator") once = (Status404, once) /\
  fst (acknowledge noon "OTSM-0114" scenario_alert_id nameless once) = Status500 /\
  option_map (List.map Alert.acknowledged_by)
    (alert_list "OTSM-0114"
       (snd (acknowledge noon "OTSM-0114" scenario_alert_id nameless once)))
  = Some [ Some nameless ].
Proof.
  assert (Hl : alert_list "OTSM-0114" once = Some scenario_alerts)
    by (vm_compute; reflexivity).
  pose proof (C3_acknowledge noon "OTSM-0114" scenario_alert_id (VStr "operator") once)
    as Hfound.
  pose proof (C3_acknowledge noon "OTSM-0114" "no-such-id" (VStr "operator") once)
    as Hmissing.
  pose proof (C3_acknowledge noon "OTSM-0114" scenario_alert_id nameless once)
    as Hnameless.
  cbv zeta in Hfound, Hmissing, Hnameless.
  rewrite Hl in Hfound, Hmissing, Hnameless.
  change (findIndex scenario_alert_id scenario_alerts) with (Some 0%nat)
    in Hfound, Hnameless.
  change (findIndex "no-such-id" scenario_alerts) with (@None nat) in Hmissing.
  destruct Hfound as (a & _ & _ & _ & Hok & _).
  destruct Hnameless as (b & Hb & _ & _ & Hfail & _ & Hlist & _).
  split; [ exact Hok | ]. split; [ exact Hmissing | ]. split; [ exact Hfail | ].
  rewrite Hlist. injection Hb as <-. reflexivity.
Defined.

(** C3 as stated fails: after a successful acknowledgement the alert has
    [acknowledged_at] and [acknowledged_by], and no property
    [acknowledged]. *)
Lemma C3_counterexample :
  let result := acknowledge noon "OTSM-0114" scenario_alert_id (VStr "operator") once in
  fst result = Json true /\
  option_map (List.map (fun a => lookup "acknowledged" (alert_properties a)))
    (alert_list "OTSM-0114" (snd result)) = Some [ None ] /\
  option_map (List.map (fun a => lookup "acknowledged_at" (alert_properties a)))
    (alert_list "OTSM-0114" (snd result)) = Some [ Some (VStr "2026-01-28T11:37:12.123Z") ] /\
  option_map (List.map (fun a => lookup "acknowledged_by" (alert_properties a)))
    (alert_list "OTSM-0114" (snd result)) = Some [ Some (VStr "operator") ].
Proof. vm_compute. repeat split. Qed.

(** ** C6: alert ids *)

(** C6 fails on the code.  The same message handled twice within one
    millisecond leaves two alerts in the device's list, both kept, with one
    and the same id; acknowledging that id then reaches the first of them
    only. *)
Lemma C6_ids_collide :
  option_map (List.map Alert.id) (alert_list "OTSM-0114" twice)
  = Some [ scenario_alert_id; scenario_alert_id ] /\
  option_map (List.map Alert.acknowledged_by)
    (alert_list "OTSM-0114"
       (snd (acknowledge noon "OTSM-0114" scenario_alert_id (VStr "operator") twice)))
  = Some [ Some (VStr "operator"); None ].
Proof. vm_compute. repeat split. Qed.

(* ===================================================================== *)
(** * Further properties *)
(* ===================================================================== *)

(** ** The normalizer: fields that are always usable *)

Lemma num_orM_default_not_nan (a : option number) (d x : number) :
  num_orM a (Some d) = Some x -> is_nan d = false -> is_nan x = false.
Proof.
  unfold num_orM, num_truthy. cbn [bind option_Monad].
  destruct a as [y | ]; [ | discriminate ].
  destruct (is_zero y) eqn:Ez; simpl.
  - now intros [= <-].
  - destruct (is_nan y) eqn:En; simpl; now intros [= <-].
Qed.

Lemma num_orM_default_truthy (a : option number) (d x : number) :
  num_orM a (Some d) = Some x -> num_truthy d = true -> num_truthy x = true.
Proof.
  unfold num_orM. cbn [bind option_Monad].
  destruct a as [y | ]; [ | discriminate ].
  destruct (num_truthy y) eqn:Ey; now intros [= <-].
Qed.

Lemma parseInt_at_not_nan params k d x :
  parseInt_at params k d = Some x -> is_nan d = false -> is_nan x = false.
Proof.
  unfold parseInt_at, parseInt_or. cbn [bind option_Monad].
  destruct (get params k) as [v | ]; [ | discriminate ].
  apply num_orM_default_not_nan.
Qed.

Lemma parseInt_at_truthy params k d x :
  parseInt_at params k d = Some x -> num_truthy d = true -> num_truthy x = true.
Proof.
  unfold parseInt_at, parseInt_or. cbn [bind option_Monad].
  destruct (get params k) as [v | ]; [ | discriminate ].
  apply num_orM_default_truthy.
Qed.

(** X1.  In every normalized payload the fourteen fields filled by
    [parseInt(...) || default] are numbers other than NaN, and the span
    high and the three alarm levels are moreover never 0: the reading is
    the only numeric field that can be NaN. *)
Theorem normalized_integers_usable clk raw r :
  parseSubtronicsPayload clk raw = Some r ->
  Forall (fun x => is_nan x = false) (integer_fields r) /\
  Forall (fun x => num_truthy x = true)
    [ Normalized.span_high r; Normalized.a1_level r;
      Normalized.a2_level r; Normalized.a3_level r ].
Proof.
  intros H. invert_parse H. subst r. unfold integer_fields.
  cbn [Normalized.span_high Normalized.span_low Normalized.a1_level Normalized.a2_level
       Normalized.a3_level Normalized.decimal_point Normalized.a1_hysteresis
       Normalized.a1_latching Normalized.a1_siren Normalized.a1_buzzer
       Normalized.alarm1_led Normalized.alarm2_led Normalized.alarm3_led
       Normalized.sensor_fault].
  split.
  - repeat (apply Forall_cons || apply Forall_nil);
      try (eapply parseInt_at_not_nan; [ eassumption | reflexivity ]).
    eapply num_orM_default_not_nan; [ eassumption | reflexivity ].
  - repeat (apply Forall_cons || apply Forall_nil);
      (eapply parseInt_at_truthy; [ eassumption | reflexivity ]).
Qed.

Lemma normalized_integers_usable_witness :
  exists r,
    parseSubtronicsPayload epoch (VStr unreadable) = Some r /\
    is_nan (Normalized.sensor_reading r) = true /\
    Forall (fun x => is_nan x = false) (integer_fields r).
Proof.
  eexists. split; [ vm_compute; reflexivity | ].
  split; [ vm_compute; reflexivity | ].
  apply (normalized_integers_usable epoch (VStr unreadable)). vm_compute. reflexivity.
Defined.

Lemma toISOString_not_empty (t : Z) : String.eqb (toISOString t) "" = false.
Proof.
  apply String.eqb_neq. unfold toISOString. intros H.
  apply (f_equal String.length) in H. rewrite !length_append in H. simpl in H. lia.
Qed.

Lemma orM_default_truthy (a : option value) (c v : value) :
  (a ||| Some c) = Some v -> truthy c = true -> truthy v = true.
Proof.
  intros H Hc. apply orM_default_inv in H. destruct H as (t & _ & ->).
  destruct (truthy t) eqn:Et; assumption.
Qed.

(** X2.  In every normalized payload the nine fields filled by
    [... || "default"] are truthy: none is [undefined], [null], [false], 0,
    NaN or the empty string.  In particular the serial number, under which
    the payload is stored, never is. *)
Theorem normalized_defaults_truthy clk raw r :
  parseSubtronicsPayload clk raw = Some r ->
  Forall (fun v => truthy v = true) (defaulted_fields r).
Proof.
  intros H. invert_parse H. subst r. unfold defaulted_fields.
  cbn [Normalized.device_name Normalized.serial_number Normalized.gas_type
       Normalized.timestamp Normalized.message_type Normalized.sender
       Normalized.a1_type Normalized.latitude Normalized.longitude].
  repeat (apply Forall_cons || apply Forall_nil);
    (eapply orM_default_truthy; [ eassumption | ]); try reflexivity.
  simpl. now rewrite toISOString_not_empty.
Qed.

Lemma normalized_defaults_truthy_witness :
  exists r,
    parseSubtronicsPayload epoch (VObj [ ("OTSM-2 Serial Number", VStr "") ]) = Some r /\
    Normalized.serial_number r = VStr "Unknown" /\
    Forall (fun v => truthy v = true) (defaulted_fields r).
Proof.
  eexists. split; [ vm_compute; reflexivity | ].
  split; [ vm_compute; reflexivity | ].
  apply (normalized_defaults_truthy epoch (VObj [ ("OTSM-2 Serial Number", VStr "") ])).
  vm_compute. reflexivity.
Defined.

(** ** The normalizer: the unit of measurement *)

(** X3.  The unit of a normalized payload: whenever [Parameters] carries the
    coded unit ("Unit of Measurement " with the trailing space) the unit is
    "ppm" whatever the code; a textual "Unit of Measurement" of
    [Parameters] is taken trimmed when the coded one is absent; and with
    none of the four properties present the unit is "ppm". *)
Theorem unit_resolution clk raw r :
  parseSubtronicsPayload clk raw = Some r ->
  exists data params,
    payload_of raw = Some data /\
    parameters_of data = Some params /\
    (forall code, get params "Unit of Measurement " = Some code -> code <> VUndef ->
       Normalized.unit r = "ppm") /\
    (forall s, get params "Unit of Measurement " = Some VUndef ->
       get params "Unit of Measurement" = Some (VStr s) ->
       Normalized.unit r = trim s) /\
    (get params "Unit of Measurement " = Some VUndef ->
     get params "Unit of Measurement" = Some VUndef ->
     get data "Unit of Measurement " = Some VUndef ->
     get data "Unit of Measurement" = Some VUndef ->
     Normalized.unit r = "ppm").
Proof.
  intros H. invert_parse H. subst r. cbn [Normalized.unit].
  match goal with
  | Eu : resolve_unit ?d ?p = Some ?u, Et : toString_method ?u = Some ?s |- _ =>
      exists d, p; unfold resolve_unit in Eu; cbn [bind option_Monad] in Eu;
      rename Eu into Hu; rename Et into Ht
  end.
  split; [ assumption | ]. split; [ assumption | ].
  split; [ | split ].
  - intros code Hc Hne. rewrite Hc in Hu.
    destruct code; try congruence; cbn [is_undefined negb] in Hu;
      (destruct (parseInt _); [ | discriminate ]);
      (destruct (num_eqb _ _); injection Hu as <-; simpl in Ht;
       injection Ht as <-; vm_compute; reflexivity).
  - intros text Hc Hs. rewrite Hc, Hs in Hu. simpl in Hu. injection Hu as <-.
    simpl in Ht. now injection Ht as <-.
  - intros H1 H2 H3 H4. rewrite H1, H2, H3, H4 in Hu. simpl in Hu.
    injection Hu as <-. simpl in Ht. injection Ht as <-. vm_compute. reflexivity.
Qed.

Lemma unit_resolution_witness :
  exists r,
    parseSubtronicsPayload epoch
      (VObj [ ("Parameters", VObj [ ("Unit of Measurement ", VStr "%LEL");
                                    ("Unit of Measurement", VStr "%LEL") ]) ]) = Some r /\
    Normalized.unit r = "ppm".
Proof.
  eexists. split; [ vm_compute; reflexivity | ].
  destruct (unit_resolution epoch
      (VObj [ ("Parameters", VObj [ ("Unit of Measurement ", VStr "%LEL");
                                    ("Unit of Measurement", VStr "%LEL") ]) ]) _
      ltac:(vm_compute; reflexivity)) as (d & p & Hd & Hp & Hcode & _).
  injection Hd as <-. injection Hp as <-.
  apply (Hcode (VStr "%LEL")); [ reflexivity | discriminate ].
Defined.

(** ** The normalizer: payloads that always normalize *)

Lemma orM_total (a b : option value) :
  (exists x, a = Some x) -> (exists y, b = Some y) -> exists z, (a ||| b) = Some z.
Proof.
  intros [x ->] [y ->]. unfold orM. cbn [bind option_Monad].
  destruct (truthy x); eauto.
Qed.

Lemma num_orM_total (a b : option number) :
  (exists x, a = Some x) -> (exists y, b = Some y) -> exists z, num_orM a b = Some z.
Proof.
  intros [x ->] [y ->]. unfold num_orM. cbn [bind option_Monad].
  destruct (num_truthy x); eauto.
Qed.

Lemma flat_at_get v k : flat_at v -> exists x, get v k = Some x.
Proof. intros H. destruct (H k) as (x & Hx & _). eauto. Qed.

Lemma flat_beside_get data k :
  flat_payload data = true -> exists x, get data k = Some x.
Proof. destruct data; simpl; try discriminate; eauto. Qed.

Lemma parseInt_total x : readable x = true -> exists n, parseInt x = Some n.
Proof. destruct x; simpl; try discriminate; unfold parseInt; simpl; eauto. Qed.

Lemma parseFloat_total x : readable x = true -> exists n, parseFloat x = Some n.
Proof. destruct x; simpl; try discriminate; unfold parseFloat; simpl; eauto. Qed.

Lemma get_parseInt_total params k :
  flat_at params -> exists n, (v <- get params k ;; parseInt v) = Some n.
Proof.
  intros H. destruct (H k) as (x & -> & Hx). cbn [bind option_Monad].
  now apply parseInt_total.
Qed.

Lemma parseInt_at_total params k d :
  flat_at params -> exists n, parseInt_at params k d = Some n.
Proof.
  intros H. unfold parseInt_at, parseInt_or.
  destruct (H k) as (x & -> & Hx). cbn [bind option_Monad].
  apply num_orM_total; [ now apply parseInt_total | eauto ].
Qed.

Lemma resolve_reading_total data params :
  flat_beside_parameters data -> flat_at params ->
  exists x, resolve_reading data params = Some x.
Proof.
  intros Hd Hp. unfold resolve_reading. cbn [bind option_Monad].
  destruct (Hp "Live Sensor Readings ") as (l1 & -> & H1).
  destruct (is_undefined l1); simpl; [ | now apply parseFloat_total ].
  destruct (Hp "Live Sensor Readings") as (l2 & -> & H2).
  destruct (is_undefined l2); simpl; [ | now apply parseFloat_total ].
  destruct (Hd "Sensor Reading" ltac:(discriminate)) as (sr & -> & H3).
  destruct (is_undefined sr); simpl; [ | now apply parseFloat_total ].
  destruct (Hp "Offset") as (o & -> & H4).
  destruct (is_undefined o); simpl; [ | now apply parseFloat_total ].
  eauto.
Qed.

Lemma readable_prints x :
  readable x = true -> is_undefined x = false -> exists s, toString_method x = Some s.
Proof. destruct x; simpl; try discriminate; eauto. Qed.

Lemma resolve_unit_total data params :
  flat_beside_parameters data -> flat_at params ->
  exists u, resolve_unit data params = Some u /\ exists s, toString_method u = Some s.
Proof.
  intros Hd Hp. unfold resolve_unit. cbn [bind option_Monad].
  destruct (Hp "Unit of Measurement ") as (pu1 & -> & H1).
  destruct (is_undefined pu1) eqn:E1; simpl.
  2:{ destruct (parseInt_total pu1 H1) as (n & ->).
      eexists. split; [ reflexivity | ]. destruct (num_eqb n one); simpl; eauto. }
  destruct (Hp "Unit of Measurement") as (pu2 & -> & H2).
  destruct (is_undefined pu2) eqn:E2; simpl;
    [ | eexists; split; [ reflexivity | now apply readable_prints ] ].
  destruct (Hd "Unit of Measurement " ltac:(discriminate)) as (du1 & -> & H3).
  destruct (is_undefined du1) eqn:E3; simpl;
    [ | eexists; split; [ reflexivity | now apply readable_prints ] ].
  destruct (Hd "Unit of Measurement" ltac:(discriminate)) as (du2 & -> & H4).
  destruct (is_undefined du2) eqn:E4; simpl;
    [ | eexists; split; [ reflexivity | now apply readable_prints ] ].
  eexists. split; [ reflexivity | ]. simpl. eauto.
Qed.

Lemma scalar_readable v : scalar v = true -> readable v = true.
Proof. destruct v; simpl; congruence. Qed.

Lemma lookup_forallb (P : string * value -> bool) props k v :
  forallb P props = true -> lookup k props = Some v -> P (k, v) = true.
Proof.
  induction props as [ | [k' v'] rest IH ]; simpl; [ discriminate | ].
  intros H. apply andb_prop in H. destruct H as [H1 H2].
  destruct (String.eqb k k') eqn:E.
  - apply String.eqb_eq in E. subst k'. now intros [= <-].
  - now apply IH.
Qed.

Lemma flat_parameters_flat_at v :
  truthy v = true -> flat_parameters v = true -> flat_at v.
Proof.
  intros Ht Hf k. destruct v; simpl in *; try discriminate; eauto.
  destruct (lookup k props) eqn:E; eauto.
  eexists. split; [ reflexivity | ].
  apply scalar_readable. exact (lookup_forallb _ _ _ _ Hf E).
Qed.

Lemma flat_payload_beside data :
  flat_payload data = true -> flat_beside_parameters data.
Proof.
  intros Hf k Hk. destruct data; simpl in *; try discriminate; eauto.
  destruct (lookup k props) eqn:E; eauto.
  eexists. split; [ reflexivity | ].
  pose proof (lookup_forallb _ _ _ _ Hf E) as H. simpl in H.
  apply String.eqb_neq in Hk. rewrite Hk in H. now apply scalar_readable.
Qed.

Lemma flat_payload_parameters data :
  flat_payload data = true ->
  exists params, parameters_of data = Some params /\ flat_at params.
Proof.
  intros Hf. unfold parameters_of.
  destruct (flat_beside_get data "Parameters" Hf) as (p & Hp).
  rewrite (orM_default _ _ _ Hp).
  eexists. split; [ reflexivity | ].
  destruct (truthy p) eqn:Et.
  - apply flat_parameters_flat_at; [ assumption | ].
    destruct data; simpl in *; try discriminate;
      try (injection Hp as <-; reflexivity).
    destruct (lookup "Parameters" props) eqn:E; [ | now injection Hp as <- ].
    injection Hp as <-.
    exact (lookup_forallb _ _ _ _ Hf E).
  - intros k. simpl. eauto.
Qed.

Lemma bind_Some {A B : Type} (x : A) (k : A -> option B) : bind (Some x) k = k x.
Proof. reflexivity. Qed.

Lemma flat_payload_total clk raw data :
  payload_of raw = Some data ->
  flat_payload data = true ->
  exists r, parseSubtronicsPayload clk raw = Some r.
Proof.
  intros Hraw Hf.
  pose proof (flat_payload_beside data Hf) as Hd.
  destruct (flat_payload_parameters data Hf) as (params & Hparams & Hp).
  destruct (resolve_unit_total data params Hd Hp) as (u & Hu & (s & Hs)).
  unfold parameters_of in Hparams. unfold payload_of in Hraw.
  unfold parseSubtronicsPayload. rewrite Hraw, bind_Some.
  repeat first
    [ match goal with
      | |- exists r, (let _ := _ in _) = Some r => lazy zeta
      end
    | rewrite Hparams, bind_Some
    | rewrite Hu, bind_Some
    | rewrite Hs, bind_Some
    | match goal with
      | |- exists r, bind ?e _ = Some r =>
          let x := fresh "x" in
          let Hx := fresh "Hx" in
          assert (exists x, e = Some x) as [x Hx]
            by (repeat first
                  [ apply orM_total | apply num_orM_total
                  | apply parseInt_at_total | apply get_parseInt_total
                  | apply resolve_reading_total
                  | solve [ apply flat_at_get; assumption ]
                  | solve [ apply flat_beside_get; assumption ]
                  | assumption | eexists; reflexivity ]);
          rewrite Hx, bind_Some
      end ].
  eexists. reflexivity.
Qed.

(** X4.  A payload without nesting always normalizes: when the payload (as
    received, or as parsed from the message text) is neither [null] nor
    [undefined] and, if an object, holds strings, numbers and booleans
    beside a [Parameters] that is no object or an object of strings, numbers
    and booleans, the normalizer returns a record whatever the clock. *)
Theorem flat_payload_normalizes clk raw data :
  payload_of raw = Some data ->
  flat_payload data = true ->
  exists r, parseSubtronicsPayload clk raw = Some r.
Proof. exact (flat_payload_total clk raw data). Qed.

Lemma flat_payload_normalizes_witness :
  exists r,
    parseSubtronicsPayload epoch (Endpoints.mock_payload "OTSM-0114" 0 quiet) = Some r.
Proof.
  apply (flat_payload_normalizes epoch _ (Endpoints.mock_payload "OTSM-0114" 0 quiet));
    vm_compute; reflexivity.
Defined.

(** ** The rule engine: what an alert carries *)

Lemma num_or_not_nan (x d : number) : is_nan d = false -> is_nan (num_or x d) = false.
Proof.
  unfold num_or, num_truthy. intros Hd.
  destruct (is_zero x); simpl; [ exact Hd | ].
  destruct (is_nan x) eqn:E; simpl; [ exact Hd | exact E ].
Qed.

Lemma num_or_default_truthy (x d : number) :
  num_truthy d = true -> num_truthy (num_or x d) = true.
Proof. unfold num_or. intros Hd. now destruct (num_truthy x) eqn:E. Qed.

(** The alerts of one evaluation, case by case. *)
Lemma built_cases clk data alerts :
  all_built (fault_part clk data ++ threshold_part clk data) = Some alerts ->
  exists fault threshold,
    alerts = (fault ++ threshold)%list /\
    (fault = [] \/
     exists a, fault = [a] /\ fault_alert clk data = Some a) /\
    (threshold = [] \/
     exists a prefix type severity label id_site time_site level,
       threshold = [a] /\
       threshold_alert clk data prefix type severity label id_site time_site level
         (effective_reading data) = Some a /\
       In prefix ["alarm3"; "alarm2"; "alarm1"] /\
       In level [effective_a3 data; effective_a2 data; effective_a1 data] /\
       geb (effective_reading data) level = true).
Proof.
  unfold fault_part, threshold_part. intros H.
  destruct (num_eqb (Normalized.sensor_fault data) one).
  - destruct (fault_alert clk data) as [f | ] eqn:Ef; [ | discriminate H ].
    destruct (geb (effective_reading data) (effective_a3 data)) eqn:G3;
      [ | destruct (geb (effective_reading data) (effective_a2 data)) eqn:G2;
          [ | destruct (geb (effective_reading data) (effective_a1 data)) eqn:G1 ] ];
      simpl in H;
      try (destruct (threshold_alert _ _ _ _ _ _ _ _ _ _) as [t | ] eqn:Et;
           [ | discriminate H ]);
      simpl in H; injection H as <-.
    + exists [f], [t]. split; [ reflexivity | ]. split; [ right; eauto | ].
      right. do 8 eexists. split; [ reflexivity | ]. split; [ exact Et | ].
      repeat split; simpl; auto.
    + exists [f], [t]. split; [ reflexivity | ]. split; [ right; eauto | ].
      right. do 8 eexists. split; [ reflexivity | ]. split; [ exact Et | ].
      repeat split; simpl; auto.
    + exists [f], [t]. split; [ reflexivity | ]. split; [ right; eauto | ].
      right. do 8 eexists. split; [ reflexivity | ]. split; [ exact Et | ].
      repeat split; simpl; auto.
    + exists [f], []. split; [ reflexivity | ]. split; [ right; eauto | now left ].
  - destruct (geb (effective_reading data) (effective_a3 data)) eqn:G3;
      [ | destruct (geb (effective_reading data) (effective_a2 data)) eqn:G2;
          [ | destruct (geb (effective_reading data) (effective_a1 data)) eqn:G1 ] ];
      simpl in H;
      try (destruct (threshold_alert _ _ _ _ _ _ _ _ _ _) as [t | ] eqn:Et;
           [ | discriminate H ]);
      simpl in H; injection H as <-.
    + exists [], [t]. split; [ reflexivity | ]. split; [ now left | ].
      right. do 8 eexists. split; [ reflexivity | ]. split; [ exact Et | ].
      repeat split; simpl; auto.
    + exists [], [t]. split; [ reflexivity | ]. split; [ now left | ].
      right. do 8 eexists. split; [ reflexivity | ]. split; [ exact Et | ].
      repeat split; simpl; auto.
    + exists [], [t]. split; [ reflexivity | ]. split; [ now left | ].
      right. do 8 eexists. split; [ reflexivity | ]. split; [ exact Et | ].
      repeat split; simpl; auto.
    + exists [], []. split; [ reflexivity | ]. split; now left.
Qed.

(** What the engine returns is what its alerts were built to. *)
Lemma generate_built clk data st alerts :
  fst (generateSubtronicsAlerts clk data st) = Some alerts ->
  all_built (fault_part clk data ++ threshold_part clk data) = Some alerts.
Proof.
  destruct (ToString (Normalized.serial_number data)) as [s | ] eqn:Es.
  - destruct (generate_run clk data st s Es) as (l & Hl & ->). simpl. congruence.
  - rewrite (generate_throw clk data st Es). simpl. auto.
Qed.

Lemma effective_level_truthy data level :
  In level [effective_a3 data; effective_a2 data; effective_a1 data] ->
  num_truthy level = true.
Proof.
  simpl. intros [<- | [<- | [<- | []]]];
    apply num_or_default_truthy; reflexivity.
Qed.

(** X5.  Every alert the engine returns carries the record's device name,
    serial number, gas type and unit and is unacknowledged.  A threshold
    alert reports a level that is neither 0 nor NaN and a current value
    that is not NaN and at or above that level; a fault alert reports no
    level and the reading as stored, NaN included.  An evaluation returns
    at most two alerts. *)
Theorem alerts_describe_record clk data st alerts :
  fst (generateSubtronicsAlerts clk data st) = Some alerts ->
  Forall (fun a => describes data a /\ reports data a) alerts /\
  (List.length alerts <= 2)%nat.
Proof.
  intros H. apply generate_built in H.
  destruct (built_cases clk data alerts H) as (f & t & -> & Hf & Ht).
  assert (Ff : Forall (fun a => describes data a /\ reports data a) f /\
               (List.length f <= 1)%nat).
  { destruct Hf as [-> | (a & -> & Ha)]; [ split; [ constructor | simpl; lia ] | ].
    split; [ | simpl; lia ]. constructor; [ | constructor ].
    unfold fault_alert in Ha. cbn [bind option_Monad] in Ha.
    destruct (ToString _); [ | discriminate ]. injection Ha as <-.
    unfold describes, reports. simpl. auto 10. }
  assert (Ft : Forall (fun a => describes data a /\ reports data a) t /\
               (List.length t <= 1)%nat).
  { destruct Ht as [-> | (a & p & ty & sv & lb & i1 & i2 & lv & -> & Ha & _ & Hlv & Hge)];
      [ split; [ constructor | simpl; lia ] | ].
    split; [ | simpl; lia ]. constructor; [ | constructor ].
    unfold threshold_alert in Ha. cbn [bind option_Monad] in Ha.
    destruct (ToString _); [ | discriminate ]. injection Ha as <-.
    unfold describes, reports. simpl.
    repeat split; auto.
    - now apply (effective_level_truthy data).
    - apply num_or_not_nan. reflexivity. }
  destruct Ff as [Ff Lf], Ft as [Ft Lt]. split.
  - apply Forall_app. now split.
  - rewrite length_app. lia.
Qed.

Lemma alerts_describe_record_witness :
  exists alerts,
    fst (generateSubtronicsAlerts epoch faulty_record empty) = Some alerts /\
    List.length alerts = 2%nat /\
    Forall (fun a => describes faulty_record a /\ reports faulty_record a) alerts.
Proof.
  eexists. split; [ vm_compute; reflexivity | ].
  split; [ reflexivity | ].
  apply (alerts_describe_record epoch faulty_record empty). vm_compute. reflexivity.
Defined.

(** X6.  The footprint of the engine: it never writes the store; when it
    returns, it has called [logAlarmEvent] exactly once per returned alert,
    in the order of the returned list and with the record's serial number
    as device id, and has done nothing else; when it throws, it has called
    nothing. *)
Theorem engine_logs_what_it_returns clk data st :
  subtronicsData (snd (generateSubtronicsAlerts clk data st)) = subtronicsData st /\
  match fst (generateSubtronicsAlerts clk data st) with
  | Some alerts =>
      effects (snd (generateSubtronicsAlerts clk data st))
      = (effects st
         ++ List.map (LogAlarmEvent (Normalized.serial_number data)) alerts)%list
  | None => snd (generateSubtronicsAlerts clk data st) = st
  end.
Proof.
  destruct (ToString (Normalized.serial_number data)) as [s | ] eqn:Es.
  - destruct (generate_run clk data st s Es) as (l & Hl & ->). simpl. auto.
  - rewrite (generate_throw clk data st Es). simpl. split; [ reflexivity | ].
    destruct (all_built _) as [alerts | ] eqn:E; [ | reflexivity ].
    destruct (built_cases clk data alerts E) as (f & t & -> & Hf & Ht).
    destruct Hf as [-> | (a & _ & Ha)].
    + destruct Ht as [-> | (a & p & ty & sv & lb & i1 & i2 & lv & _ & Ha & _)].
      * simpl. now rewrite app_nil_r.
      * unfold threshold_alert in Ha. cbn [bind option_Monad] in Ha.
        rewrite Es in Ha. discriminate.
    + unfold fault_alert in Ha. cbn [bind option_Monad] in Ha.
      rewrite Es in Ha. discriminate.
Qed.

(** X7.  The alerts of one evaluation have pairwise distinct ids and
    pairwise distinct types, whatever the clock: a fault alert's id starts
    with [fault_], a threshold alert's with [alarm], and there is at most
    one of each. *)
Theorem ids_distinct_within_evaluation clk data st alerts :
  fst (generateSubtronicsAlerts clk data st) = Some alerts ->
  NoDup (List.map Alert.id alerts) /\ NoDup (List.map Alert.type alerts).
Proof.
  intros H. apply generate_built in H.
  destruct (built_cases clk data alerts H) as (f & t & -> & Hf & Ht).
  destruct Hf as [-> | (a & -> & Ha)];
    destruct Ht as [-> | (b & p & ty & sv & lb & i1 & i2 & lv & -> & Hb & Hp & _)];
    simpl; try (split; repeat constructor; simpl; tauto).
  unfold fault_alert in Ha. unfold threshold_alert in Hb.
  cbn [bind option_Monad] in Ha, Hb.
  destruct (ToString _); [ | discriminate ].
  injection Ha as <-. injection Hb as <-. simpl.
  split.
  - constructor; [ | repeat constructor; simpl; tauto ].
    simpl. intros [E | []].
    destruct Hp as [<- | [<- | [<- | []]]]; discriminate E.
  - constructor; [ | repeat constructor; simpl; tauto ].
    simpl. intros [E | []].
    destruct Hp as [<- | [<- | [<- | []]]]; clear - H E;
      unfold fault_part, threshold_part, fault_alert, threshold_alert in H;
      cbn [bind option_Monad] in H;
      destruct (ToString _); try discriminate;
      destruct (num_eqb _ _); destruct (geb _ _); try destruct (geb _ _);
      try destruct (geb _ _); simpl in H; try discriminate;
      injection H as H1 H2; subst; discriminate.
Qed.

Lemma ids_distinct_within_evaluation_witness :
  exists alerts,
    fst (generateSubtronicsAlerts epoch faulty_record empty) = Some alerts /\
    NoDup (List.map Alert.id alerts).
Proof.
  eexists. split; [ vm_compute; reflexivity | ].
  apply (ids_distinct_within_evaluation epoch faulty_record empty). vm_compute. reflexivity.
Defined.

(** ** The store: alert lists and keys *)

Lemma string_key_sym (s : string) (v : value) :
  same_value_zero (VStr s) v = same_value_zero v (VStr s).
Proof. destruct v; simpl; try reflexivity. apply String.eqb_sym. Qed.

Lemma alerts_key_is_not_serial (serial : value) (s : string) :
  ToString serial = Some s -> same_value_zero (VStr (s ++ "_alerts")) serial = false.
Proof. intros H. rewrite string_key_sym. now apply serial_is_not_alerts_key. Qed.

(** X8.  Alert lists only grow.  When a message normalizes to a record whose
    serial number prints as [s], and the alerts kept for [s] can be read
    ([old], the empty list when the key is unused), then after the message
    the alerts kept for [s] are [old] followed by the alerts the engine
    returned for the record: nothing is dropped, merged or capped, and the
    stored record never disturbs the list. *)
Theorem alert_lists_only_grow clk message st n s old :
  normalized clk message = Some n ->
  ToString (Normalized.serial_number n) = Some s ->
  alert_list s st = Some old ->
  exists new,
    fst (generateSubtronicsAlerts clk n st) = Some new /\
    alert_list s (on_message clk "SubTronics/data" message st) = Some (old ++ new)%list.
Proof.
  intros Hn Hs Hold. rewrite (on_message_handled clk message st n Hn).
  destruct (generate_run clk n st s Hs) as (new & Hb & Hrun).
  exists new. split; [ now rewrite Hrun | ].
  pose proof (alerts_key_is_not_serial _ _ Hs) as Hne.
  unfold alert_list in *. unfold handled. rewrite Hs, Hb.
  destruct new as [ | a rest ]; cbn [subtronicsData].
  - rewrite (Map_get_set_other _ _ _ _ Hne), app_nil_r. exact Hold.
  - rewrite (Map_get_set_other _ _ _ _ Hne), Hold. cbn [subtronicsData].
    rewrite (Map_get_set_same _ _ _ (string_key_self _)). reflexivity.
Qed.

Lemma alert_lists_only_grow_witness :
  exists new,
    alert_list "OTSM-0114" once = Some scenario_alerts /\
    alert_list "OTSM-0114" twice = Some (scenario_alerts ++ new)%list.
Proof.
  destruct (alert_lists_only_grow noon scenario once scenario_record "OTSM-0114"
              scenario_alerts
              ltac:(vm_compute; reflexivity) ltac:(vm_compute; reflexivity)
              ltac:(vm_compute; reflexivity)) as (new & _ & Hgrow).
  exists new. split; [ vm_compute; reflexivity | exact Hgrow ].
Defined.

Lemma Map_set_keeps {V : Type} (k k' : value) (v : V) (m : Map V) :
  Map_get k m <> None -> Map_get k (Map_set k' v m) <> None.
Proof.
  induction m as [ | [k0 v0] rest IH]; simpl; [ congruence | ].
  destruct (same_value_zero k' k0) eqn:E1; simpl;
    destruct (same_value_zero k k0) eqn:E2; simpl; auto; congruence.
Qed.

Lemma has_Map_set k k' e st eff :
  Endpoints.has k st = true ->
  Endpoints.has k {| subtronicsData := Map_set k' e (subtronicsData st); effects := eff |}
  = true.
Proof.
  unfold Endpoints.has. cbn [subtronicsData]. intros H.
  pose proof (Map_set_keeps k k' e (subtronicsData st)) as K.
  destruct (Map_get k (subtronicsData st)); [ | discriminate ].
  destruct (Map_get k (Map_set k' e (subtronicsData st))); [ reflexivity | ].
  exfalso. apply K; congruence.
Qed.

Lemma has_effects k st eff :
  Endpoints.has k {| subtronicsData := subtronicsData st; effects := eff |}
  = Endpoints.has k st.
Proof. reflexivity. Qed.

Lemma handled_keeps clk n st k :
  Endpoints.has k st = true -> Endpoints.has k (handled clk n st) = true.
Proof.
  intros H. unfold handled.
  destruct (ToString _); [ | now apply has_Map_set ].
  destruct (all_built _) as [[ | a rest] | ]; try (now apply has_Map_set).
  destruct (spread _); [ | now apply has_Map_set ].
  apply (has_Map_set k _ _
           {| subtronicsData := Map_set (Normalized.serial_number n) (Record_ n)
                                  (subtronicsData st);
              effects := effects st |}).
  now apply has_Map_set.
Qed.

Lemma on_message_cases clk topic message st :
  on_message clk topic message st = st \/
  exists n, normalized clk message = Some n /\
            on_message clk topic message st = handled clk n st.
Proof.
  destruct (String.eqb topic "SubTronics/data") eqn:Et.
  - apply String.eqb_eq in Et. subst topic.
    destruct (normalized clk message) as [n | ] eqn:En.
    + right. exists n. split; [ reflexivity | now apply on_message_handled ].
    + left. now apply unnormalized_is_silent.
  - left. now apply on_message_other_topic.
Qed.

(** The test endpoint's pipeline on a payload. *)
Lemma process_directly_run clk payload st :
  Endpoints.process_directly clk payload st
  = match parseSubtronicsPayload clk payload with
    | Some n =>
        (match answered clk n st with
         | Endpoints.ServerError => None
         | answer => Some answer
         end, handled clk n st)
    | None => (Some Endpoints.BadRequest, st)
    end.
Proof.
  unfold Endpoints.process_directly.
  destruct (parseSubtronicsPayload clk payload) as [n | ]; [ | reflexivity ].
  unfold answered, handled. cbn [bind Run_Monad].
  unfold store_set, room_of, alerts_key, lift at 1. cbn [bind Run_Monad option_Monad].
  destruct (ToString (Normalized.serial_number n)) as [s | ] eqn:Es; [ | reflexivity ].
  unfold perform at 1.
  match goal with
  | |- context [ generateSubtronicsAlerts clk n ?st1 ] =>
      destruct (generate_run clk n st1 s Es) as (alerts & Hb & Hrun); rewrite Hrun
  end.
  rewrite Hb. destruct alerts as [ | a rest ]; [ now rewrite log_all_nil | ].
  cbn [List.length Z.of_nat Z.ltb Z.compare]. unfold lift, store_get, perform, ret.
  cbn [log_all subtronicsData effects snd fst bind Run_Monad].
  destruct (spread _) as [existing | ]; cbn [snd]; unfold log_all;
    cbn [subtronicsData effects]; rewrite <- !app_assoc; reflexivity.
Qed.

Lemma test_subtronics_run clk mock_now d connected deviceId body st :
  let payload := if truthy body then body else Endpoints.mock_payload deviceId mock_now d in
  test_answer (Endpoints.test_subtronics clk mock_now d connected deviceId body st)
  = match parseSubtronicsPayload clk payload with
    | Some n => answered clk n st
    | None => Endpoints.BadRequest
    end /\
  test_state (Endpoints.test_subtronics clk mock_now d connected deviceId body st)
  = match parseSubtronicsPayload clk payload with
    | Some n => handled clk n st
    | None => st
    end.
Proof.
  intros payload. unfold test_answer, test_state, Endpoints.test_subtronics.
  fold payload. cbv zeta. rewrite process_directly_run.
  destruct (parseSubtronicsPayload clk payload) as [n | ]; [ | split; reflexivity ].
  destruct (answered clk n st); split; reflexivity.
Qed.

(** X9.  No handler ever removes a key of [subtronicsData]: a key present
    before an MQTT message (on any topic, with any text), an
    acknowledgement, a telemetry read or a call of the test endpoint is
    present after it. *)
Theorem store_never_forgets k st :
  Endpoints.has k st = true ->
  (forall clk topic message,
     Endpoints.has k (on_message clk topic message st) = true) /\
  (forall clk deviceId alertId who,
     Endpoints.has k (snd (acknowledge clk deviceId alertId who st)) = true) /\
  (forall now deviceId,
     Endpoints.has k (snd (Endpoints.get_telemetry now deviceId st)) = true) /\
  (forall clk mock_now d connected deviceId body,
     Endpoints.has k
       (test_state (Endpoints.test_subtronics clk mock_now d connected deviceId body st))
     = true).
Proof.
  intros H. split; [ | split; [ | split ] ].
  - intros clk topic message.
    destruct (on_message_cases clk topic message st) as [-> | (n & _ & ->)];
      [ assumption | now apply handled_keeps ].
  - intros clk deviceId alertId who. rewrite acknowledge_run.
    destruct (alert_list deviceId st) as [alerts | ]; cbn [snd]; try assumption.
    destruct (findIndex _ _); cbn [snd]; try assumption. now apply has_Map_set.
  - intros now deviceId. unfold Endpoints.get_telemetry.
    destruct (Map_get _ (subtronicsData st)); cbn [snd];
      [ assumption | now apply has_Map_set ].
  - intros clk mock_now d connected deviceId body.
    destruct (test_subtronics_run clk mock_now d connected deviceId body st) as [_ ->].
    destruct (parseSubtronicsPayload _ _); [ now apply handled_keeps | assumption ].
Qed.

Lemma store_never_forgets_witness :
  Endpoints.has (VStr "OTSM-0114") once = true /\
  Endpoints.has (VStr "OTSM-0114") (on_message noon "SubTronics/data" malformed once) = true.
Proof.
  split; [ vm_compute; reflexivity | ].
  exact (proj1 (store_never_forgets (VStr "OTSM-0114") once
                  ltac:(vm_compute; reflexivity))
           noon "SubTronics/data" malformed).
Defined.

(** ** The test endpoint *)

(** X10.  The test endpoint leaves the state the MQTT handler leaves: for a
    request body that is truthy and is what [JSON.parse] gives for a message
    text, the store and the trace of emits and log calls after
    POST /test/subtronics/:deviceId are those after that message on
    SubTronics/data, whatever the device id of the URL. *)
Theorem test_endpoint_is_the_handler clk mock_now d connected deviceId message body st :
  JSON_parse message = Some body ->
  truthy body = true ->
  test_state (Endpoints.test_subtronics clk mock_now d connected deviceId body st)
  = on_message clk "SubTronics/data" message st.
Proof.
  intros Hm Hb.
  destruct (test_subtronics_run clk mock_now d connected deviceId body st) as [_ ->].
  rewrite Hb.
  assert (Hn : normalized clk message = parseSubtronicsPayload clk body).
  { unfold normalized. cbn [bind option_Monad]. now rewrite Hm. }
  destruct (parseSubtronicsPayload clk body) as [n | ] eqn:E.
  - symmetry. now apply on_message_handled.
  - symmetry. now apply unnormalized_is_silent.
Qed.

Lemma test_endpoint_is_the_handler_witness :
  exists body,
    JSON_parse scenario = Some body /\
    test_state (Endpoints.test_subtronics noon 0 quiet true "any" body empty) = once.
Proof.
  eexists. split; [ vm_compute; reflexivity | ].
  apply (test_endpoint_is_the_handler noon 0 quiet true "any" scenario);
    vm_compute; reflexivity.
Defined.

(** X11.  The answers of the test endpoint.  It answers 400 exactly when the
    payload does not normalize, and then changes nothing.  An answer 200
    carries the record the payload normalizes to, that record's serial
    number as device id (not the id of the URL), and the alerts the engine
    returned for it.  It answers 500 only for a record whose serial number
    does not print, or when alerts fired and the alerts key of the device
    holds a record. *)
Theorem test_endpoint_answers clk mock_now d connected deviceId body st :
  let payload := if truthy body then body else Endpoints.mock_payload deviceId mock_now d in
  let result := Endpoints.test_subtronics clk mock_now d connected deviceId body st in
  (test_answer result = Endpoints.BadRequest <-> parseSubtronicsPayload clk payload = None) /\
  (test_answer result = Endpoints.BadRequest -> test_state result = st) /\
  (forall id n alerts,
     test_answer result = Endpoints.Processed id n alerts ->
     parseSubtronicsPayload clk payload = Some n /\
     id = Normalized.serial_number n /\
     fst (generateSubtronicsAlerts clk n st) = Some alerts) /\
  (test_answer result = Endpoints.ServerError ->
   exists n, parseSubtronicsPayload clk payload = Some n /\
     (ToString (Normalized.serial_number n) = None \/
      exists s r, ToString (Normalized.serial_number n) = Some s /\
        fst (generateSubtronicsAlerts clk n st) <> Some [] /\
        Map_get (VStr (s ++ "_alerts")) (subtronicsData st) = Some (Record_ r))).
Proof.
  intros payload result.
  destruct (test_subtronics_run clk mock_now d connected deviceId body st) as [Ha Hs].
  fold payload in Ha, Hs. fold result in Ha, Hs. rewrite Ha, Hs. clear Ha Hs.
  destruct (parseSubtronicsPayload clk payload) as [n | ] eqn:En.
  2:{ repeat split; auto; discriminate. }
  assert (Hans :
    match answered clk n st with
    | Endpoints.Processed id n' alerts =>
        id = Normalized.serial_number n /\ n' = n /\
        fst (generateSubtronicsAlerts clk n st) = Some alerts
    | Endpoints.BadRequest => False
    | Endpoints.ServerError =>
        ToString (Normalized.serial_number n) = None \/
        exists s r, ToString (Normalized.serial_number n) = Some s /\
          fst (generateSubtronicsAlerts clk n st) <> Some [] /\
          Map_get (VStr (s ++ "_alerts")) (subtronicsData st) = Some (Record_ r)
    end).
  { unfold answered.
    destruct (ToString (Normalized.serial_number n)) as [s | ] eqn:Es; [ | now left ].
    destruct (generate_run clk n st s Es) as (alerts & Hb & Hrun).
    rewrite Hb, Hrun. cbn [fst].
    destruct alerts as [ | a rest ]; [ auto | ].
    rewrite (Map_get_set_other _ _ _ _ (alerts_key_is_not_serial _ _ Es)).
    destruct (Map_get _ (subtronicsData st)) as [[r | l] | ] eqn:Eg; cbn [spread]; auto.
    right. exists s, r. split; [ reflexivity | split; [ discriminate | exact Eg ] ]. }
  split; [ split; [ | discriminate ] | split; [ | split ] ].
  - intros E. rewrite E in Hans. contradiction.
  - intros E. rewrite E in Hans. contradiction.
  - intros id n' alerts E. rewrite E in Hans. destruct Hans as (-> & -> & H). auto.
  - intros E. rewrite E in Hans. eauto.
Qed.

Lemma test_endpoint_answers_witness :
  test_answer (Endpoints.test_subtronics noon 0 quiet false "any" (VStr malformed) once)
  = Endpoints.BadRequest.
Proof.
  apply (proj2 (proj1 (test_endpoint_answers noon 0 quiet false "any" (VStr malformed) once))).
  vm_compute. reflexivity.
Defined.

(** ** Reading the store: telemetry, sockets, size *)

Lemma Map_set_length {V : Type} (k : value) (v : V) (m : Map V) :
  List.length (Map_set k v m)
  = match Map_get k m with Some _ => List.length m | None => S (List.length m) end.
Proof.
  induction m as [ | [k0 v0] rest IH]; simpl; [ reflexivity | ].
  destruct (same_value_zero k k0); simpl; [ reflexivity | ].
  rewrite IH. now destruct (Map_get k rest).
Qed.

Lemma handled_string_record clk n st d :
  Normalized.serial_number n = VStr d ->
  Map_get (VStr d) (subtronicsData (handled clk n st)) = Some (Record_ n).
Proof.
  intros Hd. rewrite <- Hd. apply (handled_record clk n st d).
  - now rewrite Hd.
  - rewrite Hd. apply string_key_self.
Qed.

(** X12.  Telemetry returns the last record.  After a message that
    normalizes to a record whose serial number is the string [d],
    GET /devices/d/subtronics/telemetry/latest answers with exactly that
    record, whatever was stored for [d] before and whatever alerts the
    message raised, and leaves the state as it is. *)
Theorem telemetry_returns_last_record now clk message st n d :
  normalized clk message = Some n ->
  Normalized.serial_number n = VStr d ->
  Endpoints.get_telemetry now d (on_message clk "SubTronics/data" message st)
  = (Json (Record_ n), on_message clk "SubTronics/data" message st).
Proof.
  intros Hn Hd. rewrite (on_message_handled clk message st n Hn).
  unfold Endpoints.get_telemetry. now rewrite (handled_string_record clk n st d Hd).
Qed.

Lemma telemetry_returns_last_record_witness :
  Endpoints.get_telemetry (fun _ => 0) "OTSM-0114" twice = (Json (Record_ scenario_record), twice).
Proof.
  exact (telemetry_returns_last_record (fun _ => 0) noon scenario once scenario_record
           "OTSM-0114" ltac:(vm_compute; reflexivity) ltac:(vm_compute; reflexivity)).
Defined.

(** X13.  A subscriber gets the last record at once.  After a message that
    normalizes to a record whose serial number is the string [d], a socket
    that subscribes to [d] joins the room the handler broadcasts to and is
    sent one device:data event carrying that record. *)
Theorem subscriber_gets_last_record clk message st n d socket :
  normalized clk message = Some n ->
  Normalized.serial_number n = VStr d ->
  Endpoints.subscribe_device socket (VStr d) (on_message clk "SubTronics/data" message st)
  = Some [ Endpoints.Join socket ("device:" ++ d);
           Endpoints.SocketEmit socket "device:data" (VStr d) (Record_ n) ] /\
  room_of (Normalized.serial_number n) = Some ("device:" ++ d).
Proof.
  intros Hn Hd. rewrite (on_message_handled clk message st n Hn).
  unfold Endpoints.subscribe_device, Endpoints.has, room_of.
  rewrite (handled_string_record clk n st d Hd), Hd. split; reflexivity.
Qed.

Lemma subscriber_gets_last_record_witness :
  Endpoints.subscribe_device "socket-1" (VStr "OTSM-0114") once
  = Some [ Endpoints.Join "socket-1" "device:OTSM-0114";
           Endpoints.SocketEmit "socket-1" "device:data" (VStr "OTSM-0114")
             (Record_ scenario_record) ].
Proof.
  exact (proj1 (subscriber_gets_last_record noon scenario empty scenario_record
                  "OTSM-0114" "socket-1"
                  ltac:(vm_compute; reflexivity) ltac:(vm_compute; reflexivity))).
Defined.

(** X14.  A serial number that is not a string hides the record from
    telemetry.  When a message normalizes to a record whose serial number
    is a number or a boolean (printing as [s]), the record is stored under
    that value, which no device id of a URL equals: the answer of
    GET /devices/d/subtronics/telemetry/latest is the same after the
    message as before, for every [d] other than [s_alerts]. *)
Theorem non_string_serial_is_unreadable now clk message st n s d :
  normalized clk message = Some n ->
  ToString (Normalized.serial_number n) = Some s ->
  (forall text, Normalized.serial_number n <> VStr text) ->
  d <> s ++ "_alerts" ->
  fst (Endpoints.get_telemetry now d (on_message clk "SubTronics/data" message st))
  = fst (Endpoints.get_telemetry now d st).
Proof.
  intros Hn Hs Hnot Hd. rewrite (on_message_handled clk message st n Hn).
  unfold Endpoints.get_telemetry.
  rewrite (handled_frame clk n st s (VStr d) Hs).
  - now destruct (Map_get (VStr d) (subtronicsData st)).
  - destruct (Normalized.serial_number n); try reflexivity. now elim (Hnot s0).
  - simpl. now apply String.eqb_neq.
Qed.

Lemma non_string_serial_is_unreadable_witness :
  exists n,
    normalized noon (json "{'OTSM-2 Serial Number':114}") = Some n /\
    Normalized.serial_number n = VNum (of_Z 114) /\
    fst (Endpoints.get_telemetry (fun _ => 0) "114"
           (on_message noon "SubTronics/data" (json "{'OTSM-2 Serial Number':114}") empty))
    = fst (Endpoints.get_telemetry (fun _ => 0) "114" empty).
Proof.
  eexists. split; [ vm_compute; reflexivity | ].
  split; [ vm_compute; reflexivity | ].
  match goal with
  | |- fst (Endpoints.get_telemetry ?now ?d (on_message ?clk _ ?m ?st)) = _ =>
      refine (non_string_serial_is_unreadable now clk m st _ "114" d
                ltac:(vm_compute; reflexivity) ltac:(vm_compute; reflexivity) _ _)
  end.
  - intros text. vm_compute. discriminate.
  - vm_compute. discriminate.
Defined.

(** X15.  A telemetry read of an unknown device writes the store.  When
    nothing is stored for [d], GET /devices/d/subtronics/telemetry/latest
    answers with the mock record, stores it under [d] (one key more, no
    event), and every later read answers with that same mock, timestamps
    included, whatever the time of the later read. *)
Theorem mock_is_planted now d st :
  Endpoints.has (VStr d) st = false ->
  let st1 := snd (Endpoints.get_telemetry now d st) in
  fst (Endpoints.get_telemetry now d st) = Json (Record_ (Endpoints.mockData now)) /\
  Endpoints.size st1 = S (Endpoints.size st) /\
  effects st1 = effects st /\
  forall later,
    Endpoints.get_telemetry later d st1 = (Json (Record_ (Endpoints.mockData now)), st1).
Proof.
  unfold Endpoints.has, Endpoints.get_telemetry, Endpoints.size.
  destruct (Map_get (VStr d) (subtronicsData st)) eqn:E; [ discriminate | ]. intros _.
  cbn [fst snd subtronicsData effects].
  split; [ reflexivity | ].
  split; [ now rewrite Map_set_length, E | ].
  split; [ reflexivity | ].
  intros later. now rewrite (Map_get_set_same _ _ _ (string_key_self d)).
Qed.

Lemma mock_is_planted_witness :
  fst (Endpoints.get_telemetry (fun _ => 0) "pump-7" empty)
  = Json (Record_ (Endpoints.mockData (fun _ => 0))) /\
  Endpoints.size (snd (Endpoints.get_telemetry (fun _ => 0) "pump-7" empty))
  = 1%nat.
Proof.
  destruct (mock_is_planted (fun _ => 0) "pump-7" empty ltac:(reflexivity))
    as (H1 & H2 & _).
  split; [ exact H1 | exact H2 ].
Defined.

(** X16.  A telemetry read can switch a device's alerts off.  When nothing
    is stored under [d_alerts], reading the telemetry of the device id
    [d_alerts] plants the mock record under the key that holds the alerts
    of device [d].  From then on an acknowledgement for [d] answers 500 and
    changes nothing, and a message from [d] that raises alerts stores its
    record, broadcasts it and logs the alerts, but neither stores the
    alerts nor broadcasts them: the alerts endpoint of [d] keeps answering
    with the mock record. *)
Theorem telemetry_read_blocks_alerts now clk d st :
  Endpoints.has (VStr (d ++ "_alerts")) st = false ->
  let st1 := snd (Endpoints.get_telemetry now (d ++ "_alerts") st) in
  get_alerts d st1 = Json (Record_ (Endpoints.mockData now)) /\
  (forall alertId who, acknowledge clk d alertId who st1 = (Status500, st1)) /\
  (forall message n alerts,
     normalized clk message = Some n ->
     Normalized.serial_number n = VStr d ->
     fst (generateSubtronicsAlerts clk n st1) = Some alerts ->
     alerts <> [] ->
     let st2 := on_message clk "SubTronics/data" message st1 in
     get_alerts d st2 = Json (Record_ (Endpoints.mockData now)) /\
     effects st2
     = (effects st1 ++ data_event clk n ("device:" ++ d)
                       :: List.map (LogAlarmEvent (VStr d)) alerts)%list).
Proof.
  unfold Endpoints.has, Endpoints.get_telemetry.
  destruct (Map_get (VStr (d ++ "_alerts")) (subtronicsData st)) eqn:E; [ discriminate | ].
  intros _. cbn [snd].
  set (st1 := {| subtronicsData := Map_set (VStr (d ++ "_alerts"))
                                     (Record_ (Endpoints.mockData now)) (subtronicsData st);
                 effects := effects st |}).
  assert (Hkey : Map_get (VStr (d ++ "_alerts")) (subtronicsData st1)
                 = Some (Record_ (Endpoints.mockData now)))
    by apply (Map_get_set_same _ _ _ (string_key_self _)).
  cbv zeta. split; [ | split ].
  - unfold get_alerts. now rewrite Hkey.
  - intros alertId who. unfold acknowledge. now rewrite Hkey.
  - intros message n alerts Hn Hd Hgen Hne.
    rewrite (on_message_handled clk message st1 n Hn).
    assert (Hs : ToString (Normalized.serial_number n) = Some d) by now rewrite Hd.
    destruct (generate_run clk n st1 d Hs) as (alerts' & Hb & Hrun).
    rewrite Hrun in Hgen. cbn [fst] in Hgen. injection Hgen as ->.
    unfold handled, get_alerts, data_event. rewrite Hs, Hb.
    destruct alerts as [ | a rest ]; [ congruence | ].
    rewrite (Map_get_set_other _ _ _ _ (alerts_key_is_not_serial _ _ Hs)), Hkey.
    cbn [spread subtronicsData effects].
    rewrite (Map_get_set_other _ _ _ _ (alerts_key_is_not_serial _ _ Hs)), Hkey.
    rewrite Hd. split; reflexivity.
Qed.

Lemma telemetry_read_blocks_alerts_witness :
  acknowledge noon "OTSM-0114" scenario_alert_id (VStr "operator")
    (snd (Endpoints.get_telemetry (fun _ => 0) "OTSM-0114_alerts" empty))
  = (Status500, snd (Endpoints.get_telemetry (fun _ => 0) "OTSM-0114_alerts" empty)).
Proof.
  exact (proj1 (proj2 (telemetry_read_blocks_alerts (fun _ => 0) noon "OTSM-0114" empty
                         ltac:(reflexivity)))
           scenario_alert_id (VStr "operator")).
Defined.

(** X17.  A message adds at most two keys to [subtronicsData].  When a
    message normalizes to a record whose serial number prints as [s] and
    the alerts kept for [s] can be read, the size of the map after the
    message is its size before, plus one if the serial number was not a
    key, plus one if the message raised alerts and [s_alerts] was not a
    key: the first message of a device that raises alerts adds two keys,
    and a message of a device whose keys are both there adds none. *)
Theorem message_adds_keys clk message st n s old alerts :
  normalized clk message = Some n ->
  ToString (Normalized.serial_number n) = Some s ->
  alert_list s st = Some old ->
  fst (generateSubtronicsAlerts clk n st) = Some alerts ->
  Endpoints.size (on_message clk "SubTronics/data" message st)
  = (Endpoints.size st
     + (if Endpoints.has (Normalized.serial_number n) st then 0 else 1)
     + match alerts with
       | [] => 0
       | _ :: _ => if Endpoints.has (VStr (s ++ "_alerts")) st then 0 else 1
       end)%nat.
Proof.
  intros Hn Hs Hold Hgen. rewrite (on_message_handled clk message st n Hn).
  destruct (generate_run clk n st s Hs) as (alerts' & Hb & Hrun).
  rewrite Hrun in Hgen. cbn [fst] in Hgen. injection Hgen as ->.
  pose proof (alerts_key_is_not_serial _ _ Hs) as Hne.
  unfold alert_list in Hold.
  unfold Endpoints.has, Endpoints.size, handled. rewrite Hs, Hb.
  destruct alerts as [ | a rest ]; cbn [subtronicsData].
  - rewrite Map_set_length.
    destruct (Map_get (Normalized.serial_number n) (subtronicsData st)); lia.
  - rewrite (Map_get_set_other _ _ _ _ Hne), Hold. cbn [subtronicsData].
    rewrite Map_set_length, (Map_get_set_other _ _ _ _ Hne), Map_set_length.
    destruct (Map_get (Normalized.serial_number n) (subtronicsData st));
      destruct (Map_get (VStr (s ++ "_alerts")) (subtronicsData st)); lia.
Qed.

Lemma message_adds_keys_witness :
  Endpoints.size once = 2%nat /\ Endpoints.size twice = 2%nat.
Proof.
  split.
  - exact (message_adds_keys noon scenario empty scenario_record "OTSM-0114" []
             scenario_alerts
             ltac:(vm_compute; reflexivity) ltac:(vm_compute; reflexivity)
             ltac:(vm_compute; reflexivity) ltac:(vm_compute; reflexivity)).
  - pose proof (message_adds_keys noon scenario once scenario_record "OTSM-0114"
                  scenario_alerts scenario_alerts
                  ltac:(vm_compute; reflexivity) ltac:(vm_compute; reflexivity)
                  ltac:(vm_compute; reflexivity) ltac:(vm_compute; reflexivity)) as H.
    etransitivity; [ exact H | ]. vm_compute. reflexivity.
Defined.

(** ** Acknowledgements *)

Lemma findIndex_update_at alertId i f alerts :
  (forall a, Alert.id (f a) = Alert.id a) ->
  findIndex alertId (update_at i f alerts) = findIndex alertId alerts.
Proof.
  intros Hf. revert i. induction alerts as [ | a rest IH]; intros [ | i]; simpl; auto.
  - now rewrite Hf.
  - now rewrite IH.
Qed.

Lemma update_at_twice i f g alerts :
  update_at i f (update_at i g alerts) = update_at i (fun a => f (g a)) alerts.
Proof.
  revert i. induction alerts as [ | a rest IH]; intros [ | i]; simpl; auto.
  now rewrite IH.
Qed.

Lemma update_at_ext i f g alerts :
  (forall a, f a = g a) -> update_at i f alerts = update_at i g alerts.
Proof.
  intros H. revert i. induction alerts as [ | a rest IH]; intros [ | i]; simpl; auto.
  - now rewrite H.
  - now rewrite IH.
Qed.

Lemma Map_set_set {V : Type} (k : value) (v1 v2 : V) (m : Map V) :
  same_value_zero k k = true ->
  Map_set k v2 (Map_set k v1 m) = Map_set k v2 m.
Proof.
  intros Hk. induction m as [ | [k0 v0] rest IH]; simpl.
  - now rewrite Hk.
  - destruct (same_value_zero k k0) eqn:E; simpl; rewrite E; [ reflexivity | ].
    now rewrite IH.
Qed.

(** X18.  The last acknowledgement wins and the earlier one leaves no
    trace.  When an acknowledgement of an alert has succeeded,
    acknowledging the same alert again (at whatever time, by whatever
    identity the handler can print in its log line) succeeds as well, and
    answers and leaves the state exactly as if the first acknowledgement
    had never been made. *)
Theorem last_acknowledgement_wins clk1 clk2 d alertId who1 who2 st st1 :
  ToString who1 <> None ->
  ToString who2 <> None ->
  acknowledge clk1 d alertId who1 st = (Json true, st1) ->
  acknowledge clk2 d alertId who2 st1 = acknowledge clk2 d alertId who2 st /\
  fst (acknowledge clk2 d alertId who2 st1) = Json true.
Proof.
  intros Hw1 Hw2. rewrite !acknowledge_run.
  destruct (alert_list d st) as [l | ] eqn:El; [ | discriminate ].
  destruct (findIndex alertId l) as [i | ] eqn:Ei; [ | discriminate ].
  destruct (ToString who1); [ | congruence ].
  intros [= <-]. unfold alert_list at 1 2. cbn [subtronicsData effects].
  rewrite (Map_get_set_same _ _ _ (string_key_self _)). cbn [spread].
  rewrite findIndex_update_at by reflexivity. rewrite Ei.
  rewrite update_at_twice, (Map_set_set _ _ _ _ (string_key_self _)).
  destruct (ToString who2); [ | congruence ].
  split; reflexivity.
Qed.

Lemma last_acknowledgement_wins_witness :
  fst (acknowledge epoch "OTSM-0114" scenario_alert_id (VStr "second")
         (snd (acknowledge noon "OTSM-0114" scenario_alert_id (VStr "first") once)))
  = Json true.
Proof.
  exact (proj2 (last_acknowledgement_wins noon epoch "OTSM-0114" scenario_alert_id
                  (VStr "first") (VStr "second") once
                  (snd (acknowledge noon "OTSM-0114" scenario_alert_id (VStr "first") once))
                  ltac:(discriminate) ltac:(discriminate)
                  ltac:(vm_compute; reflexivity))).
Defined.

(** X19.  An alert that follows another alert with the same id in a
    device's list can never be acknowledged: whatever alert id is
    acknowledged, by whomever, the later alert is left as it was, and the
    earlier one keeps its place and its id, so that the same holds after
    every further acknowledgement. *)
Theorem shadowed_alert_is_never_acknowledged clk d alertId who st l i j a b :
  alert_list d st = Some l ->
  nth_error l i = Some a ->
  nth_error l j = Some b ->
  (i < j)%nat ->
  Alert.id a = Alert.id b ->
  exists l' a',
    alert_list d (snd (acknowledge clk d alertId who st)) = Some l' /\
    nth_error l' j = Some b /\
    nth_error l' i = Some a' /\ Alert.id a' = Alert.id a.
Proof.
  intros Hl Ha Hb Hij Hid. rewrite acknowledge_run, Hl.
  destruct (findIndex alertId l) as [k | ] eqn:Ek; cbn [snd].
  - destruct (findIndex_Some _ _ _ Ek) as (x & Hx & Hxid & Hmin).
    unfold alert_list. cbn [subtronicsData].
    rewrite (Map_get_set_same _ _ _ (string_key_self _)). cbn [spread].
    assert (Hkj : j <> k).
    { intros ->. apply (Hmin i a Hij Ha). rewrite Hid.
      rewrite Hb in Hx. injection Hx as <-. exact Hxid. }
    destruct (Nat.eq_dec i k) as [-> | Hik].
    + eexists. eexists. split; [ reflexivity | ].
      split; [ now rewrite nth_error_update_at_other | ].
      rewrite nth_error_update_at_same, Ha. split; reflexivity.
    + eexists. exists a. split; [ reflexivity | ].
      split; [ now rewrite nth_error_update_at_other | ].
      split; [ now rewrite nth_error_update_at_other | reflexivity ].
  - exists l, a. auto.
Qed.

Lemma shadowed_alert_is_never_acknowledged_witness :
  exists l b l',
    alert_list "OTSM-0114" twice = Some l /\
    nth_error l 1 = Some b /\
    Alert.id b = scenario_alert_id /\
    alert_list "OTSM-0114"
      (snd (acknowledge epoch "OTSM-0114" scenario_alert_id (VStr "operator") twice))
    = Some l' /\
    nth_error l' 1 = Some b.
Proof.
  exists (scenario_alerts ++ scenario_alerts)%list.
  exists (match scenario_alerts with a :: _ => a | [] => Alert.acknowledge "" VNull
            (Alert.Build_t "" "" "" "" "" VNull VNull None zero "" VNull None None) end).
  destruct (shadowed_alert_is_never_acknowledged epoch "OTSM-0114" scenario_alert_id
              (VStr "operator") twice (scenario_alerts ++ scenario_alerts)%list 0 1 _ _
              ltac:(vm_compute; reflexivity) ltac:(vm_compute; reflexivity)
              ltac:(vm_compute; reflexivity) ltac:(lia) ltac:(vm_compute; reflexivity))
    as (l' & a' & Hl' & Hj & _).
  exists l'.
  split; [ vm_compute; reflexivity | ].
  split; [ vm_compute; reflexivity | ].
  split; [ vm_compute; reflexivity | ].
  split; [ exact Hl' | exact Hj ].
Defined.

(** ** The alarm log *)

Lemma Map_get_set_cases {V : Type} (k k' : value) (v x : V) (m : Map V) :
  Map_get k (Map_set k' v m) = Some x -> x = v \/ Map_get k m = Some x.
Proof.
  induction m as [ | [k0 v0] rest IH]; simpl.
  - destruct (same_value_zero k k'); [ intros [= <-]; now left | discriminate ].
  - destruct (same_value_zero k' k0) eqn:E1; simpl;
      destruct (same_value_zero k k0) eqn:E2; auto.
    intros [= <-]. now left.
Qed.

Lemma capped_length (l : list Endpoints.LogEntry.t) (e : Endpoints.LogEntry.t) :
  (List.length l <= 1000)%nat ->
  (List.length (Endpoints.capped (l ++ [e])) <= 1000)%nat.
Proof.
  intros H. unfold Endpoints.capped. rewrite length_app. cbn [List.length].
  destruct (1000 <? Z.of_nat (List.length l + 1)) eqn:E.
  - destruct l as [ | x rest ]; cbn [app List.tl List.length] in *;
      [ lia | rewrite length_app; cbn [List.length]; lia ].
  - apply Z.ltb_ge in E. rewrite length_app. cbn [List.length]. lia.
Qed.

Lemma logAlarmEvent_bounded env deviceId alarmData alarmLogs :
  bounded alarmLogs ->
  bounded (fst (Endpoints.logAlarmEvent_body Endpoints.Disconnected env deviceId alarmData
                  alarmLogs)).
Proof.
  intros Hb. unfold Endpoints.logAlarmEvent_body.
  destruct (Endpoints.log_id deviceId env) as [i | ]; cbn [fst]; [ | exact Hb ].
  intros k l Hl. apply Map_get_set_cases in Hl. destruct Hl as [-> | Hl].
  - apply capped_length.
    destruct (Map_get deviceId alarmLogs) as [l0 | ] eqn:E;
      [ exact (Hb _ _ E) | simpl; lia ].
  - exact (Hb _ _ Hl).
Qed.

(** X20.  The in-memory alarm log is capped.  With the database not
    connected, if no device's log holds more than 1000 entries, then none
    does after the log calls of any trace of the pipeline have been carried
    out, whatever the devices, the alerts and the draws. *)
Theorem memory_log_is_capped envs i trace alarmLogs :
  bounded alarmLogs -> bounded (Endpoints.carry_out envs i trace alarmLogs).
Proof.
  revert i alarmLogs. induction trace as [ | e rest IH]; intros i alarmLogs Hb.
  - exact Hb.
  - destruct e as [room event body | deviceId alarmData]; cbn [Endpoints.carry_out].
    + now apply IH.
    + apply IH. now apply logAlarmEvent_bounded.
Qed.

Lemma memory_log_is_capped_witness :
  bounded (Endpoints.carry_out sample_draws 0 (effects twice) []).
Proof.
  apply (memory_log_is_capped sample_draws 0 (effects twice) []).
  intros k l H. discriminate H.
Defined.

(** X21.  The fall-back after a rejected save is not capped.  When
    [AlarmLog.create] rejects, the entry is pushed onto the device's
    in-memory log and nothing is evicted, however long the log is: the log
    is one entry longer and begins with all the entries it had.  (With the
    database not connected the same call keeps the log at 1000.) *)
Theorem rejected_save_grows_the_log env deviceId alarmData alarmLogs l s :
  ToString deviceId = Some s ->
  same_value_zero deviceId deviceId = true ->
  Map_get deviceId alarmLogs = Some l ->
  exists e,
    Map_get deviceId
      (fst (Endpoints.logAlarmEvent_body Endpoints.Rejects env deviceId alarmData alarmLogs))
    = Some (l ++ [e])%list /\
    Endpoints.LogEntry.alarm_type e = Alert.type alarmData /\
    Endpoints.LogEntry.acknowledged e = false.
Proof.
  intros Hs Hk Hl. unfold Endpoints.logAlarmEvent_body, Endpoints.log_id.
  rewrite Hs, Hl. cbn [bind option_Monad fst].
  rewrite (Map_get_set_same _ _ _ Hk). eexists. split; [ reflexivity | ].
  split; reflexivity.
Qed.

Lemma rejected_save_grows_the_log_witness :
  exists e,
    Map_get (VStr "OTSM-0114")
      (fst (Endpoints.logAlarmEvent_body Endpoints.Rejects (sample_draws 0)
              (VStr "OTSM-0114") (Alert.acknowledge "" VNull
                 (Alert.Build_t "a" "t" "s" "m" "ts" VNull VNull None zero "u" VNull None None))
              [ (VStr "OTSM-0114", []) ]))
    = Some [e] /\
    Endpoints.LogEntry.alarm_type e = "t".
Proof.
  destruct (rejected_save_grows_the_log (sample_draws 0) (VStr "OTSM-0114")
              (Alert.acknowledge "" VNull
                 (Alert.Build_t "a" "t" "s" "m" "ts" VNull VNull None zero "u" VNull None None))
              [ (VStr "OTSM-0114", []) ] [] "OTSM-0114"
              ltac:(reflexivity) ltac:(reflexivity) ltac:(reflexivity))
    as (e & He & Ht & _).
  exists e. split; [ exact He | exact Ht ].
Defined.

Lemma carry_out_logs envs i s deviceId alerts alarmLogs l :
  ToString deviceId = Some s ->
  same_value_zero deviceId deviceId = true ->
  Map_get deviceId alarmLogs = Some l \/ (Map_get deviceId alarmLogs = None /\ l = []) ->
  (List.length l + List.length alerts <= 1000)%nat ->
  (alerts <> [] ->
   Map_get deviceId
     (Endpoints.carry_out envs i (List.map (LogAlarmEvent deviceId) alerts) alarmLogs)
   = Some (l ++ entries_of envs i s deviceId alerts)%list) /\
  (forall k, same_value_zero k deviceId = false ->
     Map_get k (Endpoints.carry_out envs i (List.map (LogAlarmEvent deviceId) alerts) alarmLogs)
     = Map_get k alarmLogs).
Proof.
  intros Hs Hk. revert i alarmLogs l.
  induction alerts as [ | a rest IH]; intros i alarmLogs l Hl Hlen.
  - split; [ congruence | reflexivity ].
  - cbn [List.map Endpoints.carry_out entries_of].
    unfold Endpoints.logAlarmEvent_body, Endpoints.log_id.
    rewrite Hs. cbn [bind option_Monad fst].
    set (e := Endpoints.LogEntry.with_id _ _).
    assert (Hdev : match Map_get deviceId alarmLogs with Some l0 => l0 | None => [] end = l).
    { destruct Hl as [-> | [-> ->]]; reflexivity. }
    rewrite Hdev.
    assert (Hcap : Endpoints.capped (l ++ [e]) = (l ++ [e])%list).
    { unfold Endpoints.capped. rewrite length_app. cbn [List.length] in *.
      destruct (1000 <? Z.of_nat (List.length l + 1)) eqn:E; [ | reflexivity ].
      apply Z.ltb_lt in E. lia. }
    rewrite Hcap.
    destruct (IH (S i) (Map_set deviceId (l ++ [e])%list alarmLogs) (l ++ [e])%list)
      as [IH1 IH2].
    { left. apply (Map_get_set_same _ _ _ Hk). }
    { rewrite length_app. cbn [List.length] in *. lia. }
    split.
    + intros _. destruct rest as [ | b rest' ].
      * cbn [List.map Endpoints.carry_out entries_of].
        apply (Map_get_set_same _ _ _ Hk).
      * rewrite IH1 by discriminate. now rewrite <- app_assoc.
    + intros k Hne. rewrite (IH2 k Hne). now apply Map_get_set_other.
Qed.

Lemma log_calls_app (a b : list effect) : log_calls (a ++ b) = (log_calls a ++ log_calls b)%list.
Proof. apply filter_app. Qed.

Lemma log_calls_logs deviceId alerts :
  log_calls (List.map (LogAlarmEvent deviceId) alerts) = List.map (LogAlarmEvent deviceId) alerts.
Proof. induction alerts as [ | a rest IH]; simpl; [ reflexivity | now rewrite IH ]. Qed.

Lemma carry_out_log_calls envs i trace alarmLogs :
  Endpoints.carry_out envs i (log_calls trace) alarmLogs
  = Endpoints.carry_out envs i trace alarmLogs.
Proof.
  revert i alarmLogs. induction trace as [ | e rest IH]; intros i alarmLogs; [ reflexivity | ].
  destruct e; cbn [log_calls List.filter Endpoints.carry_out]; apply IH.
Qed.

Lemma handled_log_calls clk n st s alerts :
  ToString (Normalized.serial_number n) = Some s ->
  all_built (fault_part clk n ++ threshold_part clk n) = Some alerts ->
  log_calls (effects (handled clk n st))
  = (log_calls (effects st)
     ++ List.map (LogAlarmEvent (Normalized.serial_number n)) alerts)%list.
Proof.
  intros Hs Hb. unfold handled. rewrite Hs, Hb.
  destruct alerts as [ | a rest ]; cbn [effects].
  - rewrite log_calls_app. reflexivity.
  - destruct (spread _); cbn [effects]; rewrite log_calls_app;
      change (?x :: ?l)%list with ([x] ++ l)%list at 1.
    + rewrite (log_calls_app [_]), (log_calls_app (List.map _ _)), log_calls_logs.
      cbn [log_calls List.filter]. now rewrite app_nil_r.
    + rewrite (log_calls_app [_]), log_calls_logs. reflexivity.
Qed.

(** X22.  Every alert of a message is logged once.  With the database not
    connected and the log calls made before the message already carried
    out, handling a message whose record's serial number prints (and, as a
    map key, equals itself) appends to the in-memory log of that serial
    number one entry per alert the engine returned, in the engine's order,
    each unacknowledged and with an id of its own call's time and random
    text, as long as the log stays within 1000 entries; the logs of all
    other devices are untouched.  This holds also when the alerts
    themselves could not be stored or broadcast. *)
Theorem alerts_are_logged_once envs i clk message st n s alerts alarmLogs :
  normalized clk message = Some n ->
  ToString (Normalized.serial_number n) = Some s ->
  same_value_zero (Normalized.serial_number n) (Normalized.serial_number n) = true ->
  fst (generateSubtronicsAlerts clk n st) = Some alerts ->
  alerts <> [] ->
  let before := match Map_get (Normalized.serial_number n) alarmLogs with
                | Some l => l
                | None => []
                end in
  (List.length before + List.length alerts <= 1000)%nat ->
  let trace := skipn (List.length (log_calls (effects st)))
                 (log_calls (effects (on_message clk "SubTronics/data" message st))) in
  Map_get (Normalized.serial_number n) (Endpoints.carry_out envs i trace alarmLogs)
  = Some (before ++ entries_of envs i s (Normalized.serial_number n) alerts)%list /\
  forall k, same_value_zero k (Normalized.serial_number n) = false ->
    Map_get k (Endpoints.carry_out envs i trace alarmLogs) = Map_get k alarmLogs.
Proof.
  intros Hn Hs Hk Hgen Hne before Hlen.
  rewrite (on_message_handled clk message st n Hn).
  destruct (generate_run clk n st s Hs) as (alerts' & Hb & Hrun).
  rewrite Hrun in Hgen. cbn [fst] in Hgen. injection Hgen as ->.
  rewrite (handled_log_calls clk n st s alerts Hs Hb).
  rewrite skipn_app, skipn_all, Nat.sub_diag. cbn [skipn app].
  assert (Hl : Map_get (Normalized.serial_number n) alarmLogs = Some before \/
               (Map_get (Normalized.serial_number n) alarmLogs = None /\ before = [])).
  { subst before. destruct (Map_get (Normalized.serial_number n) alarmLogs); auto. }
  destruct (carry_out_logs envs i s (Normalized.serial_number n) alerts alarmLogs before
              Hs Hk Hl Hlen) as [H1 H2].
  split; [ now apply H1 | exact H2 ].
Qed.

Lemma alerts_are_logged_once_witness :
  exists entries,
    Map_get (VStr "OTSM-0114")
      (Endpoints.carry_out sample_draws 0
         (skipn (List.length (log_calls (effects empty)))
            (log_calls (effects (on_message noon "SubTronics/data" scenario empty))))
         [])
    = Some entries /\
    List.length entries = 1%nat.
Proof.
  exists ([] ++ entries_of sample_draws 0 "OTSM-0114" (Normalized.serial_number scenario_record)
                  scenario_alerts)%list.
  split; [ | reflexivity ].
  exact (proj1 (alerts_are_logged_once sample_draws 0 noon scenario empty scenario_record
                  "OTSM-0114" scenario_alerts []
                  ltac:(vm_compute; reflexivity) ltac:(vm_compute; reflexivity)
                  ltac:(vm_compute; reflexivity) ltac:(vm_compute; reflexivity)
                  ltac:(discriminate) ltac:(vm_compute; lia))).
Defined.

(** ** The test endpoint and the device id of the URL *)



